(** * hw_python_oop: the fitness-tracker module [homework.py]

    A shallow embedding of the module's four workout classes, the
    [InfoMessage] report and the [read_package] factory, together with the
    fragment of the Python runtime they rely on: exceptions, arbitrary
    precision integers, binary64 floats, attribute lookup through the
    method resolution order, dictionaries and [str.format]. *)

From Stdlib Require Import ZArith List String Ascii Bool Lia Floats DecimalString.
Import ListNotations.

(* A literal such as [0.65] denotes the nearest binary64 value, as it does
   in Python. *)
Set Warnings "-inexact-float".

Local Open Scope string_scope.
Local Open Scope Z_scope.

(** ** The Python runtime fragment *)

Module Py.

(** Exceptions the module can raise, with the payload that identifies them. *)
Inductive exn :=
| ValueError (msg : string)
| KeyError (key : string)
| TypeError
| ZeroDivisionError
| OverflowError
| NotImplementedError (msg : string)
| AttributeError (name : string).

(** A call either returns a value or raises. *)
Inductive result (A : Type) :=
| Ok (a : A)
| Raise (e : exn).
Arguments Ok {A} a.
Arguments Raise {A} e.

Definition bind {A B} (c : result A) (k : A -> result B) : result B :=
  match c with
  | Ok a => k a
  | Raise e => Raise e
  end.

Notation "x <- c ;; k" := (bind c (fun x => k))
  (at level 61, c at next level, right associativity).

(** Numbers: [int] is unbounded, [float] is IEEE 754 binary64. *)
Inductive num :=
| PyInt (z : Z)
| PyFloat (f : float).

(** [float(z)]: the nearest double, ties to even; [OverflowError] when the
    integer is too large for a double. *)
Definition float_of_Z (z : Z) : result float :=
  match binary_normalize prec emax z 0 false with
  | S754_infinity _ => Raise OverflowError
  | sf => Ok (SF2Prim sf)
  end.

Definition as_float (n : num) : result float :=
  match n with
  | PyInt z => float_of_Z z
  | PyFloat f => Ok f
  end.

(** An integer as an exact (unrounded) binary fraction. *)
Definition SF_of_Z (z : Z) : spec_float :=
  match z with
  | Z0 => S754_zero false
  | Zpos p => S754_finite false p 0
  | Zneg p => S754_finite true p 0
  end.

(** [a / b] on two integers: the correctly rounded quotient. *)
Definition int_truediv (a b : Z) : result float :=
  if b =? 0 then Raise ZeroDivisionError
  else match SFdiv prec emax (SF_of_Z a) (SF_of_Z b) with
       | S754_infinity _ => Raise OverflowError
       | sf => Ok (SF2Prim sf)
       end.

(** [a / b] on doubles: Python raises where IEEE 754 would return an
    infinity or a NaN for a zero divisor. *)
Definition float_truediv (a b : float) : result float :=
  if PrimFloat.eqb b 0%float then Raise ZeroDivisionError
  else Ok (a / b)%float.

Definition py_mul (x y : num) : result num :=
  match x, y with
  | PyInt a, PyInt b => Ok (PyInt (a * b))
  | _, _ => a <- as_float x ;; b <- as_float y ;; Ok (PyFloat (a * b)%float)
  end.

Definition py_add (x y : num) : result num :=
  match x, y with
  | PyInt a, PyInt b => Ok (PyInt (a + b))
  | _, _ => a <- as_float x ;; b <- as_float y ;; Ok (PyFloat (a + b)%float)
  end.

Definition py_truediv (x y : num) : result num :=
  match x, y with
  | PyInt a, PyInt b => q <- int_truediv a b ;; Ok (PyFloat q)
  | _, _ => a <- as_float x ;; b <- as_float y ;;
            q <- float_truediv a b ;; Ok (PyFloat q)
  end.

(** Neither an infinity nor a NaN. *)
Definition float_finite (f : float) : bool :=
  match Prim2SF f with
  | S754_zero _ | S754_finite _ _ _ => true
  | _ => false
  end.

(** The C library. On a double, CPython computes [x ** 2] with the
    library's [pow(x, 2.0)]. The function is not correctly rounded and its
    last bit differs from one library to another, so the library the
    interpreter is linked with is a parameter of the runtime: [pow_2 x] is
    its [pow(x, 2.0)]. *)
Class Libm := { pow_2 : float -> float }.

(** [x ** 2]. On an integer the square is exact. On a double it is
    [float_pow]: a NaN is returned as it is, an infinity gives [inf], a zero
    [0.0], and [1.0] or [-1.0] gives [1.0], without a call of the library;
    any other base is passed by its absolute value to the library's [pow],
    and an infinite result raises [OverflowError]. (The library is taken to
    report a range error only together with an infinite or a zero result,
    as the usual ones do; the zero is then returned.) *)
Definition py_pow2 {L : Libm} (x : num) : result num :=
  match x with
  | PyInt a => Ok (PyInt (a * a))
  | PyFloat a =>
      if is_nan a then Ok (PyFloat a)
      else if is_infinity a then Ok (PyFloat infinity)
      else if PrimFloat.eqb a 0%float then Ok (PyFloat 0%float)
      else if PrimFloat.eqb (abs a) 1%float then Ok (PyFloat 1%float)
      else
        let p := pow_2 (abs a) in
        if is_infinity p then Raise OverflowError else Ok (PyFloat p)
  end.

(** A library whose [pow(x, 2.0)] is the correctly rounded square. *)
Definition correctly_rounded : Libm := {| pow_2 := fun x => (x * x)%float |}.

(** A library whose [pow(x, 2.0)] is within one unit in the last place of
    the correctly rounded square, as the documented error bounds of the
    usual libraries (below one unit in the last place of the exact result)
    imply. *)
Definition accurate (L : Libm) : Prop :=
  forall x,
    pow_2 x = next_down (x * x)%float \/ pow_2 x = (x * x)%float
    \/ pow_2 x = next_up (x * x)%float.

(** [0 < x], the validity condition on durations, weights and heights. *)
Definition num_pos (x : num) : bool :=
  match x with
  | PyInt z => 0 <? z
  | PyFloat f => PrimFloat.ltb 0%float f
  end.

Definition num_nonneg (x : num) : bool :=
  match x with
  | PyInt z => 0 <=? z
  | PyFloat f => PrimFloat.leb 0%float f
  end.

(** *** Fixed-point formatting, [format(x, '.Nf')] *)

(** The integer nearest to [m * 2^e * 10^p], ties to even. *)
Definition scaled_round (p : nat) (m : positive) (e : Z) : Z :=
  let n := Zpos m * 10 ^ Z.of_nat p in
  match e with
  | Zneg k =>
      let d := 2 ^ Zpos k in
      let q := n / d in
      match (2 * (n mod d)) ?= d with
      | Lt => q
      | Gt => q + 1
      | Eq => if Z.even q then q else q + 1
      end
  | _ => n * 2 ^ e
  end.

Definition digits_of (n : Z) : string :=
  NilZero.string_of_uint (N.to_uint (Z.to_N n)).

Fixpoint zeros (k : nat) : string :=
  match k with
  | O => ""
  | S k' => "0" ++ zeros k'
  end.

(** [s] brought to at least [p] characters with zeros on the left. *)
Definition pad_left (p : nat) (s : string) : string :=
  zeros (p - String.length s) ++ s.

(** The decimal rendering of [n / 10^p] with exactly [p] decimals. *)
Definition fixed_point (p : nat) (n : Z) : string :=
  let scale := 10 ^ Z.of_nat p in
  digits_of (n / scale) ++
  match p with
  | O => ""
  | _ => "." ++ pad_left p (digits_of (n mod scale))
  end.

Definition sign_str (s : bool) : string := if s then "-" else "".

Definition format_float (p : nat) (f : float) : string :=
  match Prim2SF f with
  | S754_nan => "nan"
  | S754_infinity s => sign_str s ++ "inf"
  | S754_zero s => sign_str s ++ fixed_point p 0
  | S754_finite s m e => sign_str s ++ fixed_point p (scaled_round p m e)
  end.

(** An integer is converted to a double first. *)
Definition format_f (p : nat) (x : num) : result string :=
  f <- as_float x ;; Ok (format_float p f).

(** *** Dictionaries

    Keys are hashable objects: strings, and class objects (identified by
    their name). Insertion order is kept, as in Python. *)

Inductive key :=
| KStr (s : string)
| KClass (name : string).

Definition key_eqb (a b : key) : bool :=
  match a, b with
  | KStr x, KStr y => String.eqb x y
  | KClass x, KClass y => String.eqb x y
  | _, _ => false
  end.

Definition key_repr (k : key) : string :=
  match k with
  | KStr s => s
  | KClass n => n
  end.

Definition dict (V : Type) := list (key * V).

(** [k in d] *)
Definition dict_contains {V} (d : dict V) (k : key) : bool :=
  existsb (fun kv => key_eqb k (fst kv)) d.

(** [d[k]] *)
Definition dict_get {V} (d : dict V) (k : key) : result V :=
  match find (fun kv => key_eqb k (fst kv)) d with
  | Some kv => Ok (snd kv)
  | None => Raise (KeyError (key_repr k))
  end.

(** *** [str.format]

    The fragment used by the report: replacement fields [{name}] and
    [{name:spec}] filled from keyword arguments, a string formatted with
    the empty spec and a number with a [.Nf] spec. Brace escapes and the
    other format codes are outside the fragment and rejected. *)

Inductive arg :=
| AStr (s : string)
| ANum (n : num).

Inductive piece :=
| Lit (s : string)
| Field (name spec : string).

Inductive scan :=
| InLit (lit : string)
| InName (name : string)
| InSpec (name spec : string).

Definition snoc (s : string) (c : ascii) : string := s ++ String c "".

Fixpoint parse_fields (s : string) (st : scan) (acc : list piece)
  : result (list piece) :=
  match s with
  | EmptyString =>
      match st with
      | InLit lit => Ok (rev (Lit lit :: acc))
      | _ => Raise (ValueError "expected '}' before end of string")
      end
  | String c s' =>
      match st with
      | InLit lit =>
          if Ascii.eqb c "{" then parse_fields s' (InName "") (Lit lit :: acc)
          else if Ascii.eqb c "}"
               then Raise (ValueError "Single '}' encountered in format string")
               else parse_fields s' (InLit (snoc lit c)) acc
      | InName n =>
          if Ascii.eqb c ":" then parse_fields s' (InSpec n "") acc
          else if Ascii.eqb c "}"
               then parse_fields s' (InLit "") (Field n "" :: acc)
               else parse_fields s' (InName (snoc n c)) acc
      | InSpec n sp =>
          if Ascii.eqb c "}"
          then parse_fields s' (InLit "") (Field n sp :: acc)
          else parse_fields s' (InSpec n (snoc sp c)) acc
      end
  end.

Definition parse_template (s : string) : result (list piece) :=
  parse_fields s (InLit "") [].

Definition digit_val (c : ascii) : option nat :=
  let n := nat_of_ascii c in
  if ((48 <=? n) && (n <=? 57))%nat then Some (n - 48)%nat else None.

Fixpoint read_precision (s : string) (acc : nat) : option nat :=
  match s with
  | EmptyString => None
  | String c s' =>
      if Ascii.eqb c "f"
      then match s' with EmptyString => Some acc | _ => None end
      else match digit_val c with
           | Some d => read_precision s' (10 * acc + d)%nat
           | None => None
           end
  end.

(** The precision [N] of a spec [.Nf]. *)
Definition spec_precision (spec : string) : option nat :=
  match spec with
  | String c (String d rest) =>
      if Ascii.eqb c "." && negb (Ascii.eqb d "f")
      then read_precision (String d rest) 0
      else None
  | _ => None
  end.

Definition format_value (a : arg) (spec : string) : result string :=
  match a with
  | AStr s =>
      if String.eqb spec "" then Ok s
      else Raise (ValueError "Unknown format code for object of type 'str'")
  | ANum n =>
      match spec_precision spec with
      | Some p => format_f p n
      | None => Raise (ValueError "Unknown format code for a number")
      end
  end.

Definition kwargs := list (string * arg).

Definition kw_get (kw : kwargs) (name : string) : result arg :=
  match find (fun na => String.eqb name (fst na)) kw with
  | Some na => Ok (snd na)
  | None => Raise (KeyError name)
  end.

Fixpoint render (ps : list piece) (kw : kwargs) : result string :=
  match ps with
  | [] => Ok ""
  | Lit s :: ps' => rest <- render ps' kw ;; Ok (s ++ rest)
  | Field name spec :: ps' =>
      a <- kw_get kw name ;;
      v <- format_value a spec ;;
      rest <- render ps' kw ;;
      Ok (v ++ rest)
  end.

(** [template.format] applied to keyword arguments [kw]. *)
Definition str_format (template : string) (kw : kwargs) : result string :=
  ps <- parse_template template ;; render ps kw.

(** *** Expressions

    A binary operation evaluates its left operand, then its right one, then
    applies the operator; an exception raised on the way propagates. *)

Definition lift2 (op : num -> num -> result num) (x y : result num)
  : result num :=
  a <- x ;; b <- y ;; op a b.

Definition pow2 {L : Libm} (x : result num) : result num :=
  a <- x ;; py_pow2 a.

Definition int (z : Z) : result num := Ok (PyInt z).
Definition flt (f : float) : result num := Ok (PyFloat f).

Declare Scope py_scope.
Delimit Scope py_scope with py.
Notation "x * y" := (lift2 py_mul x y) : py_scope.
Notation "x / y" := (lift2 py_truediv x y) : py_scope.
Notation "x + y" := (lift2 py_add x y) : py_scope.

End Py.

Import Py.

(** ** The module [homework.py] *)

(** *** class InfoMessage *)

Definition MESSAGE_TEMPLATE : string :=
  "Тип тренировки: {training_type}; " ++
  "Длительность: {duration:.3f} ч.; " ++
  "Дистанция: {distance:.3f} км; " ++
  "Ср. скорость: {speed:.3f} км/ч; " ++
  "Потрачено ккал: {calories:.3f}.".

Record InfoMessage := mkInfoMessage {
  training_type : string;
  duration : num;
  distance : num;
  speed : num;
  calories : num
}.

Definition get_message (self : InfoMessage) : result string :=
  str_format MESSAGE_TEMPLATE
    [ ("training_type", AStr (training_type self));
      ("duration", ANum (duration self));
      ("distance", ANum (distance self));
      ("speed", ANum (speed self));
      ("calories", ANum (calories self)) ].

(** *** The class hierarchy *)

Inductive cls := Training | Running | SportsWalking | Swimming.

Definition class_name (c : cls) : string :=
  match c with
  | Training => "Training"
  | Running => "Running"
  | SportsWalking => "SportsWalking"
  | Swimming => "Swimming"
  end.

Definition base (c : cls) : option cls :=
  match c with
  | Training => None
  | Running | SportsWalking | Swimming => Some Training
  end.

(** Method resolution order: the class, then its base. *)
Definition mro (c : cls) : list cls :=
  match base c with
  | Some b => [c; b]
  | None => [c]
  end.

(** The constants each class body binds itself. *)
Definition class_dict (c : cls) : list (string * num) :=
  match c with
  | Training =>
      [ ("LEN_STEP", PyFloat 0.65); ("M_IN_KM", PyInt 1000);
        ("M_IN_H", PyInt 60) ]
  | Running =>
      [ ("CALORIES_MEAN_SPEED_MULTIPLIER", PyInt 18);
        ("CALORIES_MEAN_SPEED_SHIFT", PyFloat 1.79) ]
  | SportsWalking =>
      [ ("CALORIES_VELOCITY_MULTIPLIER", PyFloat 0.035);
        ("CALORIES_WEIGHT_MULTIPLIER", PyFloat 0.029);
        ("M_PER_SEC", PyFloat 0.278); ("HGT_IN_M", PyInt 100) ]
  | Swimming =>
      [ ("LEN_STEP", PyFloat 1.38); ("MEAN_SPEED_SHIFT", PyFloat 1.1);
        ("MEAN_SPEED_MULTIPLIER", PyInt 2) ]
  end.

Inductive method :=
| m_init
| m_get_distance
| m_get_mean_speed
| m_get_spent_calories
| m_show_training_info.

(** The methods each class body defines itself. *)
Definition defines (c : cls) (m : method) : bool :=
  match c, m with
  | Training, _ => true
  | Running, m_get_spent_calories => true
  | SportsWalking, (m_init | m_get_spent_calories) => true
  | Swimming, (m_init | m_get_distance | m_get_mean_speed
               | m_get_spent_calories) => true
  | _, _ => false
  end.

(** The class whose definition a call of [m] on an instance of [c] runs. *)
Definition resolve (c : cls) (m : method) : option cls :=
  find (fun k => defines k m) (mro c).

(** *** Instances *)

Record obj := mkObj {
  class_of : cls;
  inst_dict : list (string * num)
}.

Fixpoint assoc_get (d : list (string * num)) (k : string) : option num :=
  match d with
  | [] => None
  | (k', v) :: d' => if String.eqb k k' then Some v else assoc_get d' k
  end.

Fixpoint assoc_set (d : list (string * num)) (k : string) (v : num)
  : list (string * num) :=
  match d with
  | [] => [(k, v)]
  | (k', v') :: d' =>
      if String.eqb k k' then (k, v) :: d' else (k', v') :: assoc_set d' k v
  end.

Fixpoint class_get (cs : list cls) (k : string) : option num :=
  match cs with
  | [] => None
  | c :: cs' =>
      match assoc_get (class_dict c) k with
      | Some v => Some v
      | None => class_get cs' k
      end
  end.

(** [self.name]: the instance's own attributes, then the classes of the
    resolution order. *)
Definition getattr (self : obj) (name : string) : result num :=
  match assoc_get (inst_dict self) name with
  | Some v => Ok v
  | None =>
      match class_get (mro (class_of self)) name with
      | Some v => Ok v
      | None => Raise (AttributeError name)
      end
  end.

(** [self.name = v] *)
Definition setattr (self : obj) (name : string) (v : num) : obj :=
  mkObj (class_of self) (assoc_set (inst_dict self) name v).

(** *** Constructors *)

Definition Training_init (self : obj) (action duration weight : num) : obj :=
  let self := setattr self "action" action in
  let self := setattr self "duration" duration in
  setattr self "weight" weight.

Definition SportsWalking_init (self : obj)
  (action duration weight height : num) : obj :=
  let self := Training_init self action duration weight in
  setattr self "height" height.

Definition Swimming_init (self : obj)
  (action duration weight length_pool count_pool : num) : obj :=
  let self := Training_init self action duration weight in
  let self := setattr self "length_pool" length_pool in
  setattr self "count_pool" count_pool.

(** [c( *data )]: a fresh instance of [c] initialised by the [__init__] the
    class resolves to; a wrong number of arguments is a [TypeError]. *)
Definition instantiate (c : cls) (data : list num) : result obj :=
  let self := mkObj c [] in
  match resolve c m_init, data with
  | Some Training, [a; d; w] => Ok (Training_init self a d w)
  | Some SportsWalking, [a; d; w; h] => Ok (SportsWalking_init self a d w h)
  | Some Swimming, [a; d; w; lp; cp] => Ok (Swimming_init self a d w lp cp)
  | _, _ => Raise TypeError
  end.

(** *** get_distance *)

Definition Training_get_distance (self : obj) : result num :=
  (getattr self "action" * getattr self "LEN_STEP"
   / getattr self "M_IN_KM")%py.

Definition Swimming_get_distance (self : obj) : result num :=
  (getattr self "action" * getattr self "LEN_STEP"
   / getattr self "M_IN_KM" / getattr self "duration")%py.

(** [self.get_distance()] *)
Definition get_distance (self : obj) : result num :=
  match resolve (class_of self) m_get_distance with
  | Some Swimming => Swimming_get_distance self
  | Some Training => Training_get_distance self
  | _ => Raise (AttributeError "get_distance")
  end.

(** *** get_mean_speed *)

Definition Training_get_mean_speed (self : obj) : result num :=
  (get_distance self / getattr self "duration")%py.

Definition Swimming_get_mean_speed (self : obj) : result num :=
  (getattr self "length_pool" * getattr self "count_pool"
   / getattr self "M_IN_KM" / getattr self "duration")%py.

(** [self.get_mean_speed()] *)
Definition get_mean_speed (self : obj) : result num :=
  match resolve (class_of self) m_get_mean_speed with
  | Some Swimming => Swimming_get_mean_speed self
  | Some Training => Training_get_mean_speed self
  | _ => Raise (AttributeError "get_mean_speed")
  end.

(** The methods from here on may reach [**]: they are those of the module
    run by an interpreter linked with the library [L]. *)
Section Linked.
Context {L : Libm}.

(** *** get_spent_calories *)

Definition Training_get_spent_calories (self : obj) : result num :=
  Raise (NotImplementedError "Individual_formula").

Definition Running_get_spent_calories (self : obj) : result num :=
  mean <- get_mean_speed self ;;
  ((getattr self "CALORIES_MEAN_SPEED_MULTIPLIER" * Ok mean
    + getattr self "CALORIES_MEAN_SPEED_SHIFT")
   * getattr self "weight" / getattr self "M_IN_KM"
   * getattr self "duration" * int 60)%py.

Definition SportsWalking_get_spent_calories (self : obj) : result num :=
  speed_ms <- (get_mean_speed self * getattr self "M_PER_SEC")%py ;;
  ((getattr self "CALORIES_VELOCITY_MULTIPLIER" * getattr self "weight"
    + (pow2 (Ok speed_ms)
       / (getattr self "height" / getattr self "HGT_IN_M"))
      * getattr self "CALORIES_WEIGHT_MULTIPLIER" * getattr self "weight")
   * (getattr self "duration" * getattr self "M_IN_H"))%py.

Definition Swimming_get_spent_calories (self : obj) : result num :=
  ((get_mean_speed self + getattr self "MEAN_SPEED_SHIFT")
   * getattr self "MEAN_SPEED_MULTIPLIER"
   * getattr self "weight"
   * getattr self "duration")%py.

(** [self.get_spent_calories()] *)
Definition get_spent_calories (self : obj) : result num :=
  match resolve (class_of self) m_get_spent_calories with
  | Some Training => Training_get_spent_calories self
  | Some Running => Running_get_spent_calories self
  | Some SportsWalking => SportsWalking_get_spent_calories self
  | Some Swimming => Swimming_get_spent_calories self
  | None => Raise (AttributeError "get_spent_calories")
  end.

(** *** show_training_info *)

Definition Training_show_training_info (self : obj) : result InfoMessage :=
  let name := class_name (class_of self) in
  duration <- getattr self "duration" ;;
  dist <- get_distance self ;;
  mean <- get_mean_speed self ;;
  cal <- get_spent_calories self ;;
  Ok (mkInfoMessage name duration dist mean cal).

(** [self.show_training_info()] *)
Definition show_training_info (self : obj) : result InfoMessage :=
  match resolve (class_of self) m_show_training_info with
  | Some Training => Training_show_training_info self
  | _ => Raise (AttributeError "show_training_info")
  end.

(** *** __str__ *)

(** [Training.__str__]: the f-string formats the class name with the empty
    spec. *)
Definition Training_str (self : obj) : result string :=
  format_value (AStr (class_name (class_of self))) "".

(** [str(self)]: no subclass defines a [__str__] of its own, so every
    instance runs [Training.__str__]. *)
Definition py_str (self : obj) : result string := Training_str self.

(** *** read_package and main *)

Definition training_types : dict cls :=
  [ (KStr "RUN", Running); (KStr "WLK", SportsWalking);
    (KStr "SWM", Swimming) ].

Definition read_package (training_type : string) (data : list num)
  : result obj :=
  if dict_contains training_types (KClass "ValueError")
  then Raise (ValueError ("Unknown workout type: " ++ training_type))
  else
    training_class <- dict_get training_types (KStr training_type) ;;
    instantiate training_class data.

(** [main] prints one line; the line is its result here. *)
Definition main (main_training : obj) : result string :=
  message <- show_training_info main_training ;;
  get_message message.

(** The three packages of the module's entry point. *)
Definition packages : list (string * list num) :=
  [ ("SWM", [PyInt 720; PyInt 1; PyInt 80; PyInt 25; PyInt 40]);
    ("RUN", [PyInt 15000; PyInt 1; PyInt 75]);
    ("WLK", [PyInt 9000; PyInt 1; PyInt 75; PyInt 180]) ].

Definition run_package (p : string * list num) : result string :=
  training <- read_package (fst p) (snd p) ;; main training.

(** The loop of the entry point: each package is read and reported in
    turn. The result is the lines printed and the exception that stopped
    the run, if any. *)
Fixpoint run_packages (ps : list (string * list num))
  : list string * option exn :=
  match ps with
  | [] => ([], None)
  | p :: ps' =>
      match run_package p with
      | Ok line =>
          let (out, e) := run_packages ps' in (line :: out, e)
      | Raise e => ([], Some e)
      end
  end.

(** The module run as a script. *)
Definition script : list string * option exn := run_packages packages.

End Linked.

(** A method called on a freshly constructed instance: [c( *data ).m()]. *)
Definition on_new {A} (c : cls) (data : list num) (m : obj -> result A)
  : result A :=
  self <- instantiate c data ;; m self.

(** ** The formulas and the template in the specification's words *)

Module Spec.

Definition distance_steps (action_count : num) : result num :=
  (Ok action_count * flt 0.65 / int 1000)%py.

Definition distance_strokes (action_count duration_hours : num)
  : result num :=
  (Ok action_count * flt 1.38 / int 1000 / Ok duration_hours)%py.

Definition mean_speed_pool (pool_length_m pool_lap_count duration_hours : num)
  : result num :=
  (Ok pool_length_m * Ok pool_lap_count / int 1000 / Ok duration_hours)%py.

Definition calories_running (mean_speed weight_kg duration_hours : num)
  : result num :=
  ((int 18 * Ok mean_speed + flt 1.79) * Ok weight_kg / int 1000
   * Ok duration_hours * int 60)%py.

Definition calories_walking {L : Libm}
  (mean_speed weight_kg height_cm duration_hours : num) : result num :=
  speed_ms <- (Ok mean_speed * flt 0.278)%py ;;
  ((flt 0.035 * Ok weight_kg
    + (pow2 (Ok speed_ms) / (Ok height_cm / int 100))
      * flt 0.029 * Ok weight_kg)
   * (Ok duration_hours * int 60))%py.

Definition calories_swimming (mean_speed weight_kg duration_hours : num)
  : result num :=
  ((Ok mean_speed + flt 1.1) * int 2 * Ok weight_kg * Ok duration_hours)%py.

Definition REPORT_TEMPLATE : string :=
  "Workout type: {variant_label}; Duration: {duration:.3f} h; " ++
  "Distance: {distance:.3f} km; Avg. speed: {speed:.3f} km/h; " ++
  "Calories burned: {calories:.3f}.".

End Spec.

(** ** Rendered numbers, decimal neighbourhoods and the example packages *)

Definition is_digit (c : ascii) : bool :=
  match digit_val c with Some _ => true | None => false end.

Definition frac3 (s : string) : bool :=
  match s with
  | String a (String b (String c EmptyString)) =>
      is_digit a && is_digit b && is_digit c
  | _ => false
  end.

(** Digits, a point, three digits; [seen] tells whether a digit was read. *)
Fixpoint int_point_frac3 (s : string) (seen : bool) : bool :=
  match s with
  | EmptyString => false
  | String c s' =>
      if is_digit c then int_point_frac3 s' true
      else if Ascii.eqb c "." then seen && frac3 s'
      else false
  end.

(** An optional minus sign, at least one digit, a point, exactly three
    digits. *)
Definition three_decimals (s : string) : bool :=
  match s with
  | String c s' =>
      if Ascii.eqb c "-" then int_point_frac3 s' false
      else int_point_frac3 s false
  | EmptyString => false
  end.

Fixpoint all_digits (s : string) : bool :=
  match s with
  | EmptyString => true
  | String c s' => is_digit c && all_digits s'
  end.

(** [|f - n / 10^k| <= 10^-j], decided on the exact binary expansion of the
    double [f]. *)
Definition near_decimal (f : float) (n : Z) (k j : nat) : bool :=
  let K := 10 ^ Z.of_nat k in
  let J := 10 ^ Z.of_nat j in
  match Prim2SF f with
  | S754_zero _ => Z.abs n * J <=? K
  | S754_finite s m e =>
      let M := if s then Z.neg m else Z.pos m in
      match e with
      | Zneg t => Z.abs (M * K - n * 2 ^ Z.pos t) * J <=? 2 ^ Z.pos t * K
      | _ => Z.abs (M * 2 ^ e * K - n) * J <=? K
      end
  | _ => false
  end.

(** A method called on the instance [read_package] builds. *)
Definition on_package {A} (training_type : string) (data : list num)
  (m : obj -> result A) : result A :=
  self <- read_package training_type data ;; m self.

Definition swm_data : list num := [PyInt 720; PyInt 1; PyInt 80; PyInt 25; PyInt 40].
Definition run_data : list num := [PyInt 15000; PyInt 1; PyInt 75].
Definition wlk_data : list num := [PyInt 9000; PyInt 1; PyInt 75; PyInt 180].

(** The report as the specification words it. *)
Definition spec_report (m : InfoMessage) : result string :=
  str_format Spec.REPORT_TEMPLATE
    [ ("variant_label", AStr (training_type m));
      ("duration", ANum (duration m));
      ("distance", ANum (distance m));
      ("speed", ANum (speed m));
      ("calories", ANum (calories m)) ].

(** ** Zero readings and the errors of arithmetic *)
(** [x == 0] *)
Definition num_zero (x : num) : bool :=
  match x with
  | PyInt z => z =? 0
  | PyFloat f => PrimFloat.eqb f 0%float
  end.

(** The two exceptions arithmetic on numbers can raise. *)
Definition arith_error (e : exn) : Prop :=
  e = ZeroDivisionError \/ e = OverflowError.

(** A call that fails by arithmetic only, if it fails. *)
Definition only_arith {A} (r : result A) : Prop :=
  forall e, r = Raise e -> arith_error e.


(** ** Rounding in binary64

    The operations on doubles are specified by [SpecFloat]: an exact result
    is shifted to its binade with a round and a sticky bit, then rounded to
    the nearest even mantissa. This module describes that pipeline by
    integer arithmetic and derives that multiplication, division and
    addition of non-negative doubles are monotone. *)

Module Binary64.

(** Sticky quotient: twice the floor of [a / b], plus one when inexact. *)
Definition sticky_quot (a b : Z) : Z := 2 * (a / b) + (if a mod b =? 0 then 0 else 1).

(** Round to nearest, ties to even, of a value given by its code: four
    times the floor, plus the round bit (2) and the sticky bit (1). *)
Definition round_even (c : Z) : Z :=
  let m := c / 4 in
  let r := c mod 4 in
  if r <? 2 then m
  else if r =? 2 then (if Z.even m then m else m + 1)
  else m + 1.

(** The round and sticky bits of a location. *)
Definition loc_code (l : location) : Z :=
  match l with
  | loc_Exact => 0
  | loc_Inexact Lt => 1
  | loc_Inexact Eq => 2
  | loc_Inexact Gt => 3
  end.

(** The code of a shift record. *)
Definition record_code (mrs : shr_record) : Z :=
  4 * shr_m mrs + (if shr_r mrs then 2 else 0) + (if shr_s mrs then 1 else 0).

(** The double built from a rounded mantissa [M <= 2^53] at exponent [E]. *)
Definition round_result (sx : bool) (M E : Z) : spec_float :=
  if M =? 0 then S754_zero sx
  else if M <? 2 ^ 53
       then (if E <=? 971 then S754_finite sx (Z.to_pos M) E
             else S754_infinity sx)
       else (if E + 1 <=? 971 then S754_finite sx (Z.to_pos (2 ^ 52)) (E + 1)
             else S754_infinity sx).

(** The value given to [+inf], in units of [2^-1074]: above every finite
    double. *)
Definition inf_value : Z := 2 ^ 2098.

Definition SFnonneg (x : spec_float) : bool :=
  match x with
  | S754_zero _ => true
  | S754_infinity s => negb s
  | S754_finite s _ _ => negb s
  | S754_nan => false
  end.

(** The value of a non-negative double in units of [2^-1074]. *)
Definition SFval (x : spec_float) : Z :=
  match x with
  | S754_finite _ m e => Zpos m * 2 ^ (e + 1074)
  | S754_infinity _ => inf_value
  | _ => 0
  end.

(** A valid double that is not negative (so not a NaN). *)
Definition good (x : spec_float) : Prop :=
  valid_binary x = true /\ SFnonneg x = true.

(** A non-negative double has a clear sign bit. *)
Ltac clear_sign :=
  repeat match goal with
         | H : negb ?s = true |- _ => apply negb_true_iff in H; subst s
         end.

(** [a1/b1 * 2^e1 <= a2/b2 * 2^e2], cross-multiplied. *)
Definition frac_le (a1 b1 e1 a2 b2 e2 : Z) : Prop :=
  a1 * b2 * 2 ^ (e1 - Z.min e1 e2) <= a2 * b1 * 2 ^ (e2 - Z.min e1 e2).

(** The exponent at which [SFdiv_core_binary] truncates the quotient of
    [mx * 2^ex] by [my * 2^ey]. *)
Definition div_exp (mx : positive) (ex : Z) (my : positive) (ey : Z) : Z :=
  Z.min (fexp prec emax (Zdigits2 (Zpos mx) + ex - (Zdigits2 (Zpos my) + ey)))
        (ex - ey).

Definition fval (f : float) : Z := SFval (Prim2SF f).
Definition fnonneg (f : float) : Prop := SFnonneg (Prim2SF f) = true.
(** Finite and strictly positive. *)
Definition fpos (f : float) : Prop := fnonneg f /\ 0 < fval f < inf_value.

(** *** Bit lengths *)

Lemma Zdigits2_log2 m : 0 < m -> Zdigits2 m = Z.log2 m + 1.
Proof.
  destruct m as [|p|p]; try lia. intros _. simpl.
  assert (H : forall q, digits2_pos q = Pos.size q).
  { induction q; simpl; congruence. }
  rewrite H. destruct p; simpl; lia.
Qed.

Lemma Zdigits2_bounds m : 0 < m -> 2 ^ (Zdigits2 m - 1) <= m < 2 ^ Zdigits2 m.
Proof.
  intros H. rewrite Zdigits2_log2 by assumption.
  replace (Z.log2 m + 1 - 1) with (Z.log2 m) by lia.
  pose proof (Z.log2_spec m H). unfold Z.succ in *. lia.
Qed.

Lemma Zdigits2_unique m k : 0 < k -> 2 ^ (k - 1) <= m < 2 ^ k -> Zdigits2 m = k.
Proof.
  intros Hk H.
  assert (0 < m) by (pose proof (Z.pow_pos_nonneg 2 (k - 1)); lia).
  rewrite Zdigits2_log2 by assumption.
  rewrite (Z.log2_unique m (k - 1)); try lia.
  replace (Z.succ (k - 1)) with k by lia. lia.
Qed.

Lemma Zdigits2_pos m : 0 < m -> 0 < Zdigits2 m.
Proof.
  intros H. rewrite Zdigits2_log2 by assumption.
  pose proof (Z.log2_nonneg m). lia.
Qed.

Lemma Zdigits2_le m k : 0 <= k -> 0 <= m < 2 ^ k -> Zdigits2 m <= k.
Proof.
  intros Hk [H0 H].
  destruct (Z.eq_dec m 0) as [->|Hm]; [simpl; lia|].
  pose proof (Zdigits2_bounds m ltac:(lia)) as [B _].
  destruct (Z_le_gt_dec (Zdigits2 m) k); [assumption|].
  assert (2 ^ k <= 2 ^ (Zdigits2 m - 1)) by (apply Z.pow_le_mono_r; lia).
  lia.
Qed.

Lemma Zdigits2_ge m k : 0 <= k -> 2 ^ k <= m -> k + 1 <= Zdigits2 m.
Proof.
  intros Hk H.
  assert (0 < m) by (pose proof (Z.pow_pos_nonneg 2 k); lia).
  pose proof (Zdigits2_bounds m ltac:(lia)) as [_ B].
  destruct (Z_le_gt_dec (k + 1) (Zdigits2 m)); [assumption|].
  assert (2 ^ (Zdigits2 m) <= 2 ^ k) by (apply Z.pow_le_mono_r; lia).
  lia.
Qed.

(** *** Sticky quotients and rounding to even *)
Lemma sticky_quot_mono a1 b1 a2 b2 :
  0 < b1 -> 0 < b2 -> a1 * b2 <= a2 * b1 -> sticky_quot a1 b1 <= sticky_quot a2 b2.
Proof.
  intros H1 H2 H. unfold sticky_quot.
  pose proof (Z.div_mod a1 b1 ltac:(lia)) as D1.
  pose proof (Z.div_mod a2 b2 ltac:(lia)) as D2.
  pose proof (Z.mod_pos_bound a1 b1 H1) as B1.
  pose proof (Z.mod_pos_bound a2 b2 H2) as B2.
  set (q1 := a1 / b1) in *. set (r1 := a1 mod b1) in *.
  set (q2 := a2 / b2) in *. set (r2 := a2 mod b2) in *.
  rewrite D1, D2 in H. clear D1 D2.
  assert (Hq : q1 <= q2).
  { destruct (Z_le_gt_dec q1 q2); [assumption|]. exfalso.
    assert (b1 * b2 * (q2 + 1) <= b1 * b2 * q1) by (apply Z.mul_le_mono_nonneg_l; nia).
    assert (b1 * r2 < b1 * b2) by (apply Z.mul_lt_mono_pos_l; lia).
    assert (0 <= r1 * b2) by nia.
    nia. }
  destruct (Z.eqb_spec r1 0), (Z.eqb_spec r2 0); try lia.
  assert (q1 <> q2); [|lia].
  intro E. subst q2. subst r2.
  assert (0 < r1 * b2) by nia. nia.
Qed.

(** One more right shift halves the unit. *)
Lemma sticky_quot_shift a b : 0 < b -> sticky_quot (sticky_quot a b) 4 = sticky_quot a (2 * b).
Proof.
  intros Hb. unfold sticky_quot.
  pose proof (Z.div_mod a b ltac:(lia)).
  pose proof (Z.mod_pos_bound a b Hb).
  set (q := a / b) in *. set (r := a mod b) in *.
  pose proof (Z.div_mod q 2 ltac:(lia)).
  pose proof (Z.mod_pos_bound q 2 ltac:(lia)).
  set (t := if r =? 0 then 0 else 1).
  assert (Ht : 0 <= t <= 1) by (unfold t; destruct (r =? 0); lia).
  assert (E1 : (2 * q + t) / 4 = q / 2).
  { symmetry. apply (Z.div_unique _ _ _ (2 * (q mod 2) + t)); lia. }
  assert (E1' : (2 * q + t) mod 4 = 2 * (q mod 2) + t).
  { symmetry. apply (Z.mod_unique _ _ (q / 2)); lia. }
  assert (E2 : a / (2 * b) = q / 2).
  { symmetry. apply (Z.div_unique _ _ _ (b * (q mod 2) + r)); nia. }
  assert (E2' : a mod (2 * b) = b * (q mod 2) + r).
  { symmetry. apply (Z.mod_unique _ _ (q / 2)); nia. }
  rewrite E1, E1', E2, E2'.
  unfold t.
  destruct (Z.eqb_spec r 0), (Z.eqb_spec (2 * (q mod 2) + 0) 0),
    (Z.eqb_spec (2 * (q mod 2) + 1) 0), (Z.eqb_spec (b * (q mod 2) + r) 0); try lia; nia.
Qed.

Lemma sticky_quot_floor a b : 0 < b -> sticky_quot a b / 4 = a / (2 * b).
Proof.
  intros Hb. unfold sticky_quot.
  pose proof (Z.div_mod a b ltac:(lia)).
  pose proof (Z.mod_pos_bound a b Hb).
  set (q := a / b) in *. set (r := a mod b) in *.
  pose proof (Z.div_mod q 2 ltac:(lia)).
  pose proof (Z.mod_pos_bound q 2 ltac:(lia)).
  set (t := if r =? 0 then 0 else 1).
  assert (Ht : 0 <= t <= 1) by (unfold t; destruct (r =? 0); lia).
  transitivity (q / 2).
  - symmetry. apply (Z.div_unique _ _ _ (2 * (q mod 2) + t)); lia.
  - apply (Z.div_unique _ _ _ (b * (q mod 2) + r)); nia.
Qed.

Lemma round_even_bounds c : c / 4 <= round_even c <= c / 4 + 1.
Proof.
  unfold round_even. destruct (c mod 4 <? 2); [lia|].
  destruct (c mod 4 =? 2); [destruct (Z.even (c / 4)); lia | lia].
Qed.

Lemma round_even_exact m : round_even (4 * m) = m.
Proof.
  unfold round_even. replace (4 * m) with (m * 4) by lia.
  rewrite Z.div_mul, Z.mod_mul by lia. reflexivity.
Qed.

Lemma round_even_mono c1 c2 : c1 <= c2 -> round_even c1 <= round_even c2.
Proof.
  intros H.
  pose proof (Z.div_mod c1 4 ltac:(lia)).
  pose proof (Z.div_mod c2 4 ltac:(lia)).
  pose proof (Z.mod_pos_bound c1 4 ltac:(lia)).
  pose proof (Z.mod_pos_bound c2 4 ltac:(lia)).
  pose proof (round_even_bounds c1). pose proof (round_even_bounds c2).
  destruct (Z.eq_dec (c1 / 4) (c2 / 4)) as [E|NE]; [|lia].
  unfold round_even in *. rewrite E in *.
  destruct (Z.ltb_spec (c1 mod 4) 2), (Z.ltb_spec (c2 mod 4) 2),
    (Z.eqb_spec (c1 mod 4) 2), (Z.eqb_spec (c2 mod 4) 2),
    (Z.even (c2 / 4)); lia.
Qed.

(** *** Right shifts with round and sticky bits *)

Lemma shr_1_code mrs :
  0 <= shr_m mrs ->
  record_code (shr_1 mrs) = sticky_quot (record_code mrs) 4 /\ 0 <= shr_m (shr_1 mrs).
Proof.
  destruct mrs as [m r s]. cbn [shr_m]. intros Hm.
  set (t := (if r then 2 else 0) + (if s then 1 else 0)).
  assert (Ht : 0 <= t < 4) by (unfold t; destruct r, s; lia).
  assert (Hc : record_code {| shr_m := m; shr_r := r; shr_s := s |} = 4 * m + t)
    by (unfold record_code, t; cbn; lia).
  rewrite Hc. unfold sticky_quot.
  assert (E1 : (4 * m + t) / 4 = m)
    by (symmetry; apply (Z.div_unique _ _ _ t); lia).
  assert (E2 : (4 * m + t) mod 4 = t)
    by (symmetry; apply (Z.mod_unique _ _ m); lia).
  rewrite E1, E2.
  destruct m as [|[p|p|]|p]; try lia; unfold record_code, t; cbn;
    destruct r, s; cbn; split; lia.
Qed.

Lemma iter_pos_nat {A} (f : A -> A) p x :
  iter_pos f p x = Nat.iter (Pos.to_nat p) f x.
Proof.
  revert x. induction p as [p IH|p IH|]; intros x; cbn [iter_pos].
  - rewrite !IH, Pos2Nat.inj_xI.
    replace (S (2 * Pos.to_nat p)) with (Pos.to_nat p + S (Pos.to_nat p))%nat by lia.
    rewrite Nat.iter_add. f_equal.
    change (Nat.iter (S (Pos.to_nat p)) f x) with (f (Nat.iter (Pos.to_nat p) f x)).
    apply Nat.iter_swap.
  - rewrite !IH, Pos2Nat.inj_xO.
    replace (2 * Pos.to_nat p)%nat with (Pos.to_nat p + Pos.to_nat p)%nat by lia.
    rewrite Nat.iter_add. reflexivity.
  - reflexivity.
Qed.

Lemma iter_shr_code n mrs a b :
  0 <= shr_m mrs -> 0 < b -> record_code mrs = sticky_quot a b ->
  record_code (Nat.iter n shr_1 mrs) = sticky_quot a (b * 2 ^ Z.of_nat n)
  /\ 0 <= shr_m (Nat.iter n shr_1 mrs).
Proof.
  intros Hm Hb Hc. induction n as [|n [IH1 IH2]].
  - cbn. rewrite Z.mul_1_r. auto.
  - cbn [Nat.iter nat_rect].
    destruct (shr_1_code (Nat.iter n shr_1 mrs) IH2) as [E1 E2].
    split; [|exact E2].
    unfold Nat.iter in *. rewrite E1, IH1.
    assert (0 < 2 ^ Z.of_nat n) by (apply Z.pow_pos_nonneg; lia).
    rewrite sticky_quot_shift by nia.
    rewrite Nat2Z.inj_succ, Z.pow_succ_r by lia. f_equal. lia.
Qed.

(** Shifting by [n] bits divides the unit of the code by [2^n]. *)
Lemma shr_code mrs e n a b :
  0 <= n -> 0 <= shr_m mrs -> 0 < b -> record_code mrs = sticky_quot a b ->
  record_code (fst (shr mrs e n)) = sticky_quot a (b * 2 ^ n)
  /\ 0 <= shr_m (fst (shr mrs e n))
  /\ snd (shr mrs e n) = e + n.
Proof.
  intros Hn Hm Hb Hc. destruct n as [|p|p]; try lia; cbn [shr fst snd].
  - rewrite Z.mul_1_r, Z.add_0_r. auto.
  - rewrite iter_pos_nat.
    destruct (iter_shr_code (Pos.to_nat p) mrs a b Hm Hb Hc) as [E1 E2].
    rewrite positive_nat_Z in E1. auto.
Qed.

Lemma shr_noop mrs e n : n <= 0 -> shr mrs e n = (mrs, e).
Proof. destruct n; try reflexivity. lia. Qed.

Lemma code_of_loc m l : record_code (shr_record_of_loc m l) = 4 * m + loc_code l.
Proof. destruct l as [|[]]; unfold record_code; cbn; lia. Qed.

Lemma shr_m_of_loc m l : shr_m (shr_record_of_loc m l) = m.
Proof. destruct l as [|[]]; reflexivity. Qed.

Lemma round_even_code mrs :
  round_nearest_even (shr_m mrs) (loc_of_shr_record mrs) = round_even (record_code mrs).
Proof.
  destruct mrs as [m r s]. unfold record_code, round_even. cbn [shr_m shr_r shr_s].
  set (t := (if r then 2 else 0) + (if s then 1 else 0)).
  assert (Ht : 0 <= t < 4) by (unfold t; destruct r, s; lia).
  replace (4 * m + (if r then 2 else 0) + (if s then 1 else 0)) with (4 * m + t)
    by (unfold t; lia).
  assert (E1 : (4 * m + t) / 4 = m)
    by (symmetry; apply (Z.div_unique _ _ _ t); lia).
  assert (E2 : (4 * m + t) mod 4 = t)
    by (symmetry; apply (Z.mod_unique _ _ m); lia).
  rewrite E1, E2. unfold t. destruct r, s; reflexivity.
Qed.

Lemma fexp_eq e : fexp prec emax e = Z.max (e - 53) (-1074).
Proof. reflexivity. Qed.

Lemma fexp_ge e : -1074 <= fexp prec emax e.
Proof. rewrite fexp_eq. lia. Qed.

Lemma pow2_pos k : 0 <= k -> 0 < 2 ^ k.
Proof. intros. apply Z.pow_pos_nonneg; lia. Qed.

(** [binary_round_aux] on a truncated value [mx] with location [lx], the
    pair standing for the fraction [a / (2 * b)] in units of [2^ex]: the
    mantissa is the fraction rounded to even in units of [2^E]. *)
Lemma round_aux_spec sx mx ex lx a b :
  0 <= mx -> 0 < b -> 4 * mx + loc_code lx = sticky_quot a b ->
  ex <= fexp prec emax (Zdigits2 mx + ex) ->
  let E := fexp prec emax (Zdigits2 mx + ex) in
  let M := round_even (sticky_quot a (b * 2 ^ (E - ex))) in
  binary_round_aux prec emax sx mx ex lx = round_result sx M E
  /\ 0 <= M <= 2 ^ 53 /\ (-1074 < E -> 2 ^ 52 <= M).
Proof.
  intros Hmx Hb Hc Hn E M.
  assert (HE : -1074 <= E) by apply fexp_ge.
  pose proof (pow2_pos (E - ex) ltac:(lia)) as Hp.
  assert (Hmxab : mx = a / (2 * b)).
  { rewrite <- sticky_quot_floor, <- Hc by assumption.
    assert (0 <= loc_code lx < 4) by (destruct lx as [|[]]; cbn; lia).
    apply (Z.div_unique _ _ _ (loc_code lx)); lia. }
  assert (HF : sticky_quot a (b * 2 ^ (E - ex)) / 4 = mx / 2 ^ (E - ex)).
  { rewrite sticky_quot_floor by nia. rewrite Hmxab, Z.div_div by lia.
    f_equal. lia. }
  assert (HF0 : 0 <= mx / 2 ^ (E - ex)) by (apply Z.div_pos; lia).
  assert (HFhi : mx / 2 ^ (E - ex) < 2 ^ 53).
  { apply Z.div_lt_upper_bound; [lia|].
    rewrite <- Z.pow_add_r by lia.
    destruct (Z.eq_dec mx 0) as [->|Hne]; [apply pow2_pos; lia|].
    pose proof (Zdigits2_bounds mx ltac:(lia)) as [_ B].
    eapply Z.lt_le_trans; [exact B|].
    apply Z.pow_le_mono_r; [lia|].
    unfold E. rewrite fexp_eq. lia. }
  assert (HFlo : -1074 < E -> 2 ^ 52 <= mx / 2 ^ (E - ex)).
  { intros HE'.
    assert (EE : E = Zdigits2 mx + ex - 53) by (unfold E in *; rewrite fexp_eq in *; lia).
    assert (Hd : 53 <= Zdigits2 mx) by lia.
    assert (0 < mx) by (destruct mx; cbn in Hd; lia).
    pose proof (Zdigits2_bounds mx ltac:(lia)) as [B _].
    apply Z.div_le_lower_bound; [lia|].
    rewrite <- Z.pow_add_r by lia.
    replace (E - ex + 52) with (Zdigits2 mx - 1) by lia. exact B. }
  pose proof (round_even_bounds (sticky_quot a (b * 2 ^ (E - ex)))) as HM.
  rewrite HF in HM. fold M in HM.
  split; [|split; [lia | intros; specialize (HFlo ltac:(lia)); lia]].
  unfold binary_round_aux, shr_fexp. fold E.
  destruct (shr_code (shr_record_of_loc mx lx) ex (E - ex) a b) as (C1 & C2 & C3);
    try lia.
  { rewrite shr_m_of_loc. exact Hmx. }
  { rewrite code_of_loc. exact Hc. }
  rewrite (surjective_pairing (shr (shr_record_of_loc mx lx) ex (E - ex))).
  rewrite round_even_code, C1, C3. fold M.
  replace (ex + (E - ex)) with E by lia.
  destruct (Z.eq_dec M (2 ^ 53)) as [EM|NM].
  - rewrite EM.
    assert (Hd : Zdigits2 (2 ^ 53) = 54) by reflexivity.
    rewrite Hd.
    assert (Hf : fexp prec emax (54 + E) - E = 1) by (rewrite fexp_eq; lia).
    rewrite Hf. cbn [shr_record_of_loc shr iter_pos].
    unfold round_result.
    change (2 ^ 53 =? 0) with false. change (2 ^ 53 <? 2 ^ 53) with false.
    cbv iota. cbn [shr_1 shr_m].
    change (emax - prec) with 971.
    reflexivity.
  - assert (HMlt : 0 <= M < 2 ^ 53) by lia.
    pose proof (Zdigits2_le M 53 ltac:(lia) HMlt) as Hd.
    assert (Hd0 : 0 <= Zdigits2 M) by (destruct M; cbn; lia).
    rewrite shr_noop by (rewrite fexp_eq; lia).
    rewrite shr_m_of_loc. unfold round_result.
    change (emax - prec) with 971.
    destruct (Z.ltb_spec M (2 ^ 53)); [|lia].
    destruct M as [|p|p]; try lia; reflexivity.
Qed.

Lemma inf_value_pos : 0 < inf_value.
Proof. apply pow2_pos. lia. Qed.

Lemma inf_value_split a b : 0 <= a -> 0 <= b -> a + b = 2098 -> inf_value = 2 ^ a * 2 ^ b.
Proof. intros. unfold inf_value. rewrite <- Z.pow_add_r by lia. f_equal. lia. Qed.

Lemma valid_finite s m e :
  valid_binary (S754_finite s m e) = true ->
  -1074 <= e <= 971 /\ Zpos m < 2 ^ 53 /\ (-1074 < e -> 2 ^ 52 <= Zpos m)
  /\ fexp prec emax (Zdigits2 (Zpos m) + e) = e.
Proof.
  cbn [valid_binary]. unfold bounded, canonical_mantissa.
  change (emax - prec) with 971.
  intros H. apply andb_true_iff in H as [H1 H2].
  apply Z.eqb_eq in H1. apply Z.leb_le in H2.
  change (Z.pos (digits2_pos m)) with (Zdigits2 (Zpos m)) in H1.
  pose proof (Zdigits2_bounds (Zpos m) ltac:(lia)) as [B1 B2].
  pose proof (Zdigits2_pos (Zpos m) ltac:(lia)) as Hd.
  rewrite fexp_eq in H1.
  repeat split; try lia.
  - eapply Z.lt_le_trans; [exact B2|]. apply Z.pow_le_mono_r; lia.
  - intros He. replace 52 with (Zdigits2 (Zpos m) - 1) by lia. exact B1.
  - rewrite fexp_eq. exact H1.
Qed.

Lemma SFval_nonneg x : 0 <= SFval x.
Proof.
  destruct x as [s|s| |s m e]; cbn [SFval]; try lia.
  pose proof inf_value_pos; lia.
Qed.

Lemma SFval_finite_lt_inf s m e :
  valid_binary (S754_finite s m e) = true ->
  0 < SFval (S754_finite s m e) < inf_value.
Proof.
  intros H. apply valid_finite in H as (He & Hm & _ & _). cbn [SFval].
  pose proof (pow2_pos (e + 1074) ltac:(lia)).
  split; [nia|].
  rewrite (inf_value_split 53 2045) by lia.
  assert (2 ^ (e + 1074) <= 2 ^ 2045) by (apply Z.pow_le_mono_r; lia).
  pose proof (pow2_pos 53 ltac:(lia)). nia.
Qed.

Lemma SFval_le_inf x : valid_binary x = true -> SFval x <= inf_value.
Proof.
  destruct x as [s|s| |s m e]; intros H; cbn [SFval]; try (pose proof inf_value_pos; lia).
  pose proof (SFval_finite_lt_inf s m e H). cbn [SFval] in *. lia.
Qed.

(** The comparison of doubles is the comparison of their values. *)
Lemma SFcompare_val x y :
  good x -> good y -> SFcompare x y = Some (SFval x ?= SFval y).
Proof.
  intros [Vx Nx] [Vy Ny].
  destruct x as [sx|sx| |sx mx ex], y as [sy|sy| |sy my ey];
    cbn in Nx, Ny; try discriminate;
    clear_sign;
    try pose proof (SFval_finite_lt_inf _ _ _ Vx) as Bx;
    try pose proof (SFval_finite_lt_inf _ _ _ Vy) as By;
    pose proof inf_value_pos;
    cbn [SFcompare SFval] in *.
  all: try (f_equal; symmetry; first
    [ apply Z.compare_eq_iff; lia | apply Z.compare_lt_iff; lia
    | apply Z.compare_gt_iff; lia ]).
  (* finite, finite *)
  apply valid_finite in Vx as (Hex & Hmx & Lx & _).
  apply valid_finite in Vy as (Hey & Hmy & Ly & _).
  f_equal.
  pose proof (pow2_pos (ex + 1074) ltac:(lia)) as Px.
  pose proof (pow2_pos (ey + 1074) ltac:(lia)) as Py.
  destruct (Z.compare_spec ex ey) as [E|L|G].
  - subst ey. rewrite Pos.compare_cont_spec. cbn [Pos.switch_Eq].
    destruct (Pos.compare_spec mx my) as [->|L|G]; symmetry.
    + apply Z.compare_eq_iff. reflexivity.
    + apply Z.compare_lt_iff. apply Z.mul_lt_mono_pos_r; lia.
    + apply Z.compare_gt_iff. apply Z.mul_lt_mono_pos_r; lia.
  - symmetry. apply Z.compare_lt_iff.
    assert (2 ^ (ex + 1074) * 2 <= 2 ^ (ey + 1074)).
    { replace (ey + 1074) with ((ex + 1074) + (ey - ex)) by lia.
      rewrite (Z.pow_add_r 2 (ex + 1074) (ey - ex)) by lia.
      assert (2 ^ 1 <= 2 ^ (ey - ex)) by (apply Z.pow_le_mono_r; lia).
      change (2 ^ 1) with 2 in *. nia. }
    specialize (Ly ltac:(lia)).
    change (2 ^ 53) with (2 ^ 52 * 2) in Hmx.
    nia.
  - symmetry. apply Z.compare_gt_iff.
    assert (2 ^ (ey + 1074) * 2 <= 2 ^ (ex + 1074)).
    { replace (ex + 1074) with ((ey + 1074) + (ex - ey)) by lia.
      rewrite (Z.pow_add_r 2 (ey + 1074) (ex - ey)) by lia.
      assert (2 ^ 1 <= 2 ^ (ex - ey)) by (apply Z.pow_le_mono_r; lia).
      change (2 ^ 1) with 2 in *. nia. }
    specialize (Lx ltac:(lia)).
    change (2 ^ 53) with (2 ^ 52 * 2) in Hmy.
    nia.
Qed.

Lemma SFleb_val x y : good x -> good y -> SFleb x y = (SFval x <=? SFval y).
Proof.
  intros Hx Hy. unfold SFleb. rewrite (SFcompare_val x y Hx Hy).
  unfold Z.leb. destruct (SFval x ?= SFval y); reflexivity.
Qed.

Lemma SFltb_val x y : good x -> good y -> SFltb x y = (SFval x <? SFval y).
Proof.
  intros Hx Hy. unfold SFltb. rewrite (SFcompare_val x y Hx Hy).
  unfold Z.ltb. destruct (SFval x ?= SFval y); reflexivity.
Qed.

(** The rounded result is a valid double; its value saturates at [+inf]. *)
Lemma round_result_val M E :
  0 <= M <= 2 ^ 53 -> -1074 <= E -> (-1074 < E -> 2 ^ 52 <= M) ->
  good (round_result false M E)
  /\ SFval (round_result false M E) = Z.min (M * 2 ^ (E + 1074)) inf_value.
Proof.
  intros HM HE HL. unfold round_result, good.
  pose proof (pow2_pos (E + 1074) ltac:(lia)) as PE.
  pose proof inf_value_pos as TP.
  destruct (Z.eqb_spec M 0) as [->|NM].
  { cbn [SFval valid_binary SFnonneg]. split; [split; reflexivity|]. lia. }
  destruct (Z.ltb_spec M (2 ^ 53)) as [Lt|Ge].
  - destruct (Z.leb_spec E 971) as [Le|Gt].
    + assert (Hv : valid_binary (S754_finite false (Z.to_pos M) E) = true).
      { cbn [valid_binary]. unfold bounded, canonical_mantissa.
        change (emax - prec) with 971.
        apply andb_true_iff. split; [|apply Z.leb_le; lia].
        apply Z.eqb_eq.
        change (Z.pos (digits2_pos (Z.to_pos M))) with (Zdigits2 (Zpos (Z.to_pos M))).
        rewrite Z2Pos.id by lia.
        pose proof (Zdigits2_le M 53 ltac:(lia) ltac:(lia)).
        pose proof (Zdigits2_pos M ltac:(lia)).
        rewrite fexp_eq.
        destruct (Z.eq_dec E (-1074)); [lia|].
        pose proof (Zdigits2_ge M 52 ltac:(lia) ltac:(apply HL; lia)). lia. }
      split; [split; [exact Hv|reflexivity]|].
      pose proof (SFval_finite_lt_inf _ _ _ Hv) as B.
      cbn [SFval] in *. rewrite Z2Pos.id in * by lia. lia.
    + split; [split; reflexivity|]. cbn [SFval].
      specialize (HL ltac:(lia)).
      assert (2 ^ 2046 <= 2 ^ (E + 1074)) by (apply Z.pow_le_mono_r; lia).
      rewrite (inf_value_split 52 2046) in * by lia.
      pose proof (pow2_pos 2046 ltac:(lia)). nia.
  - assert (M = 2 ^ 53) by lia. subst M.
    destruct (Z.leb_spec (E + 1) 971) as [Le|Gt].
    + assert (Hv : valid_binary (S754_finite false (Z.to_pos (2 ^ 52)) (E + 1)) = true).
      { cbn [valid_binary]. unfold bounded, canonical_mantissa.
        change (emax - prec) with 971.
        apply andb_true_iff. split; [|apply Z.leb_le; lia].
        apply Z.eqb_eq.
        change (Z.pos (digits2_pos (Z.to_pos (2 ^ 52)))) with 53.
        rewrite fexp_eq. lia. }
      split; [split; [exact Hv|reflexivity]|].
      pose proof (SFval_finite_lt_inf _ _ _ Hv) as B.
      cbn [SFval] in *.
      change (Z.pos (Z.to_pos (2 ^ 52))) with (2 ^ 52) in *.
      replace (E + 1 + 1074) with (1 + (E + 1074)) in * by lia.
      rewrite (Z.pow_add_r 2 1 (E + 1074)) in * by lia.
      change (2 ^ 53) with (2 ^ 52 * 2 ^ 1). lia.
    + split; [split; reflexivity|]. cbn [SFval].
      assert (2 ^ 2045 <= 2 ^ (E + 1074)) by (apply Z.pow_le_mono_r; lia).
      rewrite (inf_value_split 53 2045) in * by lia.
      pose proof (pow2_pos 2045 ltac:(lia)). nia.
Qed.

Lemma code_floor mx l a b :
  0 < b -> 4 * mx + loc_code l = sticky_quot a b ->
  2 * b * mx <= a < 2 * b * (mx + 1).
Proof.
  intros Hb Hc.
  assert (Hmx : mx = a / (2 * b)).
  { rewrite <- sticky_quot_floor, <- Hc by assumption.
    assert (0 <= loc_code l < 4) by (destruct l as [|[]]; cbn; lia).
    apply (Z.div_unique _ _ _ (loc_code l)); lia. }
  pose proof (Z.div_mod a (2 * b) ltac:(lia)).
  pose proof (Z.mod_pos_bound a (2 * b) ltac:(lia)).
  rewrite <- Hmx in *. lia.
Qed.

Lemma succ_le_pow_digits m : 0 <= m -> m + 1 <= 2 ^ Zdigits2 m.
Proof.
  intros H. destruct (Z.eq_dec m 0) as [->|N]; [cbn; lia|].
  pose proof (Zdigits2_bounds m ltac:(lia)). lia.
Qed.

Lemma Zdigits2_nonneg m : 0 <= Zdigits2 m.
Proof. destruct m; cbn; lia. Qed.

(** Rounding is monotone: the greater fraction rounds to the greater
    double. *)
Lemma round_mono mx1 ex1 l1 a1 b1 mx2 ex2 l2 a2 b2 :
  0 <= mx1 -> 0 < b1 -> 4 * mx1 + loc_code l1 = sticky_quot a1 b1 ->
  0 <= mx2 -> 0 < b2 -> 4 * mx2 + loc_code l2 = sticky_quot a2 b2 ->
  ex1 <= fexp prec emax (Zdigits2 mx1 + ex1) ->
  ex2 <= fexp prec emax (Zdigits2 mx2 + ex2) ->
  frac_le a1 b1 ex1 a2 b2 ex2 ->
  SFval (binary_round_aux prec emax false mx1 ex1 l1)
  <= SFval (binary_round_aux prec emax false mx2 ex2 l2).
Proof.
  intros Hm1 Hb1 Hc1 Hm2 Hb2 Hc2 Hn1 Hn2 Hle.
  destruct (round_aux_spec false mx1 ex1 l1 a1 b1 Hm1 Hb1 Hc1 Hn1) as (R1 & B1 & L1).
  destruct (round_aux_spec false mx2 ex2 l2 a2 b2 Hm2 Hb2 Hc2 Hn2) as (R2 & B2 & L2).
  pose proof (fexp_ge (Zdigits2 mx1 + ex1)) as G1.
  pose proof (fexp_ge (Zdigits2 mx2 + ex2)) as G2.
  destruct (round_result_val _ _ B1 G1 L1) as [_ V1].
  destruct (round_result_val _ _ B2 G2 L2) as [_ V2].
  rewrite R1, R2, V1, V2. clear R1 R2 V1 V2.
  pose proof (code_floor mx1 l1 a1 b1 Hb1 Hc1) as F1.
  pose proof (code_floor mx2 l2 a2 b2 Hb2 Hc2) as F2.
  pose proof (Zdigits2_nonneg mx1) as Dn1.
  pose proof (Zdigits2_nonneg mx2) as Dn2.
  set (E1 := fexp prec emax (Zdigits2 mx1 + ex1)) in *.
  set (E2 := fexp prec emax (Zdigits2 mx2 + ex2)) in *.
  set (M1 := round_even (sticky_quot a1 (b1 * 2 ^ (E1 - ex1)))) in *.
  set (M2 := round_even (sticky_quot a2 (b2 * 2 ^ (E2 - ex2)))) in *.
  apply Z.min_le_compat_r.
  unfold frac_le in Hle.
  set (m := Z.min ex1 ex2) in *.
  assert (Hm : m <= ex1 /\ m <= ex2) by (unfold m; lia).
  pose proof (pow2_pos (ex1 - m) ltac:(lia)) as Pp1.
  pose proof (pow2_pos (ex2 - m) ltac:(lia)) as Pp2.
  pose proof (pow2_pos (E1 + 1074) ltac:(lia)) as PE1.
  pose proof (pow2_pos (E2 + 1074) ltac:(lia)) as PE2.
  destruct (Z.lt_trichotomy E1 E2) as [Lt|[Eq|Gt]].
  - (* the second result lies in a higher binade *)
    specialize (L2 ltac:(lia)).
    assert (2 * 2 ^ (E1 + 1074) <= 2 ^ (E2 + 1074)).
    { replace (E2 + 1074) with ((E1 + 1074) + (E2 - E1)) by lia.
      rewrite (Z.pow_add_r 2 (E1 + 1074) (E2 - E1)) by lia.
      assert (2 ^ 1 <= 2 ^ (E2 - E1)) by (apply Z.pow_le_mono_r; lia).
      change (2 ^ 1) with 2 in *. nia. }
    change (2 ^ 53) with (2 ^ 52 * 2) in B1.
    pose proof (pow2_pos 52 ltac:(lia)). nia.
  - (* same binade: the codes are ordered *)
    unfold M1, M2. rewrite <- Eq.
    apply Z.mul_le_mono_nonneg_r; [lia|].
    apply round_even_mono.
    pose proof (pow2_pos (E1 - ex1) ltac:(lia)) as Q1.
    pose proof (pow2_pos (E1 - ex2) ltac:(lia)) as Q2.
    fold E1.
    apply sticky_quot_mono; try nia.
    set (k := E1 - Z.max ex1 ex2).
    assert (Hk : 0 <= k) by (unfold k; lia).
    pose proof (pow2_pos k Hk) as Pk.
    assert (X1 : 2 ^ (E1 - ex2) = 2 ^ k * 2 ^ (ex1 - m)).
    { rewrite <- Z.pow_add_r by lia. f_equal. unfold k, m. lia. }
    assert (X2 : 2 ^ (E1 - ex1) = 2 ^ k * 2 ^ (ex2 - m)).
    { rewrite <- Z.pow_add_r by lia. f_equal. unfold k, m. lia. }
    rewrite X1, X2.
    replace (a1 * (b2 * (2 ^ k * 2 ^ (ex1 - m)))) with (2 ^ k * (a1 * b2 * 2 ^ (ex1 - m))) by ring.
    replace (a2 * (b1 * (2 ^ k * 2 ^ (ex2 - m)))) with (2 ^ k * (a2 * b1 * 2 ^ (ex2 - m))) by ring.
    apply Z.mul_le_mono_nonneg_l; lia.
  - (* impossible: the first value would exceed the second *)
    exfalso.
    assert (HD : Zdigits2 mx2 + ex2 < Zdigits2 mx1 + ex1).
    { unfold E1, E2 in Gt. rewrite !fexp_eq in Gt. lia. }
    destruct (Z.eq_dec mx1 0) as [Z1|N1].
    { subst mx1. cbn [Zdigits2] in *. unfold E1 in *. rewrite fexp_eq in *. lia. }
    pose proof (Zdigits2_bounds mx1 ltac:(lia)) as [Lo1 _].
    pose proof (succ_le_pow_digits mx2 Hm2) as Hi2.
    pose proof (Zdigits2_pos mx1 ltac:(lia)) as Dp1.
    set (d1 := Zdigits2 mx1) in *. set (d2 := Zdigits2 mx2) in *.
    assert (Y : 2 ^ d2 * 2 ^ (ex2 - m) <= 2 ^ (d1 - 1) * 2 ^ (ex1 - m)).
    { rewrite <- !Z.pow_add_r by lia. apply Z.pow_le_mono_r; lia. }
    pose proof (pow2_pos d2 Dn2) as Pd2.
    pose proof (pow2_pos (d1 - 1) ltac:(lia)) as Pd1.
    assert (A1 : 2 * b1 * 2 ^ (d1 - 1) <= a1) by nia.
    assert (A2 : a2 < 2 * b2 * 2 ^ d2) by nia.
    assert (T1 : (2 * b1 * 2 ^ (d1 - 1)) * (b2 * 2 ^ (ex1 - m)) <= a1 * (b2 * 2 ^ (ex1 - m)))
      by (apply Z.mul_le_mono_nonneg_r; nia).
    assert (T2 : a2 * (b1 * 2 ^ (ex2 - m)) < (2 * b2 * 2 ^ d2) * (b1 * 2 ^ (ex2 - m)))
      by (apply Z.mul_lt_mono_pos_r; nia).
    assert (T3 : (2 * b1 * b2) * (2 ^ d2 * 2 ^ (ex2 - m))
                 <= (2 * b1 * b2) * (2 ^ (d1 - 1) * 2 ^ (ex1 - m)))
      by (apply Z.mul_le_mono_nonneg_l; nia).
    lia.
Qed.

Lemma sticky_quot_1 a : sticky_quot a 1 = 2 * a.
Proof. unfold sticky_quot. rewrite Z.div_1_r, Z.mod_1_r. cbn. lia. Qed.

(** Scaling both sides of a comparison of binary fractions. *)
Lemma pow_le_shift A B u1 u2 v1 v2 :
  0 <= u1 -> 0 <= u2 -> 0 <= v1 -> 0 <= v2 -> u1 - u2 = v1 - v2 ->
  A * 2 ^ u1 <= B * 2 ^ u2 -> A * 2 ^ v1 <= B * 2 ^ v2.
Proof.
  intros Hu1 Hu2 Hv1 Hv2 He H.
  destruct (Z_le_gt_dec u1 v1) as [L|G].
  - replace v1 with (u1 + (v1 - u1)) by lia.
    replace v2 with (u2 + (v1 - u1)) by lia.
    rewrite !Z.pow_add_r by lia.
    pose proof (pow2_pos (v1 - u1) ltac:(lia)).
    rewrite !Z.mul_assoc. apply Z.mul_le_mono_nonneg_r; lia.
  - replace u1 with (v1 + (u1 - v1)) in H by lia.
    replace u2 with (v2 + (u1 - v1)) in H by lia.
    rewrite !Z.pow_add_r in H by lia.
    pose proof (pow2_pos (u1 - v1) ltac:(lia)).
    rewrite !Z.mul_assoc in H.
    apply Z.mul_le_mono_pos_r in H; lia.
Qed.

Lemma pow_lt_shift A B u1 u2 v1 v2 :
  0 <= u1 -> 0 <= u2 -> 0 <= v1 -> 0 <= v2 -> u1 - u2 = v1 - v2 ->
  A * 2 ^ u1 < B * 2 ^ u2 -> A * 2 ^ v1 < B * 2 ^ v2.
Proof.
  intros Hu1 Hu2 Hv1 Hv2 He H.
  destruct (Z_le_gt_dec (B * 2 ^ v2) (A * 2 ^ v1)) as [L|G]; [|lia].
  apply (pow_le_shift B A v2 v1 u2 u1) in L; lia.
Qed.

(** Rounding an exact binary fraction [m * 2^e] that needs no alignment. *)
Lemma round_exact_good m e :
  0 <= m -> e <= fexp prec emax (Zdigits2 m + e) ->
  good (binary_round_aux prec emax false m e loc_Exact).
Proof.
  intros Hm He.
  destruct (round_aux_spec false m e loc_Exact (2 * m) 1 Hm ltac:(lia)) as (R & B & L);
    [rewrite sticky_quot_1; cbn [loc_code]; lia | exact He |].
  rewrite R. apply round_result_val; [exact B | apply fexp_ge | exact L].
Qed.

Lemma round_exact_mono m1 e1 m2 e2 :
  0 <= m1 -> 0 <= m2 ->
  e1 <= fexp prec emax (Zdigits2 m1 + e1) ->
  e2 <= fexp prec emax (Zdigits2 m2 + e2) ->
  m1 * 2 ^ (e1 - Z.min e1 e2) <= m2 * 2 ^ (e2 - Z.min e1 e2) ->
  SFval (binary_round_aux prec emax false m1 e1 loc_Exact)
  <= SFval (binary_round_aux prec emax false m2 e2 loc_Exact).
Proof.
  intros H1 H2 P1 P2 H.
  apply (round_mono m1 e1 loc_Exact (2 * m1) 1 m2 e2 loc_Exact (2 * m2) 1);
    try assumption; try lia; try (rewrite sticky_quot_1; cbn [loc_code]; lia).
  unfold frac_le. lia.
Qed.

(** A representable value rounds to itself. *)
Lemma round_exact_id s m e :
  valid_binary (S754_finite s m e) = true ->
  binary_round_aux prec emax false (Zpos m) e loc_Exact = S754_finite false m e.
Proof.
  intros Hv. apply valid_finite in Hv as (He & Hm & L & F).
  destruct (round_aux_spec false (Zpos m) e loc_Exact (2 * Zpos m) 1 ltac:(lia) ltac:(lia))
    as (R & _ & _); [rewrite sticky_quot_1; cbn [loc_code]; lia | lia |].
  rewrite R, F, Z.sub_diag. cbn [Z.pow]. rewrite Z.mul_1_r, sticky_quot_1.
  replace (2 * (2 * Z.pos m)) with (4 * Z.pos m) by lia.
  rewrite round_even_exact. unfold round_result.
  destruct (Z.eqb_spec (Z.pos m) 0); [lia|].
  destruct (Z.ltb_spec (Z.pos m) (2 ^ 53)); [|lia].
  destruct (Z.leb_spec e 971); [|lia]. reflexivity.
Qed.

(** *** Multiplication *)

Lemma mul_aligned mx ex my ey sx sy :
  valid_binary (S754_finite sx mx ex) = true ->
  valid_binary (S754_finite sy my ey) = true ->
  ex + ey <= fexp prec emax (Zdigits2 (Zpos (mx * my)) + (ex + ey)).
Proof.
  intros Hx Hy.
  apply valid_finite in Hx as (Hex & Hmx & Lx & _).
  apply valid_finite in Hy as (Hey & Hmy & Ly & _).
  rewrite fexp_eq.
  destruct (Z_le_gt_dec (ex + ey) (-1074)); [lia|].
  assert (2 ^ 52 <= Zpos (mx * my)).
  { rewrite Pos2Z.inj_mul.
    destruct (Z_le_gt_dec ex (-1074)).
    - specialize (Ly ltac:(lia)). nia.
    - specialize (Lx ltac:(lia)). nia. }
  pose proof (Zdigits2_ge (Zpos (mx * my)) 52 ltac:(lia) ltac:(assumption)). lia.
Qed.

Lemma SFmul_good x y :
  good x -> good y -> (0 < SFval x \/ SFval y < inf_value) ->
  (0 < SFval y \/ SFval x < inf_value) ->
  good (SFmul prec emax x y).
Proof.
  intros [Vx Nx] [Vy Ny] H1 H2.
  pose proof inf_value_pos as TP.
  destruct x as [sx|sx| |sx mx ex], y as [sy|sy| |sy my ey];
    cbn in Nx, Ny; try discriminate;
    clear_sign;
    cbn [SFmul xorb SFval] in *; try (split; reflexivity); try lia.
  apply round_exact_good; [lia|]. eapply mul_aligned; eassumption.
Qed.

Lemma SFmul_mono x y1 y2 :
  good x -> good y1 -> good y2 ->
  0 < SFval x -> (SFval x < inf_value \/ 0 < SFval y1) ->
  SFval y1 <= SFval y2 ->
  SFval (SFmul prec emax x y1) <= SFval (SFmul prec emax x y2).
Proof.
  intros [Vx Nx] [V1 N1] [V2 N2] Px Hc H.
  pose proof inf_value_pos as TP.
  assert (G2 : good (SFmul prec emax x y2)).
  { apply SFmul_good; try (split; assumption); lia. }
  destruct x as [sx|sx| |sx mx ex]; cbn in Nx; try discriminate;
    cbn [SFval] in Px; try lia.
  - (* x = +inf *)
    destruct y1 as [s1|s1| |s1 m1 e1], y2 as [s2|s2| |s2 m2 e2];
      cbn in N1, N2; try discriminate; cbn [SFval] in *; try lia;
      cbn [SFmul SFval]; lia.
  - pose proof (SFval_finite_lt_inf _ _ _ Vx) as Bx.
    destruct y1 as [s1|s1| |s1 m1 e1]; cbn in N1; try discriminate.
    + cbn [SFmul SFval]. apply SFval_nonneg.
    + cbn [SFval] in H.
      pose proof (SFval_le_inf y2 V2).
      destruct y2 as [s2|s2| |s2 m2 e2]; cbn in N2; try discriminate;
        cbn [SFval] in *; try lia.
      pose proof (SFval_finite_lt_inf _ _ _ V2). cbn [SFval] in *. lia.
    + destruct y2 as [s2|s2| |s2 m2 e2]; cbn in N2; try discriminate.
      * pose proof (SFval_finite_lt_inf _ _ _ V1). cbn [SFval] in *. lia.
      * pose proof (SFval_le_inf _ (proj1 (SFmul_good
          (S754_finite sx mx ex) (S754_finite s1 m1 e1)
          (conj Vx Nx) (conj V1 N1) ltac:(left; exact Px) ltac:(right; exact (proj2 Bx))))).
        cbn [SFmul SFval] in *. lia.
      * clear_sign.
        cbn [SFmul xorb SFval] in *.
        pose proof (mul_aligned _ _ _ _ _ _ Vx V1) as A1.
        pose proof (mul_aligned _ _ _ _ _ _ Vx V2) as A2.
        apply valid_finite in Vx as (Hex & _).
        apply valid_finite in V1 as (He1 & _).
        apply valid_finite in V2 as (He2 & _).
        apply round_exact_mono; try lia; try assumption.
        rewrite !Pos2Z.inj_mul.
        set (mn := Z.min (ex + e1) (ex + e2)).
        assert (Hmn : mn = ex + Z.min e1 e2) by (unfold mn; lia).
        assert (K : Zpos m1 * 2 ^ (ex + e1 - mn) <= Zpos m2 * 2 ^ (ex + e2 - mn)).
        { apply (pow_le_shift _ _ (e1 + 1074) (e2 + 1074)); try lia. }
        rewrite <- !Z.mul_assoc. apply Z.mul_le_mono_nonneg_l; lia.
Qed.

Lemma SFmul_comm x y :
  SFnonneg x = true -> SFnonneg y = true ->
  SFmul prec emax x y = SFmul prec emax y x.
Proof.
  intros Nx Ny.
  destruct x as [sx|sx| |sx mx ex], y as [sy|sy| |sy my ey];
    cbn in Nx, Ny; try discriminate; cbn [SFmul];
    try rewrite (xorb_comm sx sy); try reflexivity.
  rewrite (Pos.mul_comm mx my), (Z.add_comm ex ey). reflexivity.
Qed.

(** *** Division *)

Lemma new_location_code n r q :
  0 < n -> 0 <= r < n ->
  4 * q + loc_code (new_location n r) = sticky_quot (2 * (q * n + r)) n.
Proof.
  intros Hn Hr.
  assert (Hl : loc_code (new_location n r) =
               if r =? 0 then 0 else if 2 * r <? n then 1
               else if 2 * r =? n then 2 else 3).
  { unfold new_location.
    destruct (Z.even n) eqn:Ev;
      unfold new_location_even, new_location_odd;
      destruct (Z.eqb_spec r 0) as [->|Hr0]; try reflexivity.
    - destruct (Z.compare_spec (2 * r) n);
        destruct (Z.ltb_spec (2 * r) n), (Z.eqb_spec (2 * r) n);
        cbn [loc_code]; lia.
    - assert (2 * r <> n).
      { intro E. rewrite <- E, Z.even_mul in Ev. discriminate. }
      destruct (Z.compare_spec (2 * r + 1) n);
        destruct (Z.ltb_spec (2 * r) n), (Z.eqb_spec (2 * r) n);
        cbn [loc_code]; lia. }
  rewrite Hl. unfold sticky_quot.
  destruct (Z.ltb_spec (2 * r) n) as [L|G].
  - assert (E1 : 2 * (q * n + r) / n = 2 * q)
      by (symmetry; apply (Z.div_unique _ _ _ (2 * r)); lia).
    assert (E2 : 2 * (q * n + r) mod n = 2 * r)
      by (symmetry; apply (Z.mod_unique _ _ (2 * q)); lia).
    rewrite E1, E2.
    destruct (Z.eqb_spec r 0), (Z.eqb_spec (2 * r) 0); lia.
  - assert (E1 : 2 * (q * n + r) / n = 2 * q + 1)
      by (symmetry; apply (Z.div_unique _ _ _ (2 * r - n)); lia).
    assert (E2 : 2 * (q * n + r) mod n = 2 * r - n)
      by (symmetry; apply (Z.mod_unique _ _ (2 * q + 1)); lia).
    rewrite E1, E2.
    destruct (Z.eqb_spec r 0), (Z.eqb_spec (2 * r) n), (Z.eqb_spec (2 * r - n) 0); lia.
Qed.

Lemma SFdiv_core_spec mx ex my ey :
  let e' := div_exp mx ex my ey in
  let m' := Zpos mx * 2 ^ (ex - ey - e') in
  exists q l,
    SFdiv_core_binary prec emax (Zpos mx) ex (Zpos my) ey = (q, e', l)
    /\ 0 <= q /\ 4 * q + loc_code l = sticky_quot (2 * m') (Zpos my)
    /\ e' <= fexp prec emax (Zdigits2 q + e').
Proof.
  intros e' m'.
  assert (Hs : 0 <= ex - ey - e') by (unfold e', div_exp; lia).
  pose proof (pow2_pos (ex - ey - e') Hs) as Ps.
  assert (Hm' : 0 < m') by (unfold m'; nia).
  unfold SFdiv_core_binary. fold (div_exp mx ex my ey). fold e'.
  assert (Em : match ex - ey - e' with
               | Z0 => Zpos mx
               | Zpos _ => Z.shiftl (Zpos mx) (ex - ey - e')
               | Zneg _ => 0
               end = m').
  { unfold m'. destruct (ex - ey - e') as [|p|p] eqn:E.
    - rewrite Z.mul_1_r. reflexivity.
    - rewrite Z.shiftl_mul_pow2 by lia. reflexivity.
    - lia. }
  rewrite Em.
  pose proof (Z.div_mod m' (Zpos my) ltac:(lia)) as DM.
  pose proof (Z.mod_pos_bound m' (Zpos my) ltac:(lia)) as MB.
  unfold Z.div, Z.modulo in DM, MB.
  destruct (Z.div_eucl m' (Zpos my)) as [q r].
  exists q, (new_location (Zpos my) r).
  assert (Hq : 0 <= q) by nia.
  split; [reflexivity|]. split; [exact Hq|]. split.
  - rewrite (new_location_code (Zpos my) r q) by lia.
    f_equal. lia.
  - rewrite fexp_eq.
    destruct (Z_le_gt_dec e' (-1074)) as [|g]; [lia|].
    assert (He' : e' <= Zdigits2 (Zpos mx) + ex - (Zdigits2 (Zpos my) + ey) - 53).
    { clear - g. unfold e', div_exp in *. rewrite fexp_eq in *. lia. }
    pose proof (Zdigits2_bounds (Zpos mx) ltac:(lia)) as [Lx _].
    pose proof (Zdigits2_bounds (Zpos my) ltac:(lia)) as [_ Uy].
    pose proof (Zdigits2_pos (Zpos mx) ltac:(lia)).
    pose proof (Zdigits2_pos (Zpos my) ltac:(lia)).
    set (d1 := Zdigits2 (Zpos mx)) in *. set (d2 := Zdigits2 (Zpos my)) in *.
    assert (2 ^ 52 * 2 ^ d2 <= 2 ^ (d1 - 1) * 2 ^ (ex - ey - e')).
    { rewrite <- !Z.pow_add_r by lia. apply Z.pow_le_mono_r; lia. }
    assert (2 ^ 52 <= q).
    { pose proof (pow2_pos 52 ltac:(lia)). pose proof (pow2_pos d2 ltac:(lia)).
      pose proof (pow2_pos (d1 - 1) ltac:(lia)).
      assert (2 ^ (d1 - 1) * 2 ^ (ex - ey - e') <= m')
        by (unfold m'; apply Z.mul_le_mono_nonneg_r; lia).
      destruct (Z_le_gt_dec (2 ^ 52) q); [assumption|]. exfalso.
      assert (q + 1 <= 2 ^ 52) by lia.
      assert ((q + 1) * Zpos my <= 2 ^ 52 * Zpos my)
        by (apply Z.mul_le_mono_nonneg_r; lia).
      assert (2 ^ 52 * Zpos my < 2 ^ 52 * 2 ^ d2)
        by (apply Z.mul_lt_mono_pos_l; lia).
      lia. }
    pose proof (Zdigits2_ge q 52 ltac:(lia) ltac:(assumption)). lia.
Qed.

Lemma SFdiv_finite_good mx ex my ey :
  good (SFdiv prec emax (S754_finite false mx ex) (S754_finite false my ey)).
Proof.
  cbn [SFdiv xorb].
  destruct (SFdiv_core_spec mx ex my ey) as (q & l & E & Hq & Hc & Ha).
  rewrite E.
  destruct (round_aux_spec false q _ l _ (Zpos my) Hq (Pos2Z.is_pos my) Hc Ha) as (R & B & L).
  rewrite R. apply round_result_val; [exact B | apply fexp_ge | exact L].
Qed.

Lemma SFdiv_good x y :
  good x -> good y -> 0 < SFval y < inf_value -> good (SFdiv prec emax x y).
Proof.
  intros [Vx Nx] [Vy Ny] Hy.
  destruct y as [sy|sy| |sy my ey]; cbn in Ny; try discriminate;
    cbn [SFval] in Hy; try lia.
  clear_sign.
  destruct x as [sx|sx| |sx mx ex]; cbn in Nx; try discriminate;
    clear_sign.
  - cbn. split; reflexivity.
  - cbn. split; reflexivity.
  - apply SFdiv_finite_good; assumption.
Qed.

Lemma SFdiv_mono x1 x2 y :
  good x1 -> good x2 -> good y -> 0 < SFval y < inf_value ->
  SFval x1 <= SFval x2 ->
  SFval (SFdiv prec emax x1 y) <= SFval (SFdiv prec emax x2 y).
Proof.
  intros [V1 N1] [V2 N2] [Vy Ny] Hy H.
  pose proof inf_value_pos as TP.
  assert (G2 : good (SFdiv prec emax x2 y))
    by (apply SFdiv_good; [split; assumption | split; assumption | exact Hy]).
  destruct y as [sy|sy| |sy my ey]; cbn in Ny; try discriminate;
    cbn [SFval] in Hy; try lia.
  clear_sign.
  destruct x1 as [s1|s1| |s1 m1 e1]; cbn in N1; try discriminate;
    clear_sign.
  - cbn [SFdiv SFval]. apply SFval_nonneg.
  - pose proof (SFval_le_inf x2 V2).
    destruct x2 as [s2|s2| |s2 m2 e2]; cbn in N2; try discriminate;
      cbn [SFval] in *; try lia.
    pose proof (SFval_finite_lt_inf _ _ _ V2). cbn [SFval] in *. lia.
  - destruct x2 as [s2|s2| |s2 m2 e2]; cbn in N2; try discriminate;
      clear_sign.
    + pose proof (SFval_finite_lt_inf _ _ _ V1). cbn [SFval] in *. lia.
    + pose proof (SFval_le_inf _ (proj1 (SFdiv_finite_good m1 e1 my ey))).
      cbn [SFdiv SFval xorb] in *. lia.
    + cbn [SFdiv xorb].
      destruct (SFdiv_core_spec m1 e1 my ey) as (q1 & l1 & E1 & Hq1 & Hc1 & Ha1).
      destruct (SFdiv_core_spec m2 e2 my ey) as (q2 & l2 & E2 & Hq2 & Hc2 & Ha2).
      rewrite E1, E2.
      apply valid_finite in V1 as (He1 & _).
      apply valid_finite in V2 as (He2 & _).
      apply (round_mono q1 _ l1 _ (Zpos my) q2 _ l2 _ (Zpos my)
               Hq1 (Pos2Z.is_pos my) Hc1 Hq2 (Pos2Z.is_pos my) Hc2 Ha1 Ha2).
      unfold frac_le. cbn [SFval] in H.
      set (f1 := div_exp m1 e1 my ey) in *.
      set (f2 := div_exp m2 e2 my ey) in *.
      set (mn := Z.min f1 f2).
      assert (Hf1 : 0 <= e1 - ey - f1) by (unfold f1, div_exp; lia).
      assert (Hf2 : 0 <= e2 - ey - f2) by (unfold f2, div_exp; lia).
      assert (Hmn : mn <= f1 /\ mn <= f2) by (unfold mn; lia).
      assert (K : Zpos m1 * 2 ^ (e1 - ey - mn) <= Zpos m2 * 2 ^ (e2 - ey - mn)).
      { apply (pow_le_shift _ _ (e1 + 1074) (e2 + 1074)); try lia. }
      replace (e1 - ey - mn) with ((e1 - ey - f1) + (f1 - mn)) in K by lia.
      replace (e2 - ey - mn) with ((e2 - ey - f2) + (f2 - mn)) in K by lia.
      rewrite !Z.pow_add_r in K by lia.
      pose proof (pow2_pos (e1 - ey - f1) Hf1).
      pose proof (pow2_pos (e2 - ey - f2) Hf2).
      pose proof (pow2_pos (f1 - mn) ltac:(lia)).
      pose proof (pow2_pos (f2 - mn) ltac:(lia)).
      set (A := Zpos m1 * (2 ^ (e1 - ey - f1) * 2 ^ (f1 - mn))) in *.
      set (B := Zpos m2 * (2 ^ (e2 - ey - f2) * 2 ^ (f2 - mn))) in *.
      assert (K' : 2 * Zpos my * A <= 2 * Zpos my * B)
        by (apply Z.mul_le_mono_nonneg_l; lia).
      unfold A, B in K'. lia.
Qed.

(** *** Addition *)

Lemma Pos_iter_xO m d : Zpos (Pos.iter xO m d) = Zpos m * 2 ^ Zpos d.
Proof.
  induction d as [|d IH] using Pos.peano_ind.
  - cbn [Pos.iter]. rewrite Pos2Z.inj_xO. change (2 ^ 1) with 2. lia.
  - rewrite Pos.iter_succ, Pos2Z.inj_xO, IH, Pos2Z.inj_succ, Z.pow_succ_r by lia.
    lia.
Qed.

Lemma shl_align_spec mx ex ex' :
  snd (shl_align mx ex ex') = Z.min ex ex'
  /\ Zpos (fst (shl_align mx ex ex')) = Zpos mx * 2 ^ (ex - Z.min ex ex').
Proof.
  unfold shl_align. destruct (ex' - ex) as [|d|d] eqn:E; cbn [fst snd].
  - replace (Z.min ex ex') with ex by lia. rewrite Z.sub_diag. cbn [Z.pow]. lia.
  - replace (Z.min ex ex') with ex by lia. rewrite Z.sub_diag. cbn [Z.pow]. lia.
  - replace (Z.min ex ex') with ex' by lia. rewrite Pos_iter_xO.
    split; [reflexivity|]. f_equal. f_equal. lia.
Qed.

Lemma Zdigits2_mul_pow m k :
  0 < m -> 0 <= k -> Zdigits2 (m * 2 ^ k) = Zdigits2 m + k.
Proof.
  intros Hm Hk.
  pose proof (Zdigits2_bounds m Hm) as [L U].
  pose proof (Zdigits2_pos m Hm) as P.
  pose proof (pow2_pos k Hk) as Pk.
  apply Zdigits2_unique; [lia|].
  replace (Zdigits2 m + k - 1) with ((Zdigits2 m - 1) + k) by lia.
  rewrite !Z.pow_add_r by lia. split.
  - apply Z.mul_le_mono_nonneg_r; lia.
  - apply Z.mul_lt_mono_pos_r; lia.
Qed.

(** [binary_round] aligns the mantissa, then rounds. *)
Lemma binary_round_spec p e :
  exists mz ez,
    binary_round prec emax false p e
    = binary_round_aux prec emax false (Zpos mz) ez loc_Exact
    /\ ez = Z.min e (fexp prec emax (Zdigits2 (Zpos p) + e))
    /\ Zpos mz = Zpos p * 2 ^ (e - ez)
    /\ ez <= fexp prec emax (Zdigits2 (Zpos mz) + ez).
Proof.
  unfold binary_round.
  change (Z.pos (digits2_pos p)) with (Zdigits2 (Zpos p)).
  set (F := fexp prec emax (Zdigits2 (Zpos p) + e)).
  destruct (shl_align_spec p e F) as [S1 S2].
  destruct (shl_align p e F) as [mz ez]. cbn [fst snd] in *.
  exists mz, ez. split; [reflexivity|]. split; [exact S1|].
  rewrite <- S1 in S2. split; [exact S2|].
  rewrite S2, Zdigits2_mul_pow by lia.
  replace (Zdigits2 (Z.pos p) + (e - ez) + ez) with (Zdigits2 (Zpos p) + e) by lia.
  fold F. lia.
Qed.

Lemma SFadd_finite_spec mx ex my ey :
  -1074 <= ex -> -1074 <= ey ->
  exists mz ez,
    SFadd prec emax (S754_finite false mx ex) (S754_finite false my ey)
    = binary_round_aux prec emax false (Zpos mz) ez loc_Exact
    /\ -1074 <= ez
    /\ ez <= fexp prec emax (Zdigits2 (Zpos mz) + ez)
    /\ Zpos mz * 2 ^ (ez + 1074)
       = Zpos mx * 2 ^ (ex + 1074) + Zpos my * 2 ^ (ey + 1074).
Proof.
  intros Hex Hey. cbn [SFadd cond_Zopp].
  set (e0 := Z.min ex ey).
  destruct (shl_align_spec mx ex e0) as [_ Sx].
  destruct (shl_align_spec my ey e0) as [_ Sy].
  replace (Z.min ex e0) with e0 in Sx by (unfold e0; lia).
  replace (Z.min ey e0) with e0 in Sy by (unfold e0; lia).
  rewrite Sx, Sy.
  assert (H0 : -1074 <= e0 /\ e0 <= ex /\ e0 <= ey) by (unfold e0; lia).
  pose proof (pow2_pos (ex - e0) ltac:(lia)) as Px.
  pose proof (pow2_pos (ey - e0) ltac:(lia)) as Py.
  destruct (Zpos mx * 2 ^ (ex - e0) + Zpos my * 2 ^ (ey - e0)) as [|ps|ps] eqn:Es;
    try nia.
  cbn [binary_normalize].
  destruct (binary_round_spec ps e0) as (mz & ez & R & Ez & Mz & A).
  exists mz, ez. split; [exact R|].
  pose proof (fexp_ge (Zdigits2 (Zpos ps) + e0)).
  split; [lia|]. split; [exact A|].
  rewrite Mz, <- Es.
  rewrite <- Z.mul_assoc, <- Z.pow_add_r by lia.
  replace (e0 - ez + (ez + 1074)) with (e0 + 1074) by lia.
  rewrite Z.mul_add_distr_r, <- !Z.mul_assoc, <- !Z.pow_add_r by lia.
  f_equal; f_equal; f_equal; lia.
Qed.

Lemma round_exact_mono_val m1 e1 m2 e2 :
  0 <= m1 -> 0 <= m2 -> -1074 <= e1 -> -1074 <= e2 ->
  e1 <= fexp prec emax (Zdigits2 m1 + e1) ->
  e2 <= fexp prec emax (Zdigits2 m2 + e2) ->
  m1 * 2 ^ (e1 + 1074) <= m2 * 2 ^ (e2 + 1074) ->
  SFval (binary_round_aux prec emax false m1 e1 loc_Exact)
  <= SFval (binary_round_aux prec emax false m2 e2 loc_Exact).
Proof.
  intros. apply round_exact_mono; try assumption.
  apply (pow_le_shift _ _ (e1 + 1074) (e2 + 1074)); try lia.
Qed.

Lemma SFadd_good x c :
  good x -> good c -> 0 < SFval c < inf_value -> good (SFadd prec emax x c).
Proof.
  intros [Vx Nx] [Vc Nc] Hc.
  destruct c as [sc|sc| |sc mc ec]; cbn in Nc; try discriminate;
    cbn [SFval] in Hc; try lia.
  clear_sign.
  destruct x as [sx|sx| |sx mx ex]; cbn in Nx; try discriminate;
    clear_sign.
  - cbn [SFadd]. split; [exact Vc|reflexivity].
  - cbn [SFadd]. split; reflexivity.
  - pose proof (valid_finite _ _ _ Vx) as (Hex & _).
    pose proof (valid_finite _ _ _ Vc) as (Hec & _).
    destruct (SFadd_finite_spec mx ex mc ec) as (mz & ez & R & Hz & A & _); try lia.
    rewrite R. apply round_exact_good; [lia|exact A].
Qed.

Lemma SFadd_mono x1 x2 c :
  good x1 -> good x2 -> good c -> 0 < SFval c < inf_value ->
  SFval x1 <= SFval x2 ->
  SFval c <= SFval (SFadd prec emax x1 c)
  /\ SFval (SFadd prec emax x1 c) <= SFval (SFadd prec emax x2 c).
Proof.
  intros [V1 N1] [V2 N2] [Vc Nc] Hc H.
  pose proof inf_value_pos as TP.
  pose proof (SFval_le_inf _ (proj1 (SFadd_good x2 c (conj V2 N2) (conj Vc Nc) Hc))) as T2.
  destruct c as [sc|sc| |sc mc ec]; cbn in Nc; try discriminate;
    cbn [SFval] in Hc; try lia.
  clear_sign.
  pose proof (valid_finite _ _ _ Vc) as (Hec & _).
  assert (Base : forall s m e, valid_binary (S754_finite s m e) = true -> negb s = true ->
            SFval (S754_finite false mc ec)
            <= SFval (SFadd prec emax (S754_finite s m e) (S754_finite false mc ec))).
  { intros s m e V N. clear_sign.
    pose proof (valid_finite _ _ _ V) as (He & _).
    destruct (SFadd_finite_spec m e mc ec) as (mz & ez & R & Hz & A & Val); try lia.
    rewrite R, <- (round_exact_id false mc ec Vc).
    pose proof (valid_finite _ _ _ Vc) as (_ & _ & _ & Fc).
    apply round_exact_mono_val; try lia. }
  destruct x1 as [s1|s1| |s1 m1 e1]; cbn in N1; try discriminate.
  - (* x1 = 0 *)
    cbn [SFadd]. split; [lia|].
    destruct x2 as [s2|s2| |s2 m2 e2]; cbn in N2; try discriminate.
    + cbn [SFadd]. lia.
    + cbn [SFadd SFval] in *. lia.
    + apply Base; assumption.
  - (* x1 = +inf *)
    pose proof (SFval_le_inf x2 V2).
    destruct x2 as [s2|s2| |s2 m2 e2]; cbn in N2; try discriminate;
      cbn [SFval] in *; try lia.
    + cbn [SFadd SFval]. lia.
    + pose proof (SFval_finite_lt_inf _ _ _ V2). cbn [SFval] in *. lia.
  - split; [apply Base; assumption|].
    destruct x2 as [s2|s2| |s2 m2 e2]; cbn in N2; try discriminate.
    + pose proof (SFval_finite_lt_inf _ _ _ V1). cbn [SFval] in *. lia.
    + cbn [SFadd SFval] in *.
      clear_sign.
      pose proof (SFval_le_inf _ (proj1 (SFadd_good (S754_finite false m1 e1)
         (S754_finite false mc ec) (conj V1 eq_refl) (conj Vc eq_refl) Hc))) as T1.
      exact T1.
    + clear_sign.
      pose proof (valid_finite _ _ _ V1) as (He1 & _).
      pose proof (valid_finite _ _ _ V2) as (He2 & _).
      destruct (SFadd_finite_spec m1 e1 mc ec) as (mz1 & ez1 & R1 & Hz1 & A1 & Val1); try lia.
      destruct (SFadd_finite_spec m2 e2 mc ec) as (mz2 & ez2 & R2 & Hz2 & A2 & Val2); try lia.
      rewrite R1, R2. cbn [SFval] in H.
      apply round_exact_mono_val; try lia.
Qed.

(** ** Primitive doubles *)

Lemma fgood f : fnonneg f -> good (Prim2SF f).
Proof. intros H. split; [apply Prim2SF_valid | exact H]. Qed.

Lemma fval_nonneg f : 0 <= fval f.
Proof. apply SFval_nonneg. Qed.

Lemma fval_le_inf f : fval f <= inf_value.
Proof. apply SFval_le_inf, Prim2SF_valid. Qed.

Lemma leb_val x y :
  fnonneg x -> fnonneg y -> PrimFloat.leb x y = (fval x <=? fval y).
Proof.
  intros Hx Hy. rewrite leb_spec. apply SFleb_val; apply fgood; assumption.
Qed.

Lemma ltb_val x y :
  fnonneg x -> fnonneg y -> PrimFloat.ltb x y = (fval x <? fval y).
Proof.
  intros Hx Hy. rewrite ltb_spec. apply SFltb_val; apply fgood; assumption.
Qed.

Lemma Prim2SF_zero : Prim2SF 0%float = S754_zero false.
Proof. reflexivity. Qed.

Lemma leb_0_nonneg x : PrimFloat.leb 0%float x = true -> fnonneg x.
Proof.
  rewrite leb_spec, Prim2SF_zero. unfold fnonneg.
  destruct (Prim2SF x) as [s|[]| |[] m e]; cbn; congruence.
Qed.

Lemma ltb_0_pos x : PrimFloat.ltb 0%float x = true -> fnonneg x /\ 0 < fval x.
Proof.
  rewrite ltb_spec, Prim2SF_zero. unfold fnonneg, fval.
  pose proof (Prim2SF_valid x) as V. pose proof inf_value_pos.
  destruct (Prim2SF x) as [s|[]| |[] m e]; cbn [SFltb SFcompare SFnonneg negb SFval];
    try congruence; intros _; split; try reflexivity; try lia.
  apply (SFval_finite_lt_inf _ _ _ V).
Qed.

Lemma ltb_nonneg_lt x y :
  fnonneg x -> PrimFloat.ltb x y = true -> fnonneg y /\ fval x < fval y.
Proof.
  intros Hx H.
  assert (Hy : fnonneg y).
  { rewrite ltb_spec in H. unfold fnonneg in *.
    destruct (Prim2SF x) as [sx|[]| |[] mx ex], (Prim2SF y) as [sy|[]| |[] my ey];
      cbn in *; congruence. }
  split; [exact Hy|]. rewrite (ltb_val x y Hx Hy) in H. lia.
Qed.

Lemma pos_nonzero x : fnonneg x -> 0 < fval x -> PrimFloat.eqb x 0%float = false.
Proof.
  intros N P. rewrite eqb_spec, Prim2SF_zero. unfold SFeqb.
  assert (G0 : good (S754_zero false)) by (split; reflexivity).
  rewrite (SFcompare_val _ _ (fgood x N) G0).
  cbn [SFval]. fold (fval x).
  destruct (Z.compare_spec (fval x) 0); try reflexivity; lia.
Qed.

Lemma fmul_nonneg x y :
  fnonneg x -> fnonneg y -> (0 < fval x \/ fval y < inf_value) ->
  (0 < fval y \/ fval x < inf_value) -> fnonneg (x * y)%float.
Proof.
  intros Hx Hy H1 H2. unfold fnonneg. rewrite mul_spec.
  apply SFmul_good; try apply fgood; assumption.
Qed.

Lemma fmul_mono_l c x y :
  fnonneg c -> fnonneg x -> fnonneg y ->
  0 < fval c -> (fval c < inf_value \/ 0 < fval x) -> fval x <= fval y ->
  fval (c * x)%float <= fval (c * y)%float.
Proof.
  intros Hc Hx Hy Pc H1 H. unfold fval. rewrite !mul_spec.
  apply SFmul_mono; try apply fgood; assumption.
Qed.

Lemma fmul_comm x y : fnonneg x -> fnonneg y -> (x * y = y * x)%float.
Proof.
  intros Hx Hy. apply Prim2SF_inj. rewrite !mul_spec.
  apply SFmul_comm; assumption.
Qed.

Lemma fmul_mono_r c x y :
  fnonneg c -> fnonneg x -> fnonneg y ->
  0 < fval c -> (fval c < inf_value \/ 0 < fval x) -> fval x <= fval y ->
  fval (x * c)%float <= fval (y * c)%float.
Proof.
  intros Hc Hx Hy Pc H1 H.
  rewrite (fmul_comm x c), (fmul_comm y c) by assumption.
  apply fmul_mono_l; assumption.
Qed.

Lemma fmul_pos_lower c x :
  fpos c -> fnonneg x -> 0 < fval x -> fnonneg (x * c)%float.
Proof.
  intros [Nc Pc] Nx Px. apply fmul_nonneg; try assumption; lia.
Qed.

Lemma fdiv_nonneg x c : fnonneg x -> fpos c -> fnonneg (x / c)%float.
Proof.
  intros Hx [Nc Pc]. unfold fnonneg. rewrite div_spec.
  apply SFdiv_good; try apply fgood; assumption.
Qed.

Lemma fdiv_mono x y c :
  fnonneg x -> fnonneg y -> fpos c -> fval x <= fval y ->
  fval (x / c)%float <= fval (y / c)%float.
Proof.
  intros Hx Hy [Nc Pc] H. unfold fval. rewrite !div_spec.
  apply SFdiv_mono; try apply fgood; assumption.
Qed.

Lemma fadd_nonneg x c : fnonneg x -> fpos c -> fnonneg (x + c)%float.
Proof.
  intros Hx [Nc Pc]. unfold fnonneg. rewrite add_spec.
  apply SFadd_good; try apply fgood; assumption.
Qed.

Lemma fadd_mono x y c :
  fnonneg x -> fnonneg y -> fpos c -> fval x <= fval y ->
  fval c <= fval (x + c)%float /\ fval (x + c)%float <= fval (y + c)%float.
Proof.
  intros Hx Hy [Nc Pc] H. unfold fval. rewrite !add_spec.
  apply SFadd_mono; try apply fgood; assumption.
Qed.

(** Dividing by [+inf] leaves nothing to compare. *)
Lemma fdiv_inf_no_lt x y d :
  fnonneg x -> fnonneg y -> fnonneg d -> fval d = inf_value ->
  PrimFloat.ltb (x / d)%float (y / d)%float = false.
Proof.
  unfold fnonneg, fval. intros Hx Hy Hd Vd.
  rewrite ltb_spec, !div_spec.
  pose proof (Prim2SF_valid d) as V. pose proof inf_value_pos.
  destruct (Prim2SF d) as [sd|sd| |sd md ed]; cbn in Hd; try discriminate;
    cbn [SFval] in Vd; try lia.
  - destruct (Prim2SF x) as [sx|sx| |sx mx ex], (Prim2SF y) as [sy|sy| |sy my ey];
      cbn in Hx, Hy; try discriminate; reflexivity.
  - pose proof (SFval_finite_lt_inf _ _ _ V). cbn [SFval] in *. lia.
Qed.

End Binary64.

Import Binary64.

(** ** Fixed-point rendering always has its three decimals *)

Lemma all_digits_app s t : all_digits (s ++ t) = all_digits s && all_digits t.
Proof.
  induction s as [|c s IH]; cbn [append all_digits]; [reflexivity|].
  rewrite IH, andb_assoc. reflexivity.
Qed.

Lemma NilEmpty_digits u : all_digits (NilEmpty.string_of_uint u) = true.
Proof. induction u; cbn [NilEmpty.string_of_uint all_digits]; try rewrite IHu; reflexivity. Qed.

Lemma digits_of_digits n : all_digits (digits_of n) = true /\ digits_of n <> "".
Proof.
  unfold digits_of, NilZero.string_of_uint.
  destruct (N.to_uint (Z.to_N n)) as [|u|u|u|u|u|u|u|u|u|u] eqn:E;
    (split; [ try reflexivity; apply (NilEmpty_digits) | cbn; discriminate ]).
Qed.

Lemma int_point_frac3_app i f seen :
  all_digits i = true -> (seen = true \/ i <> "") ->
  int_point_frac3 (i ++ "." ++ f) seen = frac3 f.
Proof.
  revert seen. induction i as [|c i IH]; intros seen D H.
  - destruct H as [->|H]; [|congruence]. reflexivity.
  - cbn [all_digits] in D. apply andb_true_iff in D as [Dc Di].
    cbn [append int_point_frac3]. rewrite Dc. apply IH; auto.
Qed.

Lemma length_app s t :
  String.length (s ++ t) = (String.length s + String.length t)%nat.
Proof. induction s as [|c s IH]; cbn; [reflexivity|]. rewrite IH. reflexivity. Qed.

Lemma zeros_digits k : all_digits (zeros k) = true /\ String.length (zeros k) = k.
Proof. induction k as [|k [IH1 IH2]]; cbn; auto. Qed.

Lemma frac3_spec s : all_digits s = true -> String.length s = 3%nat -> frac3 s = true.
Proof.
  destruct s as [|a [|b [|c [|? ?]]]]; cbn; try discriminate.
  intros H _. rewrite !andb_true_r in H. rewrite <- andb_assoc. exact H.
Qed.

Lemma digits_of_small_length :
  forallb (fun b => (String.length (digits_of (Z.of_nat b)) <=? 3)%nat) (seq 0 1000) = true.
Proof. vm_compute. reflexivity. Qed.

Lemma pad_left_frac3 b : 0 <= b < 1000 -> frac3 (pad_left 3 (digits_of b)) = true.
Proof.
  intros Hb. apply frac3_spec.
  - unfold pad_left. rewrite all_digits_app.
    rewrite (proj1 (zeros_digits _)), (proj1 (digits_of_digits b)). reflexivity.
  - pose proof digits_of_small_length as H.
    rewrite forallb_forall in H. specialize (H (Z.to_nat b)).
    rewrite Z2Nat.id in H by lia.
    assert (L : (String.length (digits_of b) <= 3)%nat).
    { apply Nat.leb_le, H, in_seq. lia. }
    unfold pad_left. rewrite length_app, (proj2 (zeros_digits _)). lia.
Qed.

Lemma fixed_point_3 n : 0 <= n -> int_point_frac3 (fixed_point 3 n) false = true.
Proof.
  intros Hn. unfold fixed_point. change (10 ^ Z.of_nat 3) with 1000.
  destruct (digits_of_digits (n / 1000)) as [D N].
  rewrite int_point_frac3_app; auto.
  apply pad_left_frac3. apply Z.mod_pos_bound. lia.
Qed.

Lemma scaled_round_nonneg p m e : 0 <= scaled_round p m e.
Proof.
  unfold scaled_round.
  assert (0 <= Zpos m * 10 ^ Z.of_nat p)
    by (apply Z.mul_nonneg_nonneg; [lia|apply Z.pow_nonneg; lia]).
  destruct e as [|k|k].
  - rewrite Z.mul_1_r. assumption.
  - apply Z.mul_nonneg_nonneg; [assumption|apply Z.pow_nonneg; lia].
  - assert (0 < 2 ^ Zpos k) by (apply Z.pow_pos_nonneg; lia).
    assert (0 <= Zpos m * 10 ^ Z.of_nat p / 2 ^ Zpos k) by (apply Z.div_pos; assumption).
    cbv zeta.
    destruct (_ ?= _); try destruct (Z.even _); lia.
Qed.

Lemma format_float_three_decimals f :
  float_finite f = true -> three_decimals (format_float 3 f) = true.
Proof.
  unfold float_finite, format_float.
  destruct (Prim2SF f) as [s|s| |s m e]; try discriminate; intros _.
  - destruct s; reflexivity.
  - pose proof (fixed_point_3 (scaled_round 3 m e) (scaled_round_nonneg 3 m e)) as H.
    destruct s; cbn [sign_str append].
    + unfold three_decimals. cbn [Ascii.eqb Bool.eqb]. exact H.
    + unfold three_decimals.
      destruct (fixed_point 3 (scaled_round 3 m e)) as [|c s'] eqn:E; [discriminate H|].
      destruct (Ascii.eqb_spec c "-") as [->|_]; [|exact H].
      cbn in H. discriminate H.
Qed.

(** ** Conversions of numbers to doubles *)

(** A non-negative integer converts to a non-negative double, a positive
    one to a positive finite double. *)
Lemma float_of_Z_spec z f :
  0 <= z -> float_of_Z z = Ok f ->
  fnonneg f /\ (0 < z -> 0 < fval f < inf_value).
Proof.
  intros Hz. unfold float_of_Z, fnonneg, fval.
  destruct z as [|p|p]; try lia.
  - cbn [binary_normalize]. intros E. injection E as <-.
    split; [reflexivity|lia].
  - cbn [binary_normalize].
    destruct (binary_round_spec p 0) as (mz & ez & R & Ez & Mz & A).
    rewrite R.
    assert (Hmz : 0 <= Zpos mz) by lia.
    destruct (round_aux_spec false (Zpos mz) ez loc_Exact (2 * Zpos mz) 1 Hmz ltac:(lia))
      as (RR & B & L); [rewrite sticky_quot_1; cbn [loc_code]; lia | exact A |].
    pose proof (fexp_ge (Zdigits2 (Zpos mz) + ez)) as G.
    destruct (round_result_val _ _ B G L) as [[V N] Val].
    rewrite <- RR in V, N, Val.
    assert (HE : -1074 < fexp prec emax (Zdigits2 (Zpos mz) + ez)).
    { rewrite Mz, Zdigits2_mul_pow by (rewrite ?fexp_eq in *; lia).
      pose proof (Zdigits2_pos (Zpos p) ltac:(lia)).
      rewrite fexp_eq. lia. }
    specialize (L HE).
    set (sf := binary_round_aux prec emax false (Z.pos mz) ez loc_Exact) in *.
    intros E.
    assert (Ef : f = SF2Prim sf /\ forall s, sf <> S754_infinity s).
    { destruct sf; try (injection E as <-; split; [reflexivity|congruence]).
      discriminate. }
    destruct Ef as [-> Ninf].
    rewrite Prim2SF_SF2Prim by exact V.
    split; [exact N|]. intros _.
    pose proof (pow2_pos (fexp prec emax (Zdigits2 (Zpos mz) + ez) + 1074) ltac:(lia)) as PE.
    pose proof (pow2_pos 52 ltac:(lia)).
    pose proof inf_value_pos.
    split; [rewrite Val; nia|].
    destruct sf as [s|s| |s m e]; cbn [SFval] in *; try lia.
    + exfalso. apply (Ninf s). reflexivity.
    + apply (SFval_finite_lt_inf s m e V).
Qed.

Lemma as_float_nonneg n f :
  num_nonneg n = true -> as_float n = Ok f -> fnonneg f.
Proof.
  destruct n as [z|g]; cbn [num_nonneg as_float]; intros H E.
  - apply Z.leb_le in H. apply (float_of_Z_spec z f H E).
  - injection E as <-. apply leb_0_nonneg, H.
Qed.

Lemma as_float_pos n f :
  num_pos n = true -> as_float n = Ok f -> fnonneg f /\ 0 < fval f.
Proof.
  destruct n as [z|g]; cbn [num_pos as_float]; intros H E.
  - apply Z.ltb_lt in H.
    destruct (float_of_Z_spec z f ltac:(lia) E) as [N P].
    split; [exact N|]. apply P. exact H.
  - injection E as <-. apply ltb_0_pos, H.
Qed.

Lemma float_truediv_pos a d :
  fnonneg d -> 0 < fval d -> float_truediv a d = Ok (a / d)%float.
Proof.
  intros N P. unfold float_truediv. rewrite (pos_nonzero d N P). reflexivity.
Qed.

(** ** The runtime fragment on concrete values *)

Example float_of_Z_examples :
  float_of_Z 15000 = Ok 15000%float
  /\ float_of_Z (2 ^ 53 + 1) = Ok 9007199254740992%float
  /\ float_of_Z (2 ^ 1024 - 2 ^ 970 - 1) = Ok 1.7976931348623157e308%float
  /\ float_of_Z (2 ^ 1024 - 2 ^ 970) = Raise OverflowError.
Proof. repeat split; vm_compute; reflexivity. Qed.

Example int_truediv_examples :
  int_truediv 1000 1000 = Ok 1%float
  /\ int_truediv 180 100 = Ok 1.8%float
  /\ int_truediv 1 3 = Ok 0.33333333333333331%float
  /\ int_truediv (10 ^ 400) (3 * 10 ^ 399) = Ok 3.3333333333333335%float
  /\ int_truediv 0 (-5) = Ok (-0)%float
  /\ int_truediv 1 0 = Raise ZeroDivisionError
  /\ int_truediv (10 ^ 400) 1 = Raise OverflowError.
Proof. repeat split; vm_compute; reflexivity. Qed.

Example float_truediv_examples :
  float_truediv 1 0 = Raise ZeroDivisionError
  /\ float_truediv 1 (-0) = Raise ZeroDivisionError
  /\ float_truediv 1 4 = Ok 0.25%float.
Proof. repeat split; vm_compute; reflexivity. Qed.

Example py_pow2_examples :
  forall L : Libm,
    py_pow2 (PyInt 12) = Ok (PyInt 144)
    /\ py_pow2 (PyFloat infinity) = Ok (PyFloat infinity)
    /\ py_pow2 (PyFloat neg_infinity) = Ok (PyFloat infinity)
    /\ py_pow2 (PyFloat nan) = Ok (PyFloat nan)
    /\ py_pow2 (PyFloat neg_zero) = Ok (PyFloat 0)
    /\ py_pow2 (PyFloat (-1)) = Ok (PyFloat 1)
    /\ py_pow2 (L := correctly_rounded) (PyFloat (-1.5)) = Ok (PyFloat 2.25)
    /\ py_pow2 (L := correctly_rounded) (PyFloat 1e200) = Raise OverflowError.
Proof. intros L. repeat split; vm_compute; reflexivity. Qed.

Example format_float_examples :
  map (format_float 3)
      [0.0005; 0.0015; 1.0005; -0.0001; 2.5; 123456.7895; 0.9995; 5e-324;
       infinity; neg_infinity; nan; neg_zero]%float
  = ["0.001"; "0.002"; "1.000"; "-0.000"; "2.500"; "123456.789"; "1.000";
     "0.000"; "inf"; "-inf"; "nan"; "-0.000"].
Proof. vm_compute. reflexivity. Qed.

Example str_format_examples :
  str_format "{a}: {b:.2f}" [("a", AStr "x"); ("b", ANum (PyInt 3))]
  = Ok "x: 3.00"
  /\ str_format "{a}" [] = Raise (KeyError "a")
  /\ str_format "{a" [("a", AStr "x")]
     = Raise (ValueError "expected '}' before end of string").
Proof. repeat split; vm_compute; reflexivity. Qed.

(** Attribute lookup: [LEN_STEP] is the class's own binding when it has
    one, the base class's otherwise; an unknown name is an
    [AttributeError]. *)
Example getattr_examples :
  on_new Swimming [PyInt 1; PyInt 1; PyInt 1; PyInt 1; PyInt 1]
    (fun self => getattr self "LEN_STEP") = Ok (PyFloat 1.38)
  /\ on_new Running [PyInt 1; PyInt 1; PyInt 1]
       (fun self => getattr self "LEN_STEP") = Ok (PyFloat 0.65)
  /\ on_new Running [PyInt 1; PyInt 1; PyInt 1]
       (fun self => getattr self "height") = Raise (AttributeError "height")
  /\ instantiate Running [PyInt 1; PyInt 1] = Raise TypeError.
Proof. repeat split; vm_compute; reflexivity. Qed.

(** ** Evaluating the arithmetic of the methods *)

Lemma float_of_Z_18 : float_of_Z 18 = Ok 18%float.
Proof. reflexivity. Qed.
Lemma float_of_Z_60 : float_of_Z 60 = Ok 60%float.
Proof. reflexivity. Qed.
Lemma float_of_Z_100 : float_of_Z 100 = Ok 100%float.
Proof. reflexivity. Qed.
Lemma float_of_Z_1000 : float_of_Z 1000 = Ok 1000%float.
Proof. reflexivity. Qed.

Lemma fpos_const f :
  SFnonneg (Prim2SF f) = true -> (0 <? fval f) && (fval f <? inf_value) = true -> fpos f.
Proof.
  intros N H. apply andb_true_iff in H as [H1 H2].
  apply Z.ltb_lt in H1, H2. split; [exact N|lia].
Qed.

Lemma fpos_065 : fpos 0.65%float.
Proof. apply fpos_const; vm_compute; reflexivity. Qed.
Lemma fpos_138 : fpos 1.38%float.
Proof. apply fpos_const; vm_compute; reflexivity. Qed.
Lemma fpos_179 : fpos 1.79%float.
Proof. apply fpos_const; vm_compute; reflexivity. Qed.
Lemma fpos_18 : fpos 18%float.
Proof. apply fpos_const; vm_compute; reflexivity. Qed.
Lemma fpos_60 : fpos 60%float.
Proof. apply fpos_const; vm_compute; reflexivity. Qed.
Lemma fpos_1000 : fpos 1000%float.
Proof. apply fpos_const; vm_compute; reflexivity. Qed.

Lemma py_mul_float_r a c :
  py_mul a (PyFloat c) = (fa <- as_float a ;; Ok (PyFloat (fa * c)%float)).
Proof. destruct a; reflexivity. Qed.

Lemma py_mul_float_l c a :
  py_mul (PyFloat c) a = (fa <- as_float a ;; Ok (PyFloat (c * fa)%float)).
Proof. destruct a; reflexivity. Qed.

Lemma py_truediv_float_l x d :
  py_truediv (PyFloat x) d
  = (fd <- as_float d ;; q <- float_truediv x fd ;; Ok (PyFloat q)).
Proof. destruct d; reflexivity. Qed.

Lemma py_truediv_1000 x :
  py_truediv (PyFloat x) (PyInt 1000) = Ok (PyFloat (x / 1000)%float).
Proof. reflexivity. Qed.

Lemma py_truediv_pos x d :
  num_pos d = true ->
  py_truediv (PyFloat x) d = (fd <- as_float d ;; Ok (PyFloat (x / fd)%float)).
Proof.
  intros H. rewrite py_truediv_float_l.
  destruct (as_float d) as [fd|e] eqn:E; [|reflexivity].
  destruct (as_float_pos d fd H E) as [N P].
  cbn [bind]. rewrite (float_truediv_pos x fd N P). reflexivity.
Qed.

(** The distance of a step-counting workout, as a double. *)
Lemma distance_steps_eval a :
  Spec.distance_steps a
  = (fa <- as_float a ;; Ok (PyFloat (fa * 0.65 / 1000)%float)).
Proof.
  unfold Spec.distance_steps, flt, int, lift2. cbn [bind].
  rewrite py_mul_float_r. destruct (as_float a); reflexivity.
Qed.

Lemma distance_strokes_eval a d :
  num_pos d = true ->
  Spec.distance_strokes a d
  = (fa <- as_float a ;; fd <- as_float d ;;
     Ok (PyFloat (fa * 1.38 / 1000 / fd)%float)).
Proof.
  intros H. unfold Spec.distance_strokes, flt, int, lift2. cbn [bind].
  rewrite py_mul_float_r. destruct (as_float a) as [fa|]; [|reflexivity].
  cbn [bind]. rewrite py_truediv_1000. cbn [bind].
  apply py_truediv_pos, H.
Qed.

Lemma running_distance a d w :
  on_new Running [a; d; w] get_distance = Spec.distance_steps a.
Proof. reflexivity. Qed.

Lemma walking_distance a d w h :
  on_new SportsWalking [a; d; w; h] get_distance = Spec.distance_steps a.
Proof. reflexivity. Qed.

Lemma swimming_distance a d w lp cp :
  on_new Swimming [a; d; w; lp; cp] get_distance = Spec.distance_strokes a d.
Proof. reflexivity. Qed.

Lemma running_mean_speed a d w :
  on_new Running [a; d; w] get_mean_speed
  = (on_new Running [a; d; w] get_distance / Ok d)%py.
Proof. reflexivity. Qed.

Lemma walking_mean_speed a d w h :
  on_new SportsWalking [a; d; w; h] get_mean_speed
  = (on_new SportsWalking [a; d; w; h] get_distance / Ok d)%py.
Proof. reflexivity. Qed.

Lemma swimming_mean_speed a d w lp cp :
  on_new Swimming [a; d; w; lp; cp] get_mean_speed
  = Spec.mean_speed_pool lp cp d.
Proof. reflexivity. Qed.

Lemma steps_mean_speed_eval a d :
  num_pos d = true ->
  (Spec.distance_steps a / Ok d)%py
  = (fa <- as_float a ;; fd <- as_float d ;;
     Ok (PyFloat (fa * 0.65 / 1000 / fd)%float)).
Proof.
  intros H. rewrite distance_steps_eval. unfold lift2.
  destruct (as_float a) as [fa|]; [|reflexivity]. cbn [bind].
  apply py_truediv_pos, H.
Qed.

Section Calories.
Context {L : Libm}.

Lemma running_calories a d w :
  on_new Running [a; d; w] get_spent_calories
  = (mean <- on_new Running [a; d; w] get_mean_speed ;;
     Spec.calories_running mean w d).
Proof. reflexivity. Qed.

Lemma walking_calories a d w h :
  on_new SportsWalking [a; d; w; h] get_spent_calories
  = (mean <- on_new SportsWalking [a; d; w; h] get_mean_speed ;;
     Spec.calories_walking mean w h d).
Proof.
  unfold on_new. cbn [instantiate resolve mro base find defines bind].
  set (self := SportsWalking_init _ a d w h).
  unfold get_spent_calories.
  cbn [class_of self SportsWalking_init Training_init setattr resolve mro
       base find defines].
  unfold SportsWalking_get_spent_calories, Spec.calories_walking.
  destruct (get_mean_speed self) as [mean|e]; reflexivity.
Qed.

Lemma swimming_calories a d w lp cp :
  on_new Swimming [a; d; w; lp; cp] get_spent_calories
  = (mean <- on_new Swimming [a; d; w; lp; cp] get_mean_speed ;;
     Spec.calories_swimming mean w d).
Proof.
  unfold on_new. cbn [instantiate resolve mro base find defines bind].
  set (self := Swimming_init _ a d w lp cp).
  unfold get_spent_calories.
  cbn [class_of self Swimming_init Training_init setattr resolve mro
       base find defines].
  unfold Swimming_get_spent_calories, Spec.calories_swimming.
  unfold lift2 at 4. cbn [bind].
  destruct (get_mean_speed self) as [mean|e]; reflexivity.
Qed.

End Calories.

(** The calories of a run whose mean speed is the double [s]. *)
Lemma calories_running_eval s w d :
  num_pos d = true ->
  Spec.calories_running (PyFloat s) w d
  = (fw <- as_float w ;; fd <- as_float d ;;
     Ok (PyFloat ((18 * s + 1.79) * fw / 1000 * fd * 60)%float)).
Proof.
  intros H. unfold Spec.calories_running, flt, int, lift2. cbn [bind].
  cbn [py_mul as_float]. rewrite float_of_Z_18. cbn [bind py_add as_float].
  rewrite py_mul_float_l. destruct (as_float w) as [fw|]; [|reflexivity].
  cbn [bind]. rewrite py_truediv_1000. cbn [bind].
  rewrite py_mul_float_l. destruct (as_float d) as [fd|]; [|reflexivity].
  cbn [bind]. reflexivity.
Qed.

(** ** read_package *)

Lemma guard_false : dict_contains training_types (KClass "ValueError") = false.
Proof. reflexivity. Qed.

Lemma instantiate_not_ValueError c data msg :
  instantiate c data <> Raise (ValueError msg).
Proof.
  unfold instantiate.
  destruct c; cbn [resolve mro base find defines];
    repeat (destruct data as [|? data]; try discriminate).
Qed.

Lemma read_package_cases t data :
  (t = "RUN" /\ read_package t data = instantiate Running data) \/
  (t = "WLK" /\ read_package t data = instantiate SportsWalking data) \/
  (t = "SWM" /\ read_package t data = instantiate Swimming data) \/
  (t <> "RUN" /\ t <> "WLK" /\ t <> "SWM"
   /\ read_package t data = Raise (KeyError t)).
Proof.
  unfold read_package. rewrite guard_false.
  unfold dict_get, training_types. cbn [find fst snd key_eqb key_repr].
  destruct (String.eqb_spec t "RUN") as [->|H1];
    [left; split; reflexivity|].
  destruct (String.eqb_spec t "WLK") as [->|H2];
    [right; left; split; reflexivity|].
  destruct (String.eqb_spec t "SWM") as [->|H3];
    [right; right; left; split; reflexivity|].
  right; right; right. repeat split; assumption.
Qed.

(** C1: for the unknown code "XYZ" and any data, [read_package] raises
    [KeyError('XYZ')] from the dictionary lookup; the [ValueError] carrying
    the "Unknown workout type" message, which the specification expects,
    is not the error raised. *)
Theorem read_package_XYZ_raises_KeyError :
  forall data,
    read_package "XYZ" data = Raise (KeyError "XYZ")
    /\ read_package "XYZ" data
       <> Raise (ValueError ("Unknown workout type: " ++ "XYZ")).
Proof. intros data. split; [reflexivity|discriminate]. Qed.

(** C10: the guard [ValueError in training_types] is false, no call of
    [read_package] raises a [ValueError], and a code other than "RUN",
    "WLK" and "SWM" fails with the [KeyError] of the dictionary lookup. *)
Theorem read_package_guard_is_dead :
  dict_contains training_types (KClass "ValueError") = false
  /\ (forall t data msg, read_package t data <> Raise (ValueError msg))
  /\ (forall t data, t <> "RUN" -> t <> "WLK" -> t <> "SWM" ->
        read_package t data = Raise (KeyError t)).
Proof.
  split; [exact guard_false|]. split.
  - intros t data msg.
    destruct (read_package_cases t data)
      as [[_ ->]|[[_ ->]|[[_ ->]|(_ & _ & _ & ->)]]];
      try apply instantiate_not_ValueError. discriminate.
  - intros t data H1 H2 H3.
    destruct (read_package_cases t data)
      as [[E _]|[[E _]|[[E _]|(_ & _ & _ & E)]]];
      try contradiction. exact E.
Qed.

Section BaseClass.
Context {L : Libm}.

(** C9: on an instance of the base class [Training], whatever the action,
    duration and weight it was built with (and whatever attributes it
    holds), [get_spent_calories] raises [NotImplementedError]. *)
Theorem base_get_spent_calories_raises :
  (forall action duration weight,
     on_new Training [action; duration; weight] get_spent_calories
     = Raise (NotImplementedError "Individual_formula"))
  /\ (forall self, class_of self = Training ->
        get_spent_calories self
        = Raise (NotImplementedError "Individual_formula")).
Proof.
  split.
  - intros action duration weight. reflexivity.
  - intros self H. unfold get_spent_calories. rewrite H. reflexivity.
Qed.

End BaseClass.

(** ** get_distance *)

(** C3: with a positive duration, [get_distance] of a Running or
    SportsWalking record is [action * 0.65 / 1000] and that of a Swimming
    record is [action * 1.38 / 1000 / duration]; when the action and the
    duration are representable as doubles the calls return these doubles. *)
Theorem get_distance_formula :
  forall a d w h lp cp,
    num_pos d = true ->
    on_new Running [a; d; w] get_distance = Spec.distance_steps a
    /\ on_new SportsWalking [a; d; w; h] get_distance = Spec.distance_steps a
    /\ on_new Swimming [a; d; w; lp; cp] get_distance
       = Spec.distance_strokes a d
    /\ (forall fa fd, as_float a = Ok fa -> as_float d = Ok fd ->
          Spec.distance_steps a = Ok (PyFloat (fa * 0.65 / 1000)%float)
          /\ Spec.distance_strokes a d
             = Ok (PyFloat (fa * 1.38 / 1000 / fd)%float)).
Proof.
  intros a d w h lp cp Hd.
  split; [apply running_distance|].
  split; [apply walking_distance|].
  split; [apply swimming_distance|].
  intros fa fd Ea Ed.
  rewrite distance_steps_eval, (distance_strokes_eval a d Hd), Ea, Ed.
  split; reflexivity.
Qed.

Lemma get_distance_formula_witness :
  num_pos (PyInt 1) = true
  /\ on_new Swimming swm_data get_distance
     = Spec.distance_strokes (PyInt 720) (PyInt 1).
Proof.
  split; [reflexivity|].
  destruct (get_distance_formula (PyInt 720) (PyInt 1) (PyInt 80) (PyInt 180)
              (PyInt 25) (PyInt 40) eq_refl) as (_ & _ & H & _).
  exact H.
Defined.

(** ** get_mean_speed *)

Lemma truediv_float x y q : py_truediv x y = Ok q -> exists f, q = PyFloat f.
Proof.
  destruct x as [a|a], y as [b|b]; cbn [py_truediv as_float];
    repeat match goal with
           | |- context [bind ?c _] => destruct c; cbn [bind]
           end;
    try discriminate; intros E; injection E as <-; eauto.
Qed.

(** C4: with a positive duration, [get_mean_speed] of a Running or
    SportsWalking record is [get_distance() / duration]; that of a Swimming
    record is [length_pool * count_pool / 1000 / duration], whatever the
    action count; on representable inputs these are returned as doubles. *)
Theorem get_mean_speed_formula :
  forall a d w h lp cp,
    num_pos d = true ->
    on_new Running [a; d; w] get_mean_speed
    = (on_new Running [a; d; w] get_distance / Ok d)%py
    /\ on_new SportsWalking [a; d; w; h] get_mean_speed
       = (on_new SportsWalking [a; d; w; h] get_distance / Ok d)%py
    /\ on_new Swimming [a; d; w; lp; cp] get_mean_speed
       = Spec.mean_speed_pool lp cp d
    /\ (forall a', on_new Swimming [a'; d; w; lp; cp] get_mean_speed
                   = on_new Swimming [a; d; w; lp; cp] get_mean_speed)
    /\ (forall fa fd, as_float a = Ok fa -> as_float d = Ok fd ->
          on_new Running [a; d; w] get_mean_speed
          = Ok (PyFloat (fa * 0.65 / 1000 / fd)%float)
          /\ on_new SportsWalking [a; d; w; h] get_mean_speed
             = Ok (PyFloat (fa * 0.65 / 1000 / fd)%float))
    /\ (forall km fd,
          (Ok lp * Ok cp / int 1000)%py = Ok km -> as_float d = Ok fd ->
          exists fkm, km = PyFloat fkm
            /\ on_new Swimming [a; d; w; lp; cp] get_mean_speed
               = Ok (PyFloat (fkm / fd)%float)).
Proof.
  intros a d w h lp cp Hd.
  split; [apply running_mean_speed|].
  split; [apply walking_mean_speed|].
  split; [apply swimming_mean_speed|].
  split; [intros a'; reflexivity|].
  split.
  - intros fa fd Ea Ed.
    rewrite running_mean_speed, walking_mean_speed, running_distance,
      walking_distance, (steps_mean_speed_eval a d Hd), Ea, Ed.
    split; reflexivity.
  - intros km fd Ekm Ed.
    assert (exists fkm, km = PyFloat fkm) as [fkm ->].
    { unfold lift2, int in Ekm. cbn [bind] in Ekm.
      destruct (py_mul lp cp) as [m|]; cbn [bind] in Ekm; [|discriminate].
      eapply truediv_float; eassumption. }
    exists fkm. split; [reflexivity|].
    rewrite swimming_mean_speed. unfold Spec.mean_speed_pool.
    unfold lift2 at 1. rewrite Ekm. cbn [bind].
    rewrite (py_truediv_pos fkm d Hd), Ed. reflexivity.
Qed.

Lemma get_mean_speed_formula_witness :
  num_pos (PyInt 1) = true
  /\ on_new Swimming swm_data get_mean_speed
     = Spec.mean_speed_pool (PyInt 25) (PyInt 40) (PyInt 1).
Proof.
  split; [reflexivity|].
  destruct (get_mean_speed_formula (PyInt 720) (PyInt 1) (PyInt 80)
              (PyInt 180) (PyInt 25) (PyInt 40) eq_refl) as (_ & _ & H & _).
  exact H.
Defined.

(** ** get_spent_calories *)

Section Formulas.
Context {L : Libm}.

(** C5, amended: with a positive duration, [get_spent_calories] of a
    Running record is [(18 * mean_speed + 1.79) * weight / 1000 * duration
    * 60]; for ("RUN", [15000, 1, 75]) the distance and the mean speed are
    9.75 and the calories are 797.805 to nine decimals. *)
Theorem running_calories_formula :
  forall a d w,
    num_pos d = true ->
    on_new Running [a; d; w] get_spent_calories
    = (mean <- on_new Running [a; d; w] get_mean_speed ;;
       Spec.calories_running mean w d)
    /\ (forall s fw fd, as_float w = Ok fw -> as_float d = Ok fd ->
          Spec.calories_running (PyFloat s) w d
          = Ok (PyFloat ((18 * s + 1.79) * fw / 1000 * fd * 60)%float))
    /\ on_package "RUN" run_data get_distance = Ok (PyFloat 9.75)
    /\ on_package "RUN" run_data get_mean_speed = Ok (PyFloat 9.75)
    /\ (exists c,
          on_package "RUN" run_data get_spent_calories = Ok (PyFloat c)
          /\ c = ((18 * 9.75 + 1.79) * 75 / 1000 * 1 * 60)%float
          /\ near_decimal c 797805 3 9 = true).
Proof.
  intros a d w Hd.
  split; [apply running_calories|].
  split.
  { intros s fw fd Ew Ed.
    rewrite (calories_running_eval s w d Hd), Ew, Ed. reflexivity. }
  split; [reflexivity|]. split; [reflexivity|].
  eexists. split; [vm_compute; reflexivity|].
  split; vm_compute; reflexivity.
Qed.

(** The calories of a walk whose mean speed is the double [s], as a
    double: [sq] is the square [(s * 0.278) ** 2] the runtime returns, [hm]
    the height in metres and [mins] the duration in minutes, each computed
    before it is used. *)
Lemma calories_walking_eval s w h d fw hm mins fm sq :
  as_float w = Ok fw ->
  py_truediv h (PyInt 100) = Ok (PyFloat hm) ->
  PrimFloat.eqb hm 0 = false ->
  py_mul d (PyInt 60) = Ok mins -> as_float mins = Ok fm ->
  py_pow2 (PyFloat (s * 0.278)) = Ok (PyFloat sq) ->
  Spec.calories_walking (PyFloat s) w h d
  = Ok (PyFloat ((0.035 * fw + sq / hm * 0.029 * fw) * fm)).
Proof.
  intros Ew Hh Hz Hm Em Hq.
  unfold Spec.calories_walking, flt, int, lift2, pow2. cbn [bind].
  change (py_mul (PyFloat s) (PyFloat 0.278))
    with (Ok (PyFloat (s * 0.278))).
  cbn [bind]. rewrite py_mul_float_l, Ew. cbn [bind].
  rewrite Hq. cbn [bind]. rewrite Hh. cbn [bind].
  change (py_truediv (PyFloat sq) (PyFloat hm))
    with (q <- float_truediv sq hm ;; Ok (PyFloat q)).
  unfold float_truediv. rewrite Hz. cbn [bind].
  change (py_mul (PyFloat (sq / hm)) (PyFloat 0.029))
    with (Ok (PyFloat (sq / hm * 0.029))).
  cbn [bind]. rewrite py_mul_float_l, Ew. cbn [bind].
  change (py_add (PyFloat (0.035 * fw)) (PyFloat (sq / hm * 0.029 * fw)))
    with (Ok (PyFloat (0.035 * fw + sq / hm * 0.029 * fw))).
  cbn [bind]. rewrite Hm. cbn [bind].
  rewrite py_mul_float_l, Em. reflexivity.
Qed.

(** The square of a positive finite double other than 1.0 is the
    library's, unless it is out of range. *)
Lemma py_pow2_positive x :
  PrimFloat.ltb 0 x = true -> is_infinity x = false ->
  PrimFloat.eqb x 1 = false ->
  py_pow2 (PyFloat x)
  = if is_infinity (pow_2 x) then Raise OverflowError
    else Ok (PyFloat (pow_2 x)).
Proof.
  intros P I N.
  assert (A : abs x = x).
  { apply Prim2SF_inj. rewrite abs_spec.
    rewrite ltb_spec, Prim2SF_zero in P.
    destruct (Prim2SF x) as [s|[]| |[] m e]; cbn in *; try discriminate;
      reflexivity. }
  assert (Nn : is_nan x = false).
  { unfold is_nan. rewrite eqb_spec.
    rewrite ltb_spec, Prim2SF_zero in P.
    destruct (Prim2SF x) as [s|[]| |[] m e]; cbn in P; try discriminate;
      try reflexivity.
    unfold SFeqb. cbn [SFcompare].
    rewrite Z.compare_refl, Pos.compare_refl. reflexivity. }
  assert (Z : PrimFloat.eqb x 0 = false)
    by (destruct (ltb_0_pos x P); apply pos_nonzero; assumption).
  cbn [py_pow2]. rewrite Nn, I, Z, A, N. reflexivity.
Qed.

(** The square of the speed of the package ("WLK", [9000, 1, 75, 180]) on
    an accurate library, and the calories it gives. *)
Lemma wlk_square :
  accurate L ->
  exists sq,
    py_pow2 (PyFloat (5.85 * 0.278)) = Ok (PyFloat sq)
    /\ near_decimal ((0.035 * 75 + sq / 1.8 * 0.029 * 75) * 60)
         3492517475250001 13 12 = true
    /\ format_float 3 ((0.035 * 75 + sq / 1.8 * 0.029 * 75) * 60)
       = "349.252".
Proof.
  intros Acc.
  destruct (Acc (5.85 * 0.278)%float) as [E|[E|E]]; vm_compute in E;
    (eexists; split;
     [ vm_compute; rewrite E; vm_compute; reflexivity
     | split; vm_compute; reflexivity ]).
Qed.

Lemma wlk_calories sq :
  py_pow2 (PyFloat (5.85 * 0.278)) = Ok (PyFloat sq) ->
  on_package "WLK" wlk_data get_spent_calories
  = Ok (PyFloat ((0.035 * 75 + sq / 1.8 * 0.029 * 75) * 60)).
Proof.
  intros Hq.
  change (on_package "WLK" wlk_data get_spent_calories)
    with (on_new SportsWalking wlk_data get_spent_calories).
  unfold wlk_data. rewrite walking_calories.
  assert (S : on_new SportsWalking [PyInt 9000; PyInt 1; PyInt 75; PyInt 180]
                get_mean_speed = Ok (PyFloat 5.85))
    by (vm_compute; reflexivity).
  rewrite S. cbn [bind].
  apply (calories_walking_eval 5.85 (PyInt 75) (PyInt 180) (PyInt 1)
           75 1.8 (PyInt 60) 60 sq); try reflexivity.
  exact Hq.
Qed.

(** C6: with a positive duration and a positive height,
    [get_spent_calories] of a SportsWalking record is
    [(0.035 * weight + (speed_ms ** 2 / (height / 100)) * 0.029 * weight)
     * (duration * 60)] with [speed_ms = mean_speed * 0.278], the square
    being the one the runtime computes with the C library's [pow]; as
    doubles, the call returns
    [(0.035 * fw + sq / hm * 0.029 * fw) * fm] for the weight [fw], the
    square [sq], the height in metres [hm] and the minutes [fm], the
    square of a positive finite double other than 1.0 being the library's
    [pow(x, 2.0)] unless that is out of range. For
    ("WLK", [9000, 1, 75, 180]) on an accurate library the calories are
    349.2517475250001 to twelve decimals. *)
Theorem walking_calories_formula :
  forall a d w h,
    num_pos d = true -> num_pos h = true ->
    on_new SportsWalking [a; d; w; h] get_spent_calories
    = (mean <- on_new SportsWalking [a; d; w; h] get_mean_speed ;;
       Spec.calories_walking mean w h d)
    /\ (forall s fw hm mins fm sq,
          as_float w = Ok fw ->
          py_truediv h (PyInt 100) = Ok (PyFloat hm) ->
          PrimFloat.eqb hm 0 = false ->
          py_mul d (PyInt 60) = Ok mins -> as_float mins = Ok fm ->
          py_pow2 (PyFloat (s * 0.278)) = Ok (PyFloat sq) ->
          on_new SportsWalking [a; d; w; h] get_mean_speed
          = Ok (PyFloat s) ->
          on_new SportsWalking [a; d; w; h] get_spent_calories
          = Ok (PyFloat ((0.035 * fw + sq / hm * 0.029 * fw) * fm)))
    /\ (forall x,
          PrimFloat.ltb 0 x = true -> is_infinity x = false ->
          PrimFloat.eqb x 1 = false ->
          py_pow2 (PyFloat x)
          = if is_infinity (pow_2 x) then Raise OverflowError
            else Ok (PyFloat (pow_2 x)))
    /\ (accurate L ->
        exists c,
          on_package "WLK" wlk_data get_spent_calories = Ok (PyFloat c)
          /\ near_decimal c 3492517475250001 13 12 = true).
Proof.
  intros a d w h Hd Hh.
  split; [apply walking_calories|]. split; [|split].
  - intros s fw hm mins fm sq Ew Hm Hz Hmin Em Hq S.
    rewrite walking_calories, S. cbn [bind].
    apply (calories_walking_eval s w h d fw hm mins fm sq); assumption.
  - apply py_pow2_positive.
  - intros Acc. destruct (wlk_square Acc) as (sq & Hq & N & _).
    eexists. split; [apply (wlk_calories sq Hq)|exact N].
Qed.

Lemma calories_swimming_eval s w d :
  Spec.calories_swimming (PyFloat s) w d
  = (fw <- as_float w ;; fd <- as_float d ;;
     Ok (PyFloat ((s + 1.1) * 2 * fw * fd)%float)).
Proof.
  unfold Spec.calories_swimming, flt, int, lift2. cbn [bind].
  cbn [py_add py_mul as_float bind].
  replace (float_of_Z 2) with (Ok 2%float) by reflexivity. cbn [bind].
  rewrite py_mul_float_l. destruct (as_float w) as [fw|]; [|reflexivity].
  cbn [bind]. rewrite py_mul_float_l. reflexivity.
Qed.

(** C7: with a positive duration, [get_spent_calories] of a Swimming record
    is [(mean_speed + 1.1) * 2 * weight * duration]; for
    ("SWM", [720, 1, 80, 25, 40]) the mean speed is 1.0, the distance is
    0.9936 to fifteen decimals and the calories are exactly 336. *)
Theorem swimming_calories_formula :
  forall a d w lp cp,
    num_pos d = true ->
    on_new Swimming [a; d; w; lp; cp] get_spent_calories
    = (mean <- on_new Swimming [a; d; w; lp; cp] get_mean_speed ;;
       Spec.calories_swimming mean w d)
    /\ (forall s fw fd, as_float w = Ok fw -> as_float d = Ok fd ->
          Spec.calories_swimming (PyFloat s) w d
          = Ok (PyFloat ((s + 1.1) * 2 * fw * fd)%float))
    /\ on_package "SWM" swm_data get_mean_speed = Ok (PyFloat 1)
    /\ (exists x,
          on_package "SWM" swm_data get_distance = Ok (PyFloat x)
          /\ near_decimal x 9936 4 15 = true)
    /\ on_package "SWM" swm_data get_spent_calories = Ok (PyFloat 336).
Proof.
  intros a d w lp cp Hd.
  split; [apply swimming_calories|].
  split.
  { intros s fw fd Ew Ed. rewrite calories_swimming_eval, Ew, Ed. reflexivity. }
  split; [reflexivity|].
  split; [|reflexivity].
  eexists. split; vm_compute; reflexivity.
Qed.

End Formulas.

(** The formulas at the example packages, on a library whose [pow] is
    correctly rounded. *)
Section FormulasAtExamples.
#[local] Existing Instance correctly_rounded.

(** C5, as stated, fails on its worked example: for ("RUN", [15000, 1, 75])
    the calories are not within 0.1 of 797.06. *)
Lemma running_example_is_not_797_06 :
  ~ exists c,
      on_package "RUN" run_data get_spent_calories = Ok (PyFloat c)
      /\ near_decimal c 79706 2 1 = true.
Proof.
  intros (c & H & N). vm_compute in H. injection H as <-.
  vm_compute in N. discriminate N.
Qed.

Lemma running_calories_formula_witness :
  num_pos (PyInt 1) = true
  /\ on_package "RUN" run_data get_mean_speed = Ok (PyFloat 9.75).
Proof.
  split; [reflexivity|].
  destruct (running_calories_formula (PyInt 15000) (PyInt 1) (PyInt 75)
              eq_refl) as (_ & _ & _ & H & _).
  exact H.
Defined.

Lemma accurate_correctly_rounded : accurate correctly_rounded.
Proof. intros x. right; left. reflexivity. Qed.

Lemma walking_calories_formula_witness :
  num_pos (PyInt 1) = true /\ num_pos (PyInt 180) = true
  /\ on_new SportsWalking wlk_data get_spent_calories
     = (mean <- on_new SportsWalking wlk_data get_mean_speed ;;
        Spec.calories_walking mean (PyInt 75) (PyInt 180) (PyInt 1))
  /\ on_new SportsWalking wlk_data get_spent_calories
     = Ok (PyFloat ((0.035 * 75 + 2.6448516900000003 / 1.8 * 0.029 * 75)
                    * 60)).
Proof.
  split; [reflexivity|]. split; [reflexivity|].
  destruct (walking_calories_formula (PyInt 9000) (PyInt 1) (PyInt 75)
              (PyInt 180) eq_refl eq_refl) as (H1 & H2 & _ & _).
  split; [exact H1|].
  apply (H2 5.85 75 1.8 (PyInt 60) 60 2.6448516900000003)%float;
    vm_compute; reflexivity.
Defined.

Lemma swimming_calories_formula_witness :
  num_pos (PyInt 1) = true
  /\ on_package "SWM" swm_data get_spent_calories = Ok (PyFloat 336).
Proof.
  split; [reflexivity|].
  destruct (swimming_calories_formula (PyInt 720) (PyInt 1) (PyInt 80)
              (PyInt 25) (PyInt 40) eq_refl) as (_ & _ & _ & _ & H).
  exact H.
Defined.

End FormulasAtExamples.

Lemma running_mean_speed_eval a d w :
  num_pos d = true ->
  on_new Running [a; d; w] get_mean_speed
  = (fa <- as_float a ;; fd <- as_float d ;;
     Ok (PyFloat (fa * 0.65 / 1000 / fd)%float)).
Proof.
  intros H. rewrite running_mean_speed, running_distance.
  apply steps_mean_speed_eval, H.
Qed.

(** The chain of roundings of the running formula keeps the order. *)
Lemma running_formula_mono s1 s2 fw fd :
  fnonneg s1 -> fnonneg s2 -> fval s1 <= fval s2 ->
  fnonneg fw -> 0 < fval fw -> fpos fd ->
  PrimFloat.leb ((18 * s1 + 1.79) * fw / 1000 * fd * 60)%float
                ((18 * s2 + 1.79) * fw / 1000 * fd * 60)%float = true.
Proof.
  intros N1 N2 H Nw Pw Pd.
  pose proof fpos_18 as [N18 P18]. pose proof fpos_179 as P179.
  pose proof fpos_1000 as P1000. pose proof fpos_60 as [N60 P60].
  destruct Pd as [Nd Pd].
  (* 18 * s *)
  assert (Nt1 : fnonneg (18 * s1)%float) by (apply fmul_nonneg; try assumption; lia).
  assert (Nt2 : fnonneg (18 * s2)%float) by (apply fmul_nonneg; try assumption; lia).
  assert (Ht : fval (18 * s1)%float <= fval (18 * s2)%float)
    by (apply fmul_mono_l; try assumption; lia).
  (* + 1.79 *)
  destruct (fadd_mono _ _ 1.79%float Nt1 Nt2 P179 Ht) as [Lu Hu].
  assert (Nu1 : fnonneg (18 * s1 + 1.79)%float) by (apply fadd_nonneg; assumption).
  assert (Nu2 : fnonneg (18 * s2 + 1.79)%float) by (apply fadd_nonneg; assumption).
  assert (Pu1 : 0 < fval (18 * s1 + 1.79)%float) by (destruct P179; lia).
  assert (Pu2 : 0 < fval (18 * s2 + 1.79)%float) by lia.
  (* * weight *)
  assert (Nv1 : fnonneg ((18 * s1 + 1.79) * fw)%float)
    by (apply fmul_nonneg; try assumption; lia).
  assert (Nv2 : fnonneg ((18 * s2 + 1.79) * fw)%float)
    by (apply fmul_nonneg; try assumption; lia).
  assert (Hv : fval ((18 * s1 + 1.79) * fw)%float
               <= fval ((18 * s2 + 1.79) * fw)%float)
    by (apply fmul_mono_r; try assumption; lia).
  (* / 1000 *)
  assert (Nx1 := fdiv_nonneg _ _ Nv1 P1000).
  assert (Nx2 := fdiv_nonneg _ _ Nv2 P1000).
  assert (Hx := fdiv_mono _ _ _ Nv1 Nv2 P1000 Hv).
  (* * duration *)
  assert (Ny1 : fnonneg ((18 * s1 + 1.79) * fw / 1000 * fd)%float)
    by (apply fmul_nonneg; try assumption; lia).
  assert (Ny2 : fnonneg ((18 * s2 + 1.79) * fw / 1000 * fd)%float)
    by (apply fmul_nonneg; try assumption; lia).
  assert (Hy : fval ((18 * s1 + 1.79) * fw / 1000 * fd)%float
               <= fval ((18 * s2 + 1.79) * fw / 1000 * fd)%float)
    by (apply fmul_mono_r; try assumption; lia).
  (* * 60 *)
  assert (Nc1 : fnonneg ((18 * s1 + 1.79) * fw / 1000 * fd * 60)%float)
    by (apply fmul_nonneg; try assumption; lia).
  assert (Nc2 : fnonneg ((18 * s2 + 1.79) * fw / 1000 * fd * 60)%float)
    by (apply fmul_nonneg; try assumption; lia).
  rewrite (leb_val _ _ Nc1 Nc2). apply Z.leb_le.
  apply fmul_mono_r; try assumption; lia.
Qed.

Section Monotone.
Context {L : Libm}.

(** C8, amended: for valid Running records (non-negative action, positive
    duration and weight, the weight representable as a double) that differ
    only in the action count, the record with the greater mean speed has
    calories at least as great. *)
Theorem running_calories_monotone :
  forall a1 a2 d w fw s1 s2,
    num_nonneg a1 = true -> num_nonneg a2 = true ->
    num_pos d = true -> num_pos w = true -> as_float w = Ok fw ->
    on_new Running [a1; d; w] get_mean_speed = Ok (PyFloat s1) ->
    on_new Running [a2; d; w] get_mean_speed = Ok (PyFloat s2) ->
    PrimFloat.ltb s1 s2 = true ->
    exists c1 c2,
      on_new Running [a1; d; w] get_spent_calories = Ok (PyFloat c1)
      /\ on_new Running [a2; d; w] get_spent_calories = Ok (PyFloat c2)
      /\ PrimFloat.leb c1 c2 = true.
Proof.
  intros a1 a2 d w fw s1 s2 Ha1 Ha2 Hd Hw Ew S1 S2 Lt.
  pose proof S1 as S1'. pose proof S2 as S2'.
  rewrite (running_mean_speed_eval a1 d w Hd) in S1'.
  rewrite (running_mean_speed_eval a2 d w Hd) in S2'.
  destruct (as_float a1) as [fa1|] eqn:E1; [|discriminate].
  destruct (as_float a2) as [fa2|] eqn:E2; [|discriminate].
  destruct (as_float d) as [fd|] eqn:Ed; [|discriminate].
  cbn [bind] in S1', S2'. injection S1' as Es1. injection S2' as Es2.
  exists ((18 * s1 + 1.79) * fw / 1000 * fd * 60)%float,
         ((18 * s2 + 1.79) * fw / 1000 * fd * 60)%float.
  rewrite !running_calories, S1, S2. cbn [bind].
  rewrite !(calories_running_eval _ w d Hd), Ew, Ed. cbn [bind].
  split; [reflexivity|]. split; [reflexivity|].
  pose proof (as_float_nonneg _ _ Ha1 E1) as Na1.
  pose proof (as_float_nonneg _ _ Ha2 E2) as Na2.
  destruct (as_float_pos _ _ Hd Ed) as [Nd Pd].
  destruct (as_float_pos _ _ Hw Ew) as [Nw Pw].
  pose proof fpos_065 as [N065 P065]. pose proof fpos_1000 as P1000.
  assert (Nx1 : fnonneg (fa1 * 0.65)%float) by (apply fmul_nonneg; try assumption; lia).
  assert (Nx2 : fnonneg (fa2 * 0.65)%float) by (apply fmul_nonneg; try assumption; lia).
  assert (Ny1 := fdiv_nonneg _ _ Nx1 P1000).
  assert (Ny2 := fdiv_nonneg _ _ Nx2 P1000).
  assert (Fd : fval fd < inf_value).
  { pose proof (fval_le_inf fd).
    destruct (Z.eq_dec (fval fd) inf_value) as [E|]; [|lia].
    pose proof (fdiv_inf_no_lt _ _ fd Ny1 Ny2 Nd E) as C.
    rewrite Es1, Es2, Lt in C. discriminate C. }
  assert (Pfd : fpos fd) by (split; [assumption|lia]).
  assert (Ns1 : fnonneg s1) by (rewrite <- Es1; apply fdiv_nonneg; assumption).
  destruct (ltb_nonneg_lt s1 s2 Ns1 Lt) as [Ns2 Hs].
  apply running_formula_mono; try assumption. lia.
Qed.

End Monotone.

Section MonotoneAtExamples.
#[local] Existing Instance correctly_rounded.

(** C8, as stated, fails: two valid Running records that differ only in the
    action count, the second with the strictly greater mean speed, and
    equal calories. *)
Lemma running_calories_not_strictly_monotone :
  let d := PyFloat 1e18 in
  let w := PyFloat 75 in
  num_pos d = true /\ num_pos w = true
  /\ exists s1 s2 c,
       on_new Running [PyInt 1; d; w] get_mean_speed = Ok (PyFloat s1)
       /\ on_new Running [PyInt 2; d; w] get_mean_speed = Ok (PyFloat s2)
       /\ PrimFloat.ltb s1 s2 = true
       /\ on_new Running [PyInt 1; d; w] get_spent_calories = Ok (PyFloat c)
       /\ on_new Running [PyInt 2; d; w] get_spent_calories = Ok (PyFloat c)
       /\ PrimFloat.ltb c c = false.
Proof.
  cbv zeta. split; [reflexivity|]. split; [reflexivity|].
  do 3 eexists.
  split; [vm_compute; reflexivity|].
  split; [vm_compute; reflexivity|].
  split; [vm_compute; reflexivity|].
  split; [vm_compute; reflexivity|].
  split; vm_compute; reflexivity.
Qed.

Lemma running_calories_monotone_witness :
  exists c1 c2,
    on_new Running [PyInt 15000; PyInt 1; PyInt 75] get_spent_calories
    = Ok (PyFloat c1)
    /\ on_new Running [PyInt 16000; PyInt 1; PyInt 75] get_spent_calories
       = Ok (PyFloat c2)
    /\ PrimFloat.leb c1 c2 = true.
Proof.
  apply (running_calories_monotone (PyInt 15000) (PyInt 16000) (PyInt 1)
           (PyInt 75) 75%float 9.75%float 10.4%float);
    vm_compute; reflexivity.
Defined.

End MonotoneAtExamples.

(** ** The report *)

Lemma MESSAGE_TEMPLATE_pieces :
  parse_template MESSAGE_TEMPLATE
  = Ok [ Lit "Тип тренировки: "; Field "training_type" "";
         Lit "; Длительность: "; Field "duration" ".3f";
         Lit " ч.; Дистанция: "; Field "distance" ".3f";
         Lit " км; Ср. скорость: "; Field "speed" ".3f";
         Lit " км/ч; Потрачено ккал: "; Field "calories" ".3f";
         Lit "." ].
Proof. vm_compute. reflexivity. Qed.

Lemma get_message_eval m :
  get_message m
  = (d <- format_f 3 (duration m) ;;
     x <- format_f 3 (distance m) ;;
     v <- format_f 3 (speed m) ;;
     c <- format_f 3 (calories m) ;;
     Ok ("Тип тренировки: " ++ training_type m
         ++ "; Длительность: " ++ d
         ++ " ч.; Дистанция: " ++ x
         ++ " км; Ср. скорость: " ++ v
         ++ " км/ч; Потрачено ккал: " ++ c ++ ".")).
Proof.
  unfold get_message, str_format. rewrite MESSAGE_TEMPLATE_pieces.
  cbn [bind render kw_get find fst snd String.eqb Ascii.eqb Bool.eqb
       format_value].
  change (spec_precision ".3f") with (Some 3%nat). cbv iota.
  destruct (format_f 3 (duration m)) as [d|]; [|reflexivity].
  destruct (format_f 3 (distance m)) as [x|]; [|reflexivity].
  destruct (format_f 3 (speed m)) as [v|]; [|reflexivity].
  destruct (format_f 3 (calories m)) as [c|]; reflexivity.
Qed.

Section Report.
Context {L : Libm}.

(** C2, amended: the report of a record whose metrics are computed is the
    module's own template, "Тип тренировки: ...; Длительность: ... ч.;
    Дистанция: ... км; Ср. скорость: ... км/ч; Потрачено ккал: ....",
    filled with the class name, the duration, the distance, the mean speed
    and the calories, each number formatted by [.3f], which writes exactly
    three decimals for every finite value. *)
Theorem report_format :
  forall self d x v c,
    getattr self "duration" = Ok d ->
    get_distance self = Ok x ->
    get_mean_speed self = Ok v ->
    get_spent_calories self = Ok c ->
    main self
    = (sd <- format_f 3 d ;;
       sx <- format_f 3 x ;;
       sv <- format_f 3 v ;;
       sc <- format_f 3 c ;;
       Ok ("Тип тренировки: " ++ class_name (class_of self)
           ++ "; Длительность: " ++ sd
           ++ " ч.; Дистанция: " ++ sx
           ++ " км; Ср. скорость: " ++ sv
           ++ " км/ч; Потрачено ккал: " ++ sc ++ "."))
    /\ (forall n f, as_float n = Ok f -> float_finite f = true ->
          exists s, format_f 3 n = Ok s /\ three_decimals s = true).
Proof.
  intros self d x v c Hd Hx Hv Hc. split.
  - unfold main, show_training_info.
    assert (R : resolve (class_of self) m_show_training_info = Some Training)
      by (destruct (class_of self); reflexivity).
    rewrite R. unfold Training_show_training_info.
    rewrite Hd, Hx, Hv, Hc. cbn [bind].
    rewrite get_message_eval. reflexivity.
  - intros n f En Hf. exists (format_float 3 f).
    unfold format_f. rewrite En. split; [reflexivity|].
    apply format_float_three_decimals, Hf.
Qed.

End Report.

Section ReportAtExamples.
#[local] Existing Instance correctly_rounded.

(** C2, as stated, fails: the line printed for ("SWM", [720, 1, 80, 25, 40])
    is not the English template of the specification filled with the same
    fields. *)
Lemma report_is_not_the_english_template :
  exists m line,
    on_package "SWM" swm_data show_training_info = Ok m
    /\ get_message m = Ok line
    /\ spec_report m
       = Ok ("Workout type: Swimming; Duration: 1.000 h; Distance: 0.994 km; "
             ++ "Avg. speed: 1.000 km/h; Calories burned: 336.000.")
    /\ spec_report m <> Ok line.
Proof.
  do 2 eexists.
  split; [vm_compute; reflexivity|].
  split; [vm_compute; reflexivity|].
  split; [vm_compute; reflexivity|].
  vm_compute. discriminate.
Qed.

Lemma report_format_witness :
  on_package "SWM" swm_data main
  = Ok ("Тип тренировки: Swimming; Длительность: 1.000 ч.; "
        ++ "Дистанция: 0.994 км; Ср. скорость: 1.000 км/ч; "
        ++ "Потрачено ккал: 336.000.").
Proof.
  set (self := Swimming_init (mkObj Swimming []) (PyInt 720) (PyInt 1)
                 (PyInt 80) (PyInt 25) (PyInt 40)).
  assert (E : read_package "SWM" swm_data = Ok self) by reflexivity.
  assert (Hd : getattr self "duration" = Ok (PyInt 1)) by reflexivity.
  assert (Hx : get_distance self = Ok (PyFloat 0.99359999999999993))
    by (vm_compute; reflexivity).
  assert (Hv : get_mean_speed self = Ok (PyFloat 1))
    by (vm_compute; reflexivity).
  assert (Hc : get_spent_calories self = Ok (PyFloat 336))
    by (vm_compute; reflexivity).
  unfold on_package. rewrite E. cbn [bind].
  destruct (report_format self _ _ _ _ Hd Hx Hv Hc) as [H _].
  rewrite H. vm_compute. reflexivity.
Defined.

End ReportAtExamples.

(** ** What the operations can raise *)

Lemma only_arith_Ok {A} (a : A) : only_arith (Ok a).
Proof. intros e H. discriminate H. Qed.

Lemma only_arith_bind {A B} (c : result A) (k : A -> result B) :
  only_arith c -> (forall a, c = Ok a -> only_arith (k a)) ->
  only_arith (bind c k).
Proof.
  intros Hc Hk e. destruct c as [a|e']; cbn [bind].
  - apply (Hk a eq_refl).
  - intros E. injection E as <-. apply Hc. reflexivity.
Qed.

Lemma float_of_Z_raise z e : float_of_Z z = Raise e -> e = OverflowError.
Proof.
  unfold float_of_Z.
  destruct (binary_normalize prec emax z 0 false); intros E;
    try discriminate E; injection E as <-; reflexivity.
Qed.

Lemma as_float_raise n e : as_float n = Raise e -> e = OverflowError.
Proof.
  destruct n as [z|f]; cbn [as_float]; [apply float_of_Z_raise|discriminate].
Qed.

Lemma only_arith_as_float n : only_arith (as_float n).
Proof. intros e H. right. eapply as_float_raise, H. Qed.

Lemma int_truediv_raise a b e :
  int_truediv a b = Raise e ->
  (e = ZeroDivisionError /\ b = 0) \/ (e = OverflowError /\ b <> 0).
Proof.
  unfold int_truediv. destruct (Z.eqb_spec b 0) as [->|N].
  - intros E. injection E as <-. left. split; reflexivity.
  - destruct (SFdiv prec emax (SF_of_Z a) (SF_of_Z b)); intros E;
      try discriminate E; injection E as <-; right; split; [reflexivity|exact N].
Qed.

Lemma float_truediv_raise a b e :
  float_truediv a b = Raise e ->
  e = ZeroDivisionError /\ PrimFloat.eqb b 0%float = true.
Proof.
  unfold float_truediv. destruct (PrimFloat.eqb b 0%float); intros E;
    [injection E as <-; split; reflexivity | discriminate E].
Qed.

Lemma float_truediv_zero a b :
  PrimFloat.eqb b 0%float = true -> float_truediv a b = Raise ZeroDivisionError.
Proof. intros H. unfold float_truediv. rewrite H. reflexivity. Qed.

Lemma float_truediv_nonzero a b :
  PrimFloat.eqb b 0%float = false -> float_truediv a b = Ok (a / b)%float.
Proof. intros H. unfold float_truediv. rewrite H. reflexivity. Qed.

Lemma only_arith_py_mul x y : only_arith (py_mul x y).
Proof.
  intros e. destruct x as [a|a], y as [b|b]; cbn [py_mul as_float bind];
    try discriminate;
    try (destruct (float_of_Z _) eqn:F; cbn [bind]; try discriminate;
         intros E; injection E as <-; right;
         eapply float_of_Z_raise, F).
Qed.

Lemma only_arith_py_add x y : only_arith (py_add x y).
Proof.
  intros e. destruct x as [a|a], y as [b|b]; cbn [py_add as_float bind];
    try discriminate;
    try (destruct (float_of_Z _) eqn:F; cbn [bind]; try discriminate;
         intros E; injection E as <-; right;
         eapply float_of_Z_raise, F).
Qed.

Lemma only_arith_py_truediv x y : only_arith (py_truediv x y).
Proof.
  assert (D : forall a b, only_arith (q <- float_truediv a b ;; Ok (PyFloat q))).
  { intros a b. apply only_arith_bind; [|intros; apply only_arith_Ok].
    intros e E. left. apply (float_truediv_raise a b e E). }
  destruct x as [a|a], y as [b|b]; cbn [py_truediv as_float bind].
  - apply only_arith_bind; [|intros; apply only_arith_Ok].
    intros e E. destruct (int_truediv_raise a b e E) as [[-> _]|[-> _]];
      [left|right]; reflexivity.
  - apply only_arith_bind; [apply (only_arith_as_float (PyInt a))|].
    intros fa _. apply D.
  - apply only_arith_bind; [apply (only_arith_as_float (PyInt b))|].
    intros fb _. apply D.
  - apply D.
Qed.

Section PowerErrors.
Context {L : Libm}.

Lemma only_arith_py_pow2 x : only_arith (py_pow2 x).
Proof.
  intros e. destruct x as [a|a]; cbn [py_pow2]; [discriminate|].
  repeat match goal with
         | |- context [if ?b then _ else _] => destruct b
         end;
    intros E; try discriminate E; injection E as <-; right; reflexivity.
Qed.

Lemma only_arith_lift2 op x y :
  (forall a b, only_arith (op a b)) ->
  only_arith x -> only_arith y -> only_arith (lift2 op x y).
Proof.
  intros Hop Hx Hy. unfold lift2.
  apply only_arith_bind; [exact Hx|]. intros a _.
  apply only_arith_bind; [exact Hy|]. intros b _. apply Hop.
Qed.

Lemma only_arith_pow2 x : only_arith x -> only_arith (pow2 x).
Proof.
  intros Hx. unfold pow2. apply only_arith_bind; [exact Hx|].
  intros a _. apply only_arith_py_pow2.
Qed.

Lemma only_arith_format_f p n : only_arith (format_f p n).
Proof.
  unfold format_f. apply only_arith_bind; [apply only_arith_as_float|].
  intros; apply only_arith_Ok.
Qed.

End PowerErrors.
(** Expressions built from the operators fail by arithmetic only. *)
Ltac arith :=
  repeat first
    [ apply only_arith_Ok
    | apply only_arith_lift2;
        [ first [ exact only_arith_py_mul | exact only_arith_py_add
                | exact only_arith_py_truediv ] | | ]
    | apply only_arith_pow2
    | assumption ].

Section MethodErrors.
Context {L : Libm}.

Lemma only_arith_get_message m : only_arith (get_message m).
Proof.
  rewrite get_message_eval.
  repeat (apply only_arith_bind; [apply only_arith_format_f|intros ? _]).
  apply only_arith_Ok.
Qed.

(** ** The instances [read_package] builds *)

Lemma instantiate_Ok c data self :
  instantiate c data = Ok self ->
  (exists a d w,
     (c = Training \/ c = Running) /\ data = [a; d; w]
     /\ self = Training_init (mkObj c []) a d w)
  \/ (exists a d w h,
        c = SportsWalking /\ data = [a; d; w; h]
        /\ self = SportsWalking_init (mkObj c []) a d w h)
  \/ (exists a d w lp cp,
        c = Swimming /\ data = [a; d; w; lp; cp]
        /\ self = Swimming_init (mkObj c []) a d w lp cp).
Proof.
  unfold instantiate.
  destruct c; cbn [resolve mro base find defines];
    repeat (destruct data as [|? data]; try discriminate);
    intros E; injection E as <-.
  - left. do 3 eexists. split; [left; reflexivity|]. split; reflexivity.
  - left. do 3 eexists. split; [right; reflexivity|]. split; reflexivity.
  - right; left. do 4 eexists. split; [reflexivity|]. split; reflexivity.
  - right; right. do 5 eexists. split; [reflexivity|]. split; reflexivity.
Qed.

Lemma read_package_Ok t data self :
  read_package t data = Ok self ->
  (exists a d w,
     t = "RUN" /\ data = [a; d; w]
     /\ self = Training_init (mkObj Running []) a d w)
  \/ (exists a d w h,
        t = "WLK" /\ data = [a; d; w; h]
        /\ self = SportsWalking_init (mkObj SportsWalking []) a d w h)
  \/ (exists a d w lp cp,
        t = "SWM" /\ data = [a; d; w; lp; cp]
        /\ self = Swimming_init (mkObj Swimming []) a d w lp cp).
Proof.
  intros E.
  destruct (read_package_cases t data)
    as [[-> R]|[[-> R]|[[-> R]|(_ & _ & _ & R)]]];
    rewrite R in E; try discriminate E;
    apply instantiate_Ok in E;
    destruct E as [(a & d & w & C & -> & ->)
                  |[(a & d & w & h & C & -> & ->)
                   |(a & d & w & lp & cp & C & -> & ->)]];
    try discriminate C; try (destruct C as [C|C]; discriminate C).
  - left. do 3 eexists. repeat split.
  - right; left. do 4 eexists. repeat split.
  - right; right. do 5 eexists. repeat split.
Qed.

(** ** What the methods of a built instance can raise *)

Lemma only_arith_distance_steps a : only_arith (Spec.distance_steps a).
Proof. unfold Spec.distance_steps, flt, int. arith. Qed.

Lemma only_arith_distance_strokes a d : only_arith (Spec.distance_strokes a d).
Proof. unfold Spec.distance_strokes, flt, int. arith. Qed.

Lemma only_arith_mean_speed_pool lp cp d :
  only_arith (Spec.mean_speed_pool lp cp d).
Proof. unfold Spec.mean_speed_pool, flt, int. arith. Qed.

Lemma only_arith_calories_running s w d :
  only_arith (Spec.calories_running s w d).
Proof. unfold Spec.calories_running, flt, int. arith. Qed.

Lemma only_arith_calories_walking s w h d :
  only_arith (Spec.calories_walking s w h d).
Proof.
  unfold Spec.calories_walking, flt, int.
  apply only_arith_bind; [arith|]. intros v _. arith.
Qed.

Lemma only_arith_calories_swimming s w d :
  only_arith (Spec.calories_swimming s w d).
Proof. unfold Spec.calories_swimming, flt, int. arith. Qed.

(** The three metrics of the instances of the concrete classes. *)
Lemma only_arith_metrics t data self :
  read_package t data = Ok self ->
  only_arith (get_distance self) /\ only_arith (get_mean_speed self)
  /\ only_arith (get_spent_calories self).
Proof.
  intros E.
  destruct (read_package_Ok t data self E)
    as [(a & d & w & _ & _ & ->)
       |[(a & d & w & h & _ & _ & ->)
        |(a & d & w & lp & cp & _ & _ & ->)]].
  - assert (D : only_arith (on_new Running [a; d; w] get_distance))
      by (rewrite running_distance; apply only_arith_distance_steps).
    assert (S : only_arith (on_new Running [a; d; w] get_mean_speed))
      by (rewrite running_mean_speed; arith).
    split; [exact D|]. split; [exact S|].
    change (only_arith (on_new Running [a; d; w] get_spent_calories)).
    rewrite running_calories. apply only_arith_bind; [exact S|].
    intros; apply only_arith_calories_running.
  - assert (D : only_arith (on_new SportsWalking [a; d; w; h] get_distance))
      by (rewrite walking_distance; apply only_arith_distance_steps).
    assert (S : only_arith (on_new SportsWalking [a; d; w; h] get_mean_speed))
      by (rewrite walking_mean_speed; arith).
    split; [exact D|]. split; [exact S|].
    change (only_arith (on_new SportsWalking [a; d; w; h] get_spent_calories)).
    rewrite walking_calories. apply only_arith_bind; [exact S|].
    intros; apply only_arith_calories_walking.
  - assert (D : only_arith (on_new Swimming [a; d; w; lp; cp] get_distance))
      by (rewrite swimming_distance; apply only_arith_distance_strokes).
    assert (S : only_arith (on_new Swimming [a; d; w; lp; cp] get_mean_speed))
      by (rewrite swimming_mean_speed; apply only_arith_mean_speed_pool).
    split; [exact D|]. split; [exact S|].
    change (only_arith (on_new Swimming [a; d; w; lp; cp] get_spent_calories)).
    rewrite swimming_calories. apply only_arith_bind; [exact S|].
    intros; apply only_arith_calories_swimming.
Qed.

Lemma show_training_info_eval self :
  show_training_info self
  = (d <- getattr self "duration" ;;
     x <- get_distance self ;;
     v <- get_mean_speed self ;;
     c <- get_spent_calories self ;;
     Ok (mkInfoMessage (class_name (class_of self)) d x v c)).
Proof.
  unfold show_training_info.
  assert (R : resolve (class_of self) m_show_training_info = Some Training)
    by (destruct (class_of self); reflexivity).
  rewrite R. reflexivity.
Qed.

Lemma read_package_duration t data self :
  read_package t data = Ok self ->
  exists a d rest, data = a :: d :: rest /\ getattr self "duration" = Ok d.
Proof.
  intros E.
  destruct (read_package_Ok t data self E)
    as [(a & d & w & _ & -> & ->)
       |[(a & d & w & h & _ & -> & ->)
        |(a & d & w & lp & cp & _ & -> & ->)]];
    do 3 eexists; split; reflexivity.
Qed.

Lemma only_arith_main t data self :
  read_package t data = Ok self -> only_arith (main self).
Proof.
  intros E. destruct (only_arith_metrics t data self E) as (D & S & C).
  destruct (read_package_duration t data self E) as (a & d & rest & _ & Hd).
  unfold main. rewrite show_training_info_eval, Hd. cbn [bind].
  apply only_arith_bind.
  - apply only_arith_bind; [exact D|intros x _].
    apply only_arith_bind; [exact S|intros v _].
    apply only_arith_bind; [exact C|intros c _]. apply only_arith_Ok.
  - intros m _. apply only_arith_get_message.
Qed.

End MethodErrors.

(** ** Building instances *)

(** X1: [read_package] returns an instance only for the codes "RUN", "WLK"
    and "SWM" given exactly 3, 4 and 5 readings, an instance of [Running],
    [SportsWalking] and [Swimming]; a known code with another number of
    readings raises [TypeError], whatever the readings; any other code
    raises [KeyError]. *)
Theorem read_package_outcome t data :
  match read_package t data with
  | Ok self =>
      (t = "RUN" /\ class_of self = Running /\ List.length data = 3%nat)
      \/ (t = "WLK" /\ class_of self = SportsWalking /\ List.length data = 4%nat)
      \/ (t = "SWM" /\ class_of self = Swimming /\ List.length data = 5%nat)
  | Raise e =>
      (e = KeyError t /\ t <> "RUN" /\ t <> "WLK" /\ t <> "SWM")
      \/ (e = TypeError
          /\ ((t = "RUN" /\ List.length data <> 3%nat)
              \/ (t = "WLK" /\ List.length data <> 4%nat)
              \/ (t = "SWM" /\ List.length data <> 5%nat)))
  end.
Proof.
  destruct (read_package_cases t data)
    as [[-> R]|[[-> R]|[[-> R]|(N1 & N2 & N3 & R)]]]; rewrite R.
  - unfold instantiate. cbn [resolve mro base find defines].
    do 4 (try destruct data as [|? data]); cbn [List.length];
      try (right; split; [reflexivity|]; left; split; [reflexivity|lia]).
    left. repeat split.
  - unfold instantiate. cbn [resolve mro base find defines].
    do 5 (try destruct data as [|? data]); cbn [List.length];
      try (right; split; [reflexivity|]; right; left; split;
           [reflexivity|lia]).
    right; left. repeat split.
  - unfold instantiate. cbn [resolve mro base find defines].
    do 6 (try destruct data as [|? data]); cbn [List.length];
      try (right; split; [reflexivity|]; right; right; split;
           [reflexivity|lia]).
    right; right. repeat split.
  - left. repeat split; assumption.
Qed.


(** X3: on every instance a constructor returns, whatever its readings,
    [M_IN_KM] is 1000 and [M_IN_H] is 60, inherited from [Training], and
    [LEN_STEP] is 1.38 for [Swimming], which overrides it, and 0.65 for the
    other classes. *)
Theorem class_constants_of_instances c data self :
  instantiate c data = Ok self ->
  getattr self "M_IN_KM" = Ok (PyInt 1000)
  /\ getattr self "M_IN_H" = Ok (PyInt 60)
  /\ getattr self "LEN_STEP"
     = Ok (PyFloat match c with Swimming => 1.38 | _ => 0.65 end).
Proof.
  intros E.
  destruct (instantiate_Ok c data self E)
    as [(a & d & w & [->| ->] & _ & ->)
       |[(a & d & w & h & -> & _ & ->)
        |(a & d & w & lp & cp & -> & _ & ->)]];
    repeat split; reflexivity.
Qed.

Lemma class_constants_of_instances_witness :
  instantiate Swimming swm_data
  = Ok (Swimming_init (mkObj Swimming []) (PyInt 720) (PyInt 1) (PyInt 80)
          (PyInt 25) (PyInt 40))
  /\ getattr (Swimming_init (mkObj Swimming []) (PyInt 720) (PyInt 1)
                (PyInt 80) (PyInt 25) (PyInt 40)) "LEN_STEP"
     = Ok (PyFloat 1.38).
Proof.
  split; [reflexivity|].
  destruct (class_constants_of_instances Swimming swm_data _ eq_refl)
    as (_ & _ & H).
  exact H.
Defined.

Section Reports.
Context {L : Libm}.

(** ** __str__ *)

(** X4: [str] of an instance [read_package] returns is the name of its
    class, "Running" for "RUN", "SportsWalking" for "WLK" and "Swimming"
    for "SWM", and it is the workout type [show_training_info] puts in the
    report. *)
Theorem str_names_the_workout t data self :
  read_package t data = Ok self ->
  ((t = "RUN" /\ py_str self = Ok "Running")
   \/ (t = "WLK" /\ py_str self = Ok "SportsWalking")
   \/ (t = "SWM" /\ py_str self = Ok "Swimming"))
  /\ (forall m, show_training_info self = Ok m ->
                py_str self = Ok (training_type m)).
Proof.
  intros E. split.
  - destruct (read_package_Ok t data self E)
      as [(a & d & w & -> & _ & ->)
         |[(a & d & w & h & -> & _ & ->)
          |(a & d & w & lp & cp & -> & _ & ->)]];
      [left|right; left|right; right]; split; reflexivity.
  - intros m H. rewrite show_training_info_eval in H.
    destruct (getattr self "duration"); [|discriminate H].
    destruct (get_distance self); [|discriminate H].
    destruct (get_mean_speed self); [|discriminate H].
    destruct (get_spent_calories self); [|discriminate H].
    cbn [bind] in H. injection H as <-. reflexivity.
Qed.

(** ** Reports that are never produced *)

Lemma main_eval self :
  main self
  = (d <- getattr self "duration" ;;
     x <- get_distance self ;;
     v <- get_mean_speed self ;;
     c <- get_spent_calories self ;;
     get_message (mkInfoMessage (class_name (class_of self)) d x v c)).
Proof.
  unfold main. rewrite show_training_info_eval.
  destruct (getattr self "duration"); [|reflexivity].
  destruct (get_distance self); [|reflexivity].
  destruct (get_mean_speed self); [|reflexivity].
  destruct (get_spent_calories self); reflexivity.
Qed.

(** A metric that raises leaves no report. *)
Lemma main_raises self e :
  get_distance self = Raise e \/ get_mean_speed self = Raise e
  \/ get_spent_calories self = Raise e ->
  exists e', main self = Raise e'.
Proof.
  intros H. rewrite main_eval.
  destruct (getattr self "duration"); [|eexists; reflexivity].
  destruct (get_distance self); [|eexists; reflexivity].
  destruct (get_mean_speed self); [|eexists; reflexivity].
  destruct (get_spent_calories self); [|eexists; reflexivity].
  destruct H as [H|[H|H]]; discriminate H.
Qed.

(** X5: the report of an instance of the base class [Training] is never
    produced: [main] raises, [NotImplementedError] as soon as the distance
    and the mean speed are computed, an arithmetic error of theirs
    otherwise. *)
Theorem base_class_never_reports a d w :
  exists e,
    on_new Training [a; d; w] main = Raise e
    /\ (e = NotImplementedError "Individual_formula"
        \/ e = ZeroDivisionError \/ e = OverflowError)
    /\ (forall x v,
          on_new Training [a; d; w] get_distance = Ok x ->
          on_new Training [a; d; w] get_mean_speed = Ok v ->
          e = NotImplementedError "Individual_formula").
Proof.
  set (self := Training_init (mkObj Training []) a d w).
  change (on_new Training [a; d; w] main) with (main self).
  change (on_new Training [a; d; w] get_distance) with (get_distance self).
  change (on_new Training [a; d; w] get_mean_speed)
    with (get_mean_speed self).
  assert (D : only_arith (get_distance self))
    by (change (get_distance self) with (Spec.distance_steps a);
        apply only_arith_distance_steps).
  assert (S : only_arith (get_mean_speed self)).
  { change (get_mean_speed self) with (get_distance self / Ok d)%py. arith. }
  rewrite main_eval.
  change (getattr self "duration") with (Ok d). cbn [bind].
  destruct (get_distance self) as [x|e1]; cbn [bind].
  2:{ exists e1. split; [reflexivity|]. split.
      - right. apply D. reflexivity.
      - intros x v H. discriminate H. }
  destruct (get_mean_speed self) as [v|e2]; cbn [bind].
  2:{ exists e2. split; [reflexivity|]. split.
      - right. apply S. reflexivity.
      - intros x' v _ H. discriminate H. }
  exists (NotImplementedError "Individual_formula").
  split; [reflexivity|]. split; [left; reflexivity|]. reflexivity.
Qed.

(** *** A zero duration *)

Lemma float_of_Z_0 : float_of_Z 0 = Ok 0%float.
Proof. reflexivity. Qed.

Lemma num_zero_as_float d :
  num_zero d = true ->
  exists fd, as_float d = Ok fd /\ PrimFloat.eqb fd 0%float = true.
Proof.
  destruct d as [z|f]; cbn [num_zero as_float]; intros H.
  - apply Z.eqb_eq in H. subst z. exists 0%float. split; reflexivity.
  - exists f. split; [reflexivity|exact H].
Qed.

Lemma py_truediv_float_by_zero x d :
  num_zero d = true -> py_truediv (PyFloat x) d = Raise ZeroDivisionError.
Proof.
  intros H. destruct (num_zero_as_float d H) as (fd & E & Z).
  rewrite py_truediv_float_l, E. cbn [bind].
  rewrite (float_truediv_zero x fd Z). reflexivity.
Qed.

Lemma py_truediv_by_zero x d :
  num_zero d = true ->
  exists e, py_truediv x d = Raise e /\ arith_error e.
Proof.
  intros H. destruct x as [a|a].
  - destruct d as [b|b]; cbn [num_zero] in H.
    + apply Z.eqb_eq in H. subst b. exists ZeroDivisionError.
      split; [reflexivity|left; reflexivity].
    + cbn [py_truediv as_float].
      destruct (float_of_Z a) as [fa|e] eqn:F; cbn [bind].
      * rewrite (float_truediv_zero fa b H). exists ZeroDivisionError.
        split; [reflexivity|left; reflexivity].
      * exists e. split; [reflexivity|]. right.
        eapply float_of_Z_raise, F.
  - exists ZeroDivisionError.
    split; [apply py_truediv_float_by_zero, H|left; reflexivity].
Qed.

Lemma div_by_zero_raises X d :
  only_arith X -> num_zero d = true ->
  exists e, (X / Ok d)%py = Raise e /\ arith_error e.
Proof.
  intros HX H. unfold lift2. destruct X as [x|e]; cbn [bind].
  - apply py_truediv_by_zero, H.
  - exists e. split; [reflexivity|]. apply HX. reflexivity.
Qed.

(** X6: with a duration equal to zero (0, 0.0 or -0.0) the mean speed of
    an instance [read_package] returns is never computed and no report is
    printed: [get_mean_speed] and [main] raise an arithmetic error, and
    [main] raises [ZeroDivisionError] whenever the action count converts to
    a double. *)
Theorem zero_duration_never_reports t a d rest self :
  num_zero d = true ->
  read_package t (a :: d :: rest) = Ok self ->
  (exists e, get_mean_speed self = Raise e /\ arith_error e)
  /\ (exists e, main self = Raise e /\ arith_error e)
  /\ (forall fa, as_float a = Ok fa -> main self = Raise ZeroDivisionError).
Proof.
  intros Z E.
  assert (S : exists e, get_mean_speed self = Raise e /\ arith_error e).
  { destruct (read_package_Ok _ _ _ E)
      as [(a0 & d0 & w & _ & D & ->)
         |[(a0 & d0 & w & h & _ & D & ->)
          |(a0 & d0 & w & lp & cp & _ & D & ->)]];
      injection D as -> -> _.
    - change (get_mean_speed _) with (Spec.distance_steps a0 / Ok d0)%py.
      apply div_by_zero_raises; [apply only_arith_distance_steps|exact Z].
    - change (get_mean_speed _) with (Spec.distance_steps a0 / Ok d0)%py.
      apply div_by_zero_raises; [apply only_arith_distance_steps|exact Z].
    - change (get_mean_speed _)
        with ((Ok lp * Ok cp / int 1000) / Ok d0)%py.
      apply div_by_zero_raises; [unfold int; arith|exact Z]. }
  split; [exact S|]. split.
  - destruct S as (e & S & _).
    destruct (main_raises self e (or_intror (or_introl S))) as [e' M].
    exists e'. split; [exact M|].
    apply (only_arith_main _ _ _ E). exact M.
  - intros fa Ea. rewrite main_eval.
    destruct (read_package_Ok _ _ _ E)
      as [(a0 & d0 & w & _ & D & ->)
         |[(a0 & d0 & w & h & _ & D & ->)
          |(a0 & d0 & w & lp & cp & _ & D & ->)]];
      injection D as -> -> _.
    + change (getattr _ "duration") with (Ok d0). cbn [bind].
      change (get_mean_speed _) with (Spec.distance_steps a0 / Ok d0)%py.
      change (get_distance _) with (Spec.distance_steps a0).
      rewrite distance_steps_eval, Ea. cbn [bind]. unfold lift2. cbn [bind].
      rewrite (py_truediv_float_by_zero _ d0 Z). reflexivity.
    + change (getattr _ "duration") with (Ok d0). cbn [bind].
      change (get_mean_speed _) with (Spec.distance_steps a0 / Ok d0)%py.
      change (get_distance _) with (Spec.distance_steps a0).
      rewrite distance_steps_eval, Ea. cbn [bind]. unfold lift2. cbn [bind].
      rewrite (py_truediv_float_by_zero _ d0 Z). reflexivity.
    + change (getattr _ "duration") with (Ok d0). cbn [bind].
      change (get_distance _) with (Spec.distance_strokes a0 d0).
      unfold Spec.distance_strokes, flt, int, lift2. cbn [bind].
      rewrite py_mul_float_r, Ea. cbn [bind].
      rewrite py_truediv_1000. cbn [bind].
      rewrite (py_truediv_float_by_zero _ d0 Z). reflexivity.
Qed.

End Reports.

Section ReportsAtExamples.
#[local] Existing Instance correctly_rounded.

Lemma str_names_the_workout_witness :
  read_package "WLK" wlk_data
  = Ok (SportsWalking_init (mkObj SportsWalking []) (PyInt 9000) (PyInt 1)
          (PyInt 75) (PyInt 180))
  /\ py_str (SportsWalking_init (mkObj SportsWalking []) (PyInt 9000)
               (PyInt 1) (PyInt 75) (PyInt 180)) = Ok "SportsWalking".
Proof.
  split; [reflexivity|].
  destruct (str_names_the_workout "WLK" wlk_data _ eq_refl)
    as [[[C _]|[[_ H]|[C _]]] _];
    [discriminate C | exact H | discriminate C].
Defined.

Lemma base_class_never_reports_witness :
  on_new Training [PyInt 15000; PyInt 1; PyInt 75] main
  = Raise (NotImplementedError "Individual_formula").
Proof.
  destruct (base_class_never_reports (PyInt 15000) (PyInt 1) (PyInt 75))
    as (e & H1 & _ & H3).
  rewrite H1. f_equal.
  apply (H3 (PyFloat 9.75) (PyFloat 9.75)); vm_compute; reflexivity.
Defined.

Lemma zero_duration_never_reports_witness :
  num_zero (PyInt 0) = true
  /\ main (Training_init (mkObj Running []) (PyInt 15000) (PyInt 0)
             (PyInt 75))
     = Raise ZeroDivisionError.
Proof.
  split; [reflexivity|].
  destruct (zero_duration_never_reports "RUN" (PyInt 15000) (PyInt 0)
              [PyInt 75] _ eq_refl eq_refl) as (_ & _ & H).
  apply (H 15000%float). reflexivity.
Defined.

End ReportsAtExamples.

(** *** A zero height *)

Lemma eqb_zero_inv f :
  PrimFloat.eqb f 0%float = true -> exists s, Prim2SF f = S754_zero s.
Proof.
  rewrite eqb_spec, Prim2SF_zero.
  destruct (Prim2SF f) as [s|[]| |[] m e]; cbn; try discriminate.
  intros _. exists s. reflexivity.
Qed.

Lemma zero_div_100 f :
  PrimFloat.eqb f 0%float = true ->
  PrimFloat.eqb (f / 100)%float 0%float = true.
Proof.
  intros H. destruct (eqb_zero_inv f H) as [s E].
  rewrite eqb_spec, div_spec, E. destruct s; reflexivity.
Qed.

Lemma zero_height_in_metres h :
  num_zero h = true ->
  exists hm, py_truediv h (PyInt 100) = Ok (PyFloat hm)
             /\ num_zero (PyFloat hm) = true.
Proof.
  destruct h as [z|f]; cbn [num_zero]; intros H.
  - apply Z.eqb_eq in H. subst z. exists 0%float. split; reflexivity.
  - exists (f / 100)%float. split; [reflexivity|apply zero_div_100, H].
Qed.

Section Edges.
Context {L : Libm}.

Lemma py_pow2_float f q : py_pow2 (PyFloat f) = Ok q -> exists p, q = PyFloat p.
Proof.
  cbn [py_pow2].
  repeat match goal with
         | |- context [if ?b then _ else _] => destruct b
         end;
    intros E; try discriminate E; injection E as <-; eauto.
Qed.

(** X7: with a height equal to zero, [get_spent_calories] of a
    [SportsWalking] instance never returns: it raises an arithmetic error,
    which is [ZeroDivisionError] whenever the mean speed is computed, its
    square does not overflow and the weight converts to a double. *)
Theorem zero_height_never_gives_calories a d w h :
  num_zero h = true ->
  exists e,
    on_new SportsWalking [a; d; w; h] get_spent_calories = Raise e
    /\ (e = ZeroDivisionError \/ e = OverflowError)
    /\ (forall s fw q,
          on_new SportsWalking [a; d; w; h] get_mean_speed = Ok (PyFloat s) ->
          as_float w = Ok fw ->
          py_pow2 (PyFloat (s * 0.278)) = Ok q ->
          e = ZeroDivisionError).
Proof.
  intros Z.
  destruct (zero_height_in_metres h Z) as (hm & Hh & Zm).
  assert (A : only_arith (on_new SportsWalking [a; d; w; h] get_spent_calories)).
  { apply (only_arith_metrics "WLK" [a; d; w; h]). reflexivity. }
  assert (R : forall mean, exists e, Spec.calories_walking mean w h d = Raise e).
  { intros mean. unfold Spec.calories_walking, flt, int, lift2, pow2.
    cbn [bind]. rewrite Hh.
    destruct (py_mul mean (PyFloat 0.278)) as [v|e1]; cbn [bind];
      [|eexists; reflexivity].
    destruct (py_mul (PyFloat 0.035) w) as [x|e2]; cbn [bind];
      [|eexists; reflexivity].
    destruct (py_pow2 v) as [sq|e3]; cbn [bind]; [|eexists; reflexivity].
    destruct (py_truediv_by_zero sq (PyFloat hm) Zm) as (e4 & R4 & _).
    rewrite R4. cbn [bind]. eexists; reflexivity. }
  assert (P : forall s fw q,
             as_float w = Ok fw -> py_pow2 (PyFloat (s * 0.278)) = Ok q ->
             Spec.calories_walking (PyFloat s) w h d = Raise ZeroDivisionError).
  { intros s fw q Ew Hq. destruct (py_pow2_float _ _ Hq) as [p ->].
    unfold Spec.calories_walking, flt, int, lift2, pow2.
    cbn [bind].
    change (py_mul (PyFloat s) (PyFloat 0.278))
      with (Ok (PyFloat (s * 0.278))).
    cbn [bind]. rewrite py_mul_float_l, Ew. cbn [bind].
    rewrite Hq. cbn [bind]. rewrite Hh. cbn [bind].
    rewrite (py_truediv_float_by_zero p (PyFloat hm) Zm). reflexivity. }
  rewrite walking_calories in *.
  destruct (on_new SportsWalking [a; d; w; h] get_mean_speed) as [mean|e0];
    cbn [bind] in *.
  - destruct (R mean) as [e Re]. exists e. split; [exact Re|].
    split; [apply A, Re|]. intros s fw q Es Ew Hq. injection Es as ->.
    rewrite (P s fw q Ew Hq) in Re. injection Re as <-. reflexivity.
  - exists e0. split; [reflexivity|]. split; [apply A; reflexivity|].
    intros s fw q Es. discriminate Es.
Qed.

(** ** The errors of a report *)

(** X8: on an instance [read_package] returns, the three metrics and
    [main] fail by arithmetic only: an exception they raise is
    [ZeroDivisionError] or [OverflowError], never an [AttributeError], a
    [NotImplementedError], a [TypeError], or a [KeyError] or [ValueError]
    of the report template. *)
Theorem report_fails_only_by_arithmetic t data self e :
  read_package t data = Ok self ->
  get_distance self = Raise e \/ get_mean_speed self = Raise e
  \/ get_spent_calories self = Raise e \/ main self = Raise e ->
  e = ZeroDivisionError \/ e = OverflowError.
Proof.
  intros E H.
  destruct (only_arith_metrics t data self E) as (D & S & C).
  destruct H as [H|[H|[H|H]]].
  - apply D, H.
  - apply S, H.
  - apply C, H.
  - apply (only_arith_main t data self E), H.
Qed.

(** ** get_message *)

(** X9: [get_message] returns a line exactly when each of its four numbers
    converts to a double, the line being the template filled with the
    workout type and the four doubles in [.3f]; otherwise (an integer
    beyond the range of doubles) it raises [OverflowError], and the
    template itself never fails. *)
Theorem get_message_outcome m :
  (forall e, get_message m = Raise e -> e = OverflowError)
  /\ ((exists line, get_message m = Ok line)
      <-> (exists fd fx fv fc,
             as_float (duration m) = Ok fd /\ as_float (distance m) = Ok fx
             /\ as_float (speed m) = Ok fv /\ as_float (calories m) = Ok fc))
  /\ (forall fd fx fv fc,
        as_float (duration m) = Ok fd -> as_float (distance m) = Ok fx ->
        as_float (speed m) = Ok fv -> as_float (calories m) = Ok fc ->
        get_message m
        = Ok ("Тип тренировки: " ++ training_type m
              ++ "; Длительность: " ++ format_float 3 fd
              ++ " ч.; Дистанция: " ++ format_float 3 fx
              ++ " км; Ср. скорость: " ++ format_float 3 fv
              ++ " км/ч; Потрачено ккал: " ++ format_float 3 fc ++ ".")).
Proof.
  rewrite get_message_eval. unfold format_f.
  split; [|split].
  - intros e.
    destruct (as_float (duration m)) as [fd|e1] eqn:E1; cbn [bind];
      [|intros H; injection H as <-; eapply as_float_raise, E1].
    destruct (as_float (distance m)) as [fx|e2] eqn:E2; cbn [bind];
      [|intros H; injection H as <-; eapply as_float_raise, E2].
    destruct (as_float (speed m)) as [fv|e3] eqn:E3; cbn [bind];
      [|intros H; injection H as <-; eapply as_float_raise, E3].
    destruct (as_float (calories m)) as [fc|e4] eqn:E4; cbn [bind];
      [|intros H; injection H as <-; eapply as_float_raise, E4].
    discriminate.
  - split.
    + intros [line H].
      destruct (as_float (duration m)) as [fd|]; [|discriminate H].
      destruct (as_float (distance m)) as [fx|]; [|discriminate H].
      destruct (as_float (speed m)) as [fv|]; [|discriminate H].
      destruct (as_float (calories m)) as [fc|]; [|discriminate H].
      exists fd, fx, fv, fc. repeat split.
    + intros (fd & fx & fv & fc & -> & -> & -> & ->).
      eexists. reflexivity.
  - intros fd fx fv fc -> -> -> ->. reflexivity.
Qed.

(** ** Swimming and the stroke count *)

(** X10: of a [Swimming] record the stroke count reaches the report
    through the distance only: the mean speed and the calories are the same
    for every action count, and the report of another count is the same
    report with that count's distance in it. *)
Theorem swimming_strokes_reach_the_distance_only a a' d w lp cp :
  on_new Swimming [a; d; w; lp; cp] get_mean_speed
  = on_new Swimming [a'; d; w; lp; cp] get_mean_speed
  /\ on_new Swimming [a; d; w; lp; cp] get_spent_calories
     = on_new Swimming [a'; d; w; lp; cp] get_spent_calories
  /\ (forall m x',
        on_new Swimming [a; d; w; lp; cp] show_training_info = Ok m ->
        on_new Swimming [a'; d; w; lp; cp] get_distance = Ok x' ->
        on_new Swimming [a'; d; w; lp; cp] show_training_info
        = Ok (mkInfoMessage (training_type m) (duration m) x' (speed m)
                (calories m))).
Proof.
  assert (S : on_new Swimming [a; d; w; lp; cp] get_mean_speed
              = on_new Swimming [a'; d; w; lp; cp] get_mean_speed)
    by reflexivity.
  assert (C : on_new Swimming [a; d; w; lp; cp] get_spent_calories
              = on_new Swimming [a'; d; w; lp; cp] get_spent_calories)
    by (rewrite !swimming_calories, S; reflexivity).
  split; [exact S|]. split; [exact C|].
  intros m x'.
  set (self := Swimming_init (mkObj Swimming []) a d w lp cp) in *.
  set (self' := Swimming_init (mkObj Swimming []) a' d w lp cp) in *.
  change (on_new Swimming [a; d; w; lp; cp] show_training_info)
    with (show_training_info self).
  change (on_new Swimming [a'; d; w; lp; cp] show_training_info)
    with (show_training_info self').
  change (on_new Swimming [a'; d; w; lp; cp] get_distance)
    with (get_distance self').
  change (get_mean_speed self = get_mean_speed self') in S.
  change (get_spent_calories self = get_spent_calories self') in C.
  rewrite !show_training_info_eval, <- S, <- C.
  change (getattr self "duration") with (Ok d).
  change (getattr self' "duration") with (Ok d).
  change (class_of self') with (class_of self).
  cbn [bind]. intros H Hx. rewrite Hx. cbn [bind].
  destruct (get_distance self); [|discriminate H]. cbn [bind] in H.
  destruct (get_mean_speed self); [|discriminate H]. cbn [bind] in *.
  destruct (get_spent_calories self); [|discriminate H]. cbn [bind] in *.
  injection H as <-. reflexivity.
Qed.

(** ** The module run as a script *)

(** X11: run as a script, on an accurate library, the module prints the
    reports of its three packages, in their order, and raises nothing. *)
Theorem script_output :
  accurate L ->
  script
  = ([ "Тип тренировки: Swimming; Длительность: 1.000 ч.; "
       ++ "Дистанция: 0.994 км; Ср. скорость: 1.000 км/ч; "
       ++ "Потрачено ккал: 336.000.";
       "Тип тренировки: Running; Длительность: 1.000 ч.; "
       ++ "Дистанция: 9.750 км; Ср. скорость: 9.750 км/ч; "
       ++ "Потрачено ккал: 797.805.";
       "Тип тренировки: SportsWalking; Длительность: 1.000 ч.; "
       ++ "Дистанция: 5.850 км; Ср. скорость: 5.850 км/ч; "
       ++ "Потрачено ккал: 349.252." ],
     None).
Proof.
  intros Acc. destruct (wlk_square Acc) as (sq & Hq & _ & F).
  pose proof (wlk_calories sq Hq) as C.
  assert (R1 : run_package
                 ("SWM", [PyInt 720; PyInt 1; PyInt 80; PyInt 25; PyInt 40])
               = Ok ("Тип тренировки: Swimming; Длительность: 1.000 ч.; "
                     ++ "Дистанция: 0.994 км; Ср. скорость: 1.000 км/ч; "
                     ++ "Потрачено ккал: 336.000."))
    by (vm_compute; reflexivity).
  assert (R2 : run_package ("RUN", [PyInt 15000; PyInt 1; PyInt 75])
               = Ok ("Тип тренировки: Running; Длительность: 1.000 ч.; "
                     ++ "Дистанция: 9.750 км; Ср. скорость: 9.750 км/ч; "
                     ++ "Потрачено ккал: 797.805."))
    by (vm_compute; reflexivity).
  assert (R3 : run_package ("WLK", [PyInt 9000; PyInt 1; PyInt 75; PyInt 180])
               = Ok ("Тип тренировки: SportsWalking; Длительность: 1.000 ч.; "
                     ++ "Дистанция: 5.850 км; Ср. скорость: 5.850 км/ч; "
                     ++ "Потрачено ккал: 349.252.")).
  { set (self := SportsWalking_init (mkObj SportsWalking []) (PyInt 9000)
                   (PyInt 1) (PyInt 75) (PyInt 180)).
    change (run_package ("WLK", [PyInt 9000; PyInt 1; PyInt 75; PyInt 180]))
      with (main self).
    change (on_package "WLK" wlk_data get_spent_calories)
      with (get_spent_calories self) in C.
    assert (X : get_distance self = Ok (PyFloat 5.85))
      by (vm_compute; reflexivity).
    assert (S : get_mean_speed self = Ok (PyFloat 5.85))
      by (vm_compute; reflexivity).
    rewrite main_eval, X, S, C.
    change (getattr self "duration") with (Ok (PyInt 1)). cbn [bind].
    rewrite get_message_eval. unfold format_f.
    cbn [duration distance speed calories training_type as_float bind].
    rewrite F. vm_compute. reflexivity. }
  unfold script, packages. cbn [run_packages]. rewrite R1, R2, R3.
  reflexivity.
Qed.

End Edges.

Section EdgesAtExamples.
#[local] Existing Instance correctly_rounded.

Lemma zero_height_never_gives_calories_witness :
  num_zero (PyInt 0) = true
  /\ exists e,
       on_new SportsWalking [PyInt 9000; PyInt 1; PyInt 75; PyInt 0]
         get_spent_calories = Raise e
       /\ (e = ZeroDivisionError \/ e = OverflowError).
Proof.
  split; [reflexivity|].
  destruct (zero_height_never_gives_calories (PyInt 9000) (PyInt 1)
              (PyInt 75) (PyInt 0) eq_refl) as (e & H1 & H2 & _).
  exists e. split; [exact H1|exact H2].
Defined.

Lemma report_fails_only_by_arithmetic_witness :
  read_package "RUN" [PyInt 15000; PyInt 0; PyInt 75]
  = Ok (Training_init (mkObj Running []) (PyInt 15000) (PyInt 0) (PyInt 75))
  /\ get_mean_speed (Training_init (mkObj Running []) (PyInt 15000)
                       (PyInt 0) (PyInt 75)) = Raise ZeroDivisionError
  /\ (ZeroDivisionError = ZeroDivisionError
      \/ ZeroDivisionError = OverflowError).
Proof.
  assert (H : get_mean_speed (Training_init (mkObj Running []) (PyInt 15000)
                                (PyInt 0) (PyInt 75))
              = Raise ZeroDivisionError) by (vm_compute; reflexivity).
  split; [reflexivity|]. split; [exact H|].
  apply (report_fails_only_by_arithmetic "RUN"
           [PyInt 15000; PyInt 0; PyInt 75] _ ZeroDivisionError eq_refl).
  right; left. exact H.
Defined.

Lemma get_message_outcome_witness :
  get_message (mkInfoMessage "Swimming" (PyInt 1) (PyFloat 0.9936)
                 (PyFloat 1) (PyFloat 336))
  = Ok ("Тип тренировки: Swimming; Длительность: 1.000 ч.; "
        ++ "Дистанция: 0.994 км; Ср. скорость: 1.000 км/ч; "
        ++ "Потрачено ккал: 336.000.").
Proof.
  destruct (get_message_outcome
              (mkInfoMessage "Swimming" (PyInt 1) (PyFloat 0.9936)
                 (PyFloat 1) (PyFloat 336))) as (_ & _ & H).
  rewrite (H 1%float 0.9936%float 1%float 336%float
             eq_refl eq_refl eq_refl eq_refl).
  vm_compute. reflexivity.
Defined.

Lemma swimming_strokes_reach_the_distance_only_witness :
  on_new Swimming [PyInt 1000; PyInt 1; PyInt 80; PyInt 25; PyInt 40]
    show_training_info
  = Ok (mkInfoMessage "Swimming" (PyInt 1) (PyFloat 1.38) (PyFloat 1)
          (PyFloat 336)).
Proof.
  destruct (swimming_strokes_reach_the_distance_only (PyInt 720)
              (PyInt 1000) (PyInt 1) (PyInt 80) (PyInt 25) (PyInt 40))
    as (_ & _ & H).
  apply (H (mkInfoMessage "Swimming" (PyInt 1)
              (PyFloat 0.99359999999999993) (PyFloat 1) (PyFloat 336))
           (PyFloat 1.38));
    vm_compute; reflexivity.
Defined.

Lemma script_output_witness :
  script
  = ([ "Тип тренировки: Swimming; Длительность: 1.000 ч.; "
       ++ "Дистанция: 0.994 км; Ср. скорость: 1.000 км/ч; "
       ++ "Потрачено ккал: 336.000.";
       "Тип тренировки: Running; Длительность: 1.000 ч.; "
       ++ "Дистанция: 9.750 км; Ср. скорость: 9.750 км/ч; "
       ++ "Потрачено ккал: 797.805.";
       "Тип тренировки: SportsWalking; Длительность: 1.000 ч.; "
       ++ "Дистанция: 5.850 км; Ср. скорость: 5.850 км/ч; "
       ++ "Потрачено ккал: 349.252." ],
     None).
Proof. apply (script_output accurate_correctly_rounded). Defined.

End EdgesAtExamples.

(** ** Order and sign of the metrics *)

Lemma float_finite_val f : float_finite f = true -> fval f < inf_value.
Proof.
  unfold float_finite, fval. pose proof (Prim2SF_valid f) as V.
  pose proof inf_value_pos.
  destruct (Prim2SF f) as [s|s| |s m e]; try discriminate; intros _;
    cbn [SFval]; [lia|].
  apply (SFval_finite_lt_inf s m e V).
Qed.

(** The conversion of a positive integer rounds the integer itself. *)
Lemma normalize_spec p :
  exists mz ez,
    binary_normalize prec emax (Zpos p) 0 false
    = binary_round_aux prec emax false (Zpos mz) ez loc_Exact
    /\ -1074 <= ez
    /\ ez <= fexp prec emax (Zdigits2 (Zpos mz) + ez)
    /\ Zpos mz * 2 ^ (ez + 1074) = Zpos p * 2 ^ 1074.
Proof.
  cbn [binary_normalize].
  destruct (binary_round_spec p 0) as (mz & ez & R & Ez & Mz & A).
  pose proof (fexp_ge (Zdigits2 (Zpos p) + 0)).
  exists mz, ez. split; [exact R|]. split; [lia|]. split; [exact A|].
  rewrite Mz, <- Z.mul_assoc, <- Z.pow_add_r by lia.
  f_equal. f_equal. lia.
Qed.

Lemma normalize_good z : 0 <= z -> good (binary_normalize prec emax z 0 false).
Proof.
  destruct z as [|p|p]; intros H; try lia.
  - split; reflexivity.
  - destruct (normalize_spec p) as (mz & ez & R & _ & A & _).
    rewrite R. apply round_exact_good; [lia|exact A].
Qed.

Lemma normalize_mono z1 z2 :
  0 <= z1 <= z2 ->
  SFval (binary_normalize prec emax z1 0 false)
  <= SFval (binary_normalize prec emax z2 0 false).
Proof.
  intros H. destruct z1 as [|p1|p1]; try lia.
  - apply SFval_nonneg.
  - destruct z2 as [|p2|p2]; try lia.
    destruct (normalize_spec p1) as (m1 & e1 & R1 & L1 & A1 & V1).
    destruct (normalize_spec p2) as (m2 & e2 & R2 & L2 & A2 & V2).
    rewrite R1, R2. apply round_exact_mono_val; try assumption; lia.
Qed.

Lemma float_of_Z_Ok z f :
  0 <= z -> float_of_Z z = Ok f ->
  Prim2SF f = binary_normalize prec emax z 0 false
  /\ SFval (binary_normalize prec emax z 0 false) < inf_value.
Proof.
  intros Hz. destruct (normalize_good z Hz) as [V N].
  unfold float_of_Z. pose proof inf_value_pos. intros E.
  set (sf := binary_normalize prec emax z 0 false) in *.
  assert (Ef : f = SF2Prim sf /\ forall s, sf <> S754_infinity s).
  { destruct sf; try (injection E as <-; split; [reflexivity|congruence]).
    discriminate. }
  destruct Ef as [-> Ninf]. split; [apply Prim2SF_SF2Prim, V|].
  destruct sf as [s|s| |s m e]; cbn [SFval]; try lia.
  - exfalso. apply (Ninf s). reflexivity.
  - apply (SFval_finite_lt_inf s m e V).
Qed.

Lemma float_of_Z_fits z :
  0 <= z -> SFval (binary_normalize prec emax z 0 false) < inf_value ->
  exists f, float_of_Z z = Ok f.
Proof.
  intros Hz H. unfold float_of_Z.
  destruct (binary_normalize prec emax z 0 false) as [s|s| |s m e];
    try (eexists; reflexivity).
  cbn [SFval] in H. lia.
Qed.

(** The conversion of integers to doubles keeps the order; an integer
    below one that fits a double fits. *)
Lemma float_of_Z_mono z1 z2 f2 :
  0 <= z1 <= z2 -> float_of_Z z2 = Ok f2 ->
  exists f1, float_of_Z z1 = Ok f1
             /\ fnonneg f1 /\ fnonneg f2 /\ fval f1 <= fval f2.
Proof.
  intros H E2.
  destruct (float_of_Z_Ok z2 f2 ltac:(lia) E2) as [P2 B2].
  pose proof (normalize_mono z1 z2 H) as M.
  destruct (float_of_Z_fits z1 ltac:(lia) ltac:(lia)) as [f1 E1].
  destruct (float_of_Z_Ok z1 f1 ltac:(lia) E1) as [P1 B1].
  exists f1. split; [exact E1|]. unfold fnonneg, fval. rewrite P1, P2.
  split; [apply normalize_good; lia|]. split; [apply normalize_good; lia|].
  exact M.
Qed.

Lemma leb_0 f : fnonneg f -> PrimFloat.leb 0%float f = true.
Proof.
  intros N. rewrite leb_val by (try reflexivity; exact N).
  apply Z.leb_le. apply fval_nonneg.
Qed.

Lemma leb_of_val x y :
  fnonneg x -> fnonneg y -> fval x <= fval y -> PrimFloat.leb x y = true.
Proof. intros Nx Ny H. rewrite (leb_val x y Nx Ny). apply Z.leb_le, H. Qed.

Lemma leb_to_val x y :
  fnonneg x -> PrimFloat.leb x y = true -> fnonneg y /\ fval x <= fval y.
Proof.
  intros Nx H.
  assert (Ny : fnonneg y).
  { rewrite leb_spec in H. unfold fnonneg in *.
    destruct (Prim2SF x) as [sx|[]| |[] mx ex], (Prim2SF y) as [sy|[]| |[] my ey];
      cbn in *; congruence. }
  split; [exact Ny|]. rewrite (leb_val x y Nx Ny) in H. apply Z.leb_le, H.
Qed.

(** The distance and the mean speed of a step count, in the order of the
    counts. *)
Lemma steps_chain k f1 f2 fd :
  fpos k -> fnonneg f1 -> fnonneg f2 -> fval f1 <= fval f2 -> fpos fd ->
  (fnonneg (f1 * k / 1000)%float /\ fnonneg (f2 * k / 1000)%float
   /\ fval (f1 * k / 1000)%float <= fval (f2 * k / 1000)%float)
  /\ (fnonneg (f1 * k / 1000 / fd)%float /\ fnonneg (f2 * k / 1000 / fd)%float
      /\ fval (f1 * k / 1000 / fd)%float <= fval (f2 * k / 1000 / fd)%float).
Proof.
  intros [Nk Pk] N1 N2 H Pd. pose proof fpos_1000 as P1000.
  assert (Nx1 : fnonneg (f1 * k)%float) by (apply fmul_nonneg; try assumption; lia).
  assert (Nx2 : fnonneg (f2 * k)%float) by (apply fmul_nonneg; try assumption; lia).
  assert (Hx : fval (f1 * k)%float <= fval (f2 * k)%float)
    by (apply fmul_mono_r; try assumption; lia).
  assert (Ny1 := fdiv_nonneg _ _ Nx1 P1000).
  assert (Ny2 := fdiv_nonneg _ _ Nx2 P1000).
  assert (Hy := fdiv_mono _ _ _ Nx1 Nx2 P1000 Hx).
  split; [split; [exact Ny1|split; [exact Ny2|exact Hy]]|].
  split; [apply fdiv_nonneg; assumption|].
  split; [apply fdiv_nonneg; assumption|].
  apply fdiv_mono; assumption.
Qed.

Lemma duration_fpos d fd :
  num_pos d = true -> as_float d = Ok fd -> float_finite fd = true -> fpos fd.
Proof.
  intros H E F. destruct (as_float_pos d fd H E) as [N P].
  split; [exact N|]. split; [exact P|apply float_finite_val, F].
Qed.

(** X12: the distance never decreases with the action count and is never
    negative: for two counts [0 <= z1 <= z2], the greater of which fits a
    double, [get_distance] returns doubles in the same order, for the
    step-counting classes and, given a positive finite duration, for
    [Swimming]. *)
Theorem distance_monotone_in_action z1 z2 d w h lp cp f2 fd :
  0 <= z1 <= z2 -> float_of_Z z2 = Ok f2 ->
  num_pos d = true -> as_float d = Ok fd -> float_finite fd = true ->
  exists x1 x2 y1 y2,
    (on_new Running [PyInt z1; d; w] get_distance = Ok (PyFloat x1)
     /\ on_new Running [PyInt z2; d; w] get_distance = Ok (PyFloat x2))
    /\ (on_new SportsWalking [PyInt z1; d; w; h] get_distance
        = Ok (PyFloat x1)
        /\ on_new SportsWalking [PyInt z2; d; w; h] get_distance
           = Ok (PyFloat x2))
    /\ (on_new Swimming [PyInt z1; d; w; lp; cp] get_distance
        = Ok (PyFloat y1)
        /\ on_new Swimming [PyInt z2; d; w; lp; cp] get_distance
           = Ok (PyFloat y2))
    /\ PrimFloat.leb 0 x1 = true /\ PrimFloat.leb x1 x2 = true
    /\ PrimFloat.leb 0 y1 = true /\ PrimFloat.leb y1 y2 = true.
Proof.
  intros Hz E2 Hd Ed Fd.
  destruct (float_of_Z_mono z1 z2 f2 Hz E2) as (f1 & E1 & N1 & N2 & H).
  pose proof (duration_fpos d fd Hd Ed Fd) as Pd.
  destruct (steps_chain 0.65 f1 f2 fd fpos_065 N1 N2 H Pd)
    as [(Nx1 & Nx2 & Hx) _].
  destruct (steps_chain 1.38 f1 f2 fd fpos_138 N1 N2 H Pd)
    as [_ (Ny1 & Ny2 & Hy)].
  exists (f1 * 0.65 / 1000)%float, (f2 * 0.65 / 1000)%float,
         (f1 * 1.38 / 1000 / fd)%float, (f2 * 1.38 / 1000 / fd)%float.
  rewrite !running_distance, !walking_distance, !swimming_distance.
  rewrite !distance_steps_eval, !(distance_strokes_eval _ d Hd).
  cbn [as_float]. rewrite E1, E2, Ed. cbn [bind].
  repeat split; try reflexivity.
  - apply leb_0, Nx1.
  - apply leb_of_val; assumption.
  - apply leb_0, Ny1.
  - apply leb_of_val; assumption.
Qed.

Lemma distance_monotone_in_action_witness :
  exists x1 x2,
    on_new Running [PyInt 9000; PyInt 1; PyInt 75] get_distance
    = Ok (PyFloat x1)
    /\ on_new Running [PyInt 15000; PyInt 1; PyInt 75] get_distance
       = Ok (PyFloat x2)
    /\ PrimFloat.leb x1 x2 = true.
Proof.
  destruct (distance_monotone_in_action 9000 15000 (PyInt 1) (PyInt 75)
              (PyInt 180) (PyInt 25) (PyInt 40) 15000%float 1%float
              ltac:(lia) eq_refl eq_refl eq_refl eq_refl)
    as (x1 & x2 & y1 & y2 & [R1 R2] & _ & _ & _ & L & _).
  exists x1, x2. split; [exact R1|]. split; [exact R2|exact L].
Defined.

Section Runs.
Context {L : Libm}.

(** The calories of a run are a non-negative double. *)
Lemma running_formula_nonneg s fw fd :
  fnonneg s -> fnonneg fw -> 0 < fval fw -> fpos fd ->
  fnonneg ((18 * s + 1.79) * fw / 1000 * fd * 60)%float.
Proof.
  intros Ns Nw Pw Pd.
  pose proof fpos_18 as [N18 P18]. pose proof fpos_179 as P179.
  pose proof fpos_1000 as P1000. pose proof fpos_60 as [N60 P60].
  destruct Pd as [Nd Pd].
  assert (Nt : fnonneg (18 * s)%float) by (apply fmul_nonneg; try assumption; lia).
  destruct (fadd_mono _ _ 1.79%float Nt Nt P179 ltac:(lia)) as [Lu _].
  assert (Nu : fnonneg (18 * s + 1.79)%float) by (apply fadd_nonneg; assumption).
  assert (Pu : 0 < fval (18 * s + 1.79)%float) by (destruct P179; lia).
  assert (Nv : fnonneg ((18 * s + 1.79) * fw)%float)
    by (apply fmul_nonneg; try assumption; lia).
  assert (Nx := fdiv_nonneg _ _ Nv P1000).
  assert (Ny : fnonneg ((18 * s + 1.79) * fw / 1000 * fd)%float)
    by (apply fmul_nonneg; try assumption; lia).
  apply fmul_nonneg; try assumption; lia.
Qed.

(** X13: the mean speed and the calories of a run never decrease with the
    action count and are never negative: for two counts [0 <= z1 <= z2],
    the greater of which fits a double, a positive finite duration and a
    positive weight, [get_mean_speed] and [get_spent_calories] return
    doubles in the order of the counts. *)
Theorem running_metrics_monotone_in_action z1 z2 d w f2 fd fw :
  0 <= z1 <= z2 -> float_of_Z z2 = Ok f2 ->
  num_pos d = true -> as_float d = Ok fd -> float_finite fd = true ->
  num_pos w = true -> as_float w = Ok fw ->
  exists s1 s2 c1 c2,
    (on_new Running [PyInt z1; d; w] get_mean_speed = Ok (PyFloat s1)
     /\ on_new Running [PyInt z2; d; w] get_mean_speed = Ok (PyFloat s2))
    /\ (on_new Running [PyInt z1; d; w] get_spent_calories = Ok (PyFloat c1)
        /\ on_new Running [PyInt z2; d; w] get_spent_calories
           = Ok (PyFloat c2))
    /\ PrimFloat.leb 0 s1 = true /\ PrimFloat.leb s1 s2 = true
    /\ PrimFloat.leb 0 c1 = true /\ PrimFloat.leb c1 c2 = true.
Proof.
  intros Hz E2 Hd Ed Fd Hw Ew.
  destruct (float_of_Z_mono z1 z2 f2 Hz E2) as (f1 & E1 & N1 & N2 & H).
  pose proof (duration_fpos d fd Hd Ed Fd) as Pd.
  destruct (as_float_pos w fw Hw Ew) as [Nw Pw].
  destruct (steps_chain 0.65 f1 f2 fd fpos_065 N1 N2 H Pd)
    as [_ (Ns1 & Ns2 & Hs)].
  set (s1 := (f1 * 0.65 / 1000 / fd)%float) in *.
  set (s2 := (f2 * 0.65 / 1000 / fd)%float) in *.
  assert (S1 : on_new Running [PyInt z1; d; w] get_mean_speed
               = Ok (PyFloat s1)).
  { rewrite (running_mean_speed_eval _ d w Hd). cbn [as_float].
    rewrite E1, Ed. reflexivity. }
  assert (S2 : on_new Running [PyInt z2; d; w] get_mean_speed
               = Ok (PyFloat s2)).
  { rewrite (running_mean_speed_eval _ d w Hd). cbn [as_float].
    rewrite E2, Ed. reflexivity. }
  exists s1, s2, ((18 * s1 + 1.79) * fw / 1000 * fd * 60)%float,
         ((18 * s2 + 1.79) * fw / 1000 * fd * 60)%float.
  rewrite !running_calories, S1, S2. cbn [bind].
  rewrite !(calories_running_eval _ w d Hd), Ew, Ed. cbn [bind].
  repeat split; try reflexivity.
  - apply leb_0, Ns1.
  - apply leb_of_val; assumption.
  - apply leb_0, running_formula_nonneg; assumption.
  - apply running_formula_mono; assumption.
Qed.

(** X14: the calories of a run never decrease with the weight: for a
    non-negative action count that converts to a double, a positive
    finite duration and two positive weights whose doubles are in order,
    [get_spent_calories] returns doubles in the same order. *)
Theorem running_calories_monotone_in_weight a d w1 w2 fa fd f1 f2 :
  num_nonneg a = true -> as_float a = Ok fa ->
  num_pos d = true -> as_float d = Ok fd -> float_finite fd = true ->
  num_pos w1 = true -> as_float w1 = Ok f1 -> as_float w2 = Ok f2 ->
  PrimFloat.leb f1 f2 = true ->
  exists c1 c2,
    on_new Running [a; d; w1] get_spent_calories = Ok (PyFloat c1)
    /\ on_new Running [a; d; w2] get_spent_calories = Ok (PyFloat c2)
    /\ PrimFloat.leb c1 c2 = true.
Proof.
  intros Ha Ea Hd Ed Fd Hw E1 E2 Le.
  pose proof (as_float_nonneg a fa Ha Ea) as Na.
  pose proof (duration_fpos d fd Hd Ed Fd) as Pd.
  destruct (as_float_pos w1 f1 Hw E1) as [N1 P1].
  destruct (leb_to_val f1 f2 N1 Le) as [N2 H].
  destruct (steps_chain 0.65 fa fa fd fpos_065 Na Na ltac:(lia) Pd)
    as [_ (Ns & _ & _)].
  set (s := (fa * 0.65 / 1000 / fd)%float) in *.
  assert (S : forall w, on_new Running [a; d; w] get_mean_speed
                        = Ok (PyFloat s)).
  { intros w. rewrite (running_mean_speed_eval a d w Hd), Ea, Ed.
    reflexivity. }
  exists ((18 * s + 1.79) * f1 / 1000 * fd * 60)%float,
         ((18 * s + 1.79) * f2 / 1000 * fd * 60)%float.
  rewrite !running_calories, !S. cbn [bind].
  rewrite !(calories_running_eval _ _ d Hd), E1, E2, Ed. cbn [bind].
  split; [reflexivity|]. split; [reflexivity|].
  pose proof fpos_18 as [N18 P18]. pose proof fpos_179 as P179.
  pose proof fpos_1000 as P1000. pose proof fpos_60 as [N60 P60].
  destruct Pd as [Nd Pd].
  assert (Nt : fnonneg (18 * s)%float) by (apply fmul_nonneg; try assumption; lia).
  destruct (fadd_mono _ _ 1.79%float Nt Nt P179 ltac:(lia)) as [Lu _].
  assert (Nu : fnonneg (18 * s + 1.79)%float) by (apply fadd_nonneg; assumption).
  assert (Pu : 0 < fval (18 * s + 1.79)%float) by (destruct P179; lia).
  assert (Nv1 : fnonneg ((18 * s + 1.79) * f1)%float)
    by (apply fmul_nonneg; try assumption; lia).
  assert (Nv2 : fnonneg ((18 * s + 1.79) * f2)%float)
    by (apply fmul_nonneg; try assumption; lia).
  assert (Hv : fval ((18 * s + 1.79) * f1)%float
               <= fval ((18 * s + 1.79) * f2)%float)
    by (apply fmul_mono_l; try assumption; lia).
  assert (Nx1 := fdiv_nonneg _ _ Nv1 P1000).
  assert (Nx2 := fdiv_nonneg _ _ Nv2 P1000).
  assert (Hx := fdiv_mono _ _ _ Nv1 Nv2 P1000 Hv).
  assert (Ny1 : fnonneg ((18 * s + 1.79) * f1 / 1000 * fd)%float)
    by (apply fmul_nonneg; try assumption; lia).
  assert (Ny2 : fnonneg ((18 * s + 1.79) * f2 / 1000 * fd)%float)
    by (apply fmul_nonneg; try assumption; lia).
  assert (Hy : fval ((18 * s + 1.79) * f1 / 1000 * fd)%float
               <= fval ((18 * s + 1.79) * f2 / 1000 * fd)%float)
    by (apply fmul_mono_r; try assumption; lia).
  apply leb_of_val.
  - apply fmul_nonneg; try assumption; lia.
  - apply fmul_nonneg; try assumption; lia.
  - apply fmul_mono_r; try assumption; lia.
Qed.

(** ** A whole report *)

(** X15: a run whose three readings convert to doubles, the duration to
    one that is not zero, always has its report; no sign or range is
    checked. The line holds the duration, the distance
    [action * 0.65 / 1000], the mean speed [distance / duration] and the
    calories of that speed, each in [.3f]. *)
Theorem running_report a d w fa fd fw :
  as_float a = Ok fa -> as_float d = Ok fd -> as_float w = Ok fw ->
  PrimFloat.eqb fd 0 = false ->
  on_new Running [a; d; w] main
  = Ok ("Тип тренировки: Running; Длительность: " ++ format_float 3 fd
        ++ " ч.; Дистанция: " ++ format_float 3 (fa * 0.65 / 1000)
        ++ " км; Ср. скорость: " ++ format_float 3 (fa * 0.65 / 1000 / fd)
        ++ " км/ч; Потрачено ккал: "
        ++ format_float 3
             ((18 * (fa * 0.65 / 1000 / fd) + 1.79) * fw / 1000 * fd * 60)
        ++ ".").
Proof.
  intros Ea Ed Ew Z.
  set (self := Training_init (mkObj Running []) a d w).
  change (on_new Running [a; d; w] main) with (main self).
  assert (X : get_distance self = Ok (PyFloat (fa * 0.65 / 1000))).
  { change (get_distance self) with (Spec.distance_steps a).
    rewrite distance_steps_eval, Ea. reflexivity. }
  assert (S : get_mean_speed self = Ok (PyFloat (fa * 0.65 / 1000 / fd))).
  { change (get_mean_speed self) with (get_distance self / Ok d)%py.
    rewrite X. unfold lift2. cbn [bind].
    rewrite py_truediv_float_l, Ed. cbn [bind].
    rewrite (float_truediv_nonzero _ fd Z). reflexivity. }
  assert (C : get_spent_calories self
              = Ok (PyFloat ((18 * (fa * 0.65 / 1000 / fd) + 1.79) * fw
                             / 1000 * fd * 60))).
  { change (get_spent_calories self)
      with (on_new Running [a; d; w] get_spent_calories).
    rewrite running_calories.
    change (on_new Running [a; d; w] get_mean_speed)
      with (get_mean_speed self).
    rewrite S. cbn [bind].
    unfold Spec.calories_running, flt, int, lift2. cbn [bind].
    cbn [py_mul as_float]. rewrite float_of_Z_18. cbn [bind py_add as_float].
    rewrite py_mul_float_l, Ew. cbn [bind]. rewrite py_truediv_1000.
    cbn [bind]. rewrite py_mul_float_l, Ed. reflexivity. }
  rewrite main_eval, X, S, C.
  change (getattr self "duration") with (Ok d). cbn [bind].
  rewrite get_message_eval. unfold format_f.
  cbn [duration distance speed calories as_float]. rewrite Ed. reflexivity.
Qed.

(** ** A run without steps *)

Lemma zero_div_pos fd :
  fnonneg fd -> 0 < fval fd -> (0 / fd)%float = 0%float.
Proof.
  intros N P. apply Prim2SF_inj. rewrite div_spec, Prim2SF_zero.
  unfold fnonneg, fval in *.
  destruct (Prim2SF fd) as [s|s| |s m e]; cbn [SFnonneg SFval] in *;
    try discriminate; try lia; clear_sign; reflexivity.
Qed.

(** X16: a run with an action count of zero has distance 0.0 and, for a
    positive duration, mean speed 0.0, and its calories are those of the
    shift term alone, [1.79 * weight / 1000 * duration * 60]. *)
Theorem running_at_rest d w fd fw :
  num_pos d = true -> as_float d = Ok fd -> as_float w = Ok fw ->
  on_new Running [PyInt 0; d; w] get_distance = Ok (PyFloat 0)
  /\ on_new Running [PyInt 0; d; w] get_mean_speed = Ok (PyFloat 0)
  /\ on_new Running [PyInt 0; d; w] get_spent_calories
     = Ok (PyFloat (1.79 * fw / 1000 * fd * 60)).
Proof.
  intros Hd Ed Ew. destruct (as_float_pos d fd Hd Ed) as [Nd Pd].
  assert (S : on_new Running [PyInt 0; d; w] get_mean_speed
              = Ok (PyFloat 0)).
  { rewrite (running_mean_speed_eval _ d w Hd). cbn [as_float].
    rewrite float_of_Z_0, Ed. cbn [bind].
    change (0 * 0.65 / 1000)%float with 0%float.
    rewrite (zero_div_pos fd Nd Pd). reflexivity. }
  split; [reflexivity|]. split; [exact S|].
  rewrite running_calories, S. cbn [bind].
  rewrite (calories_running_eval _ w d Hd), Ew, Ed. cbn [bind].
  change (18 * 0 + 1.79)%float with 1.79%float. reflexivity.
Qed.

End Runs.

Section RunsAtExamples.
#[local] Existing Instance correctly_rounded.

Lemma running_metrics_monotone_in_action_witness :
  exists c1 c2,
    on_new Running [PyInt 9000; PyInt 1; PyInt 75] get_spent_calories
    = Ok (PyFloat c1)
    /\ on_new Running [PyInt 15000; PyInt 1; PyInt 75] get_spent_calories
       = Ok (PyFloat c2)
    /\ PrimFloat.leb c1 c2 = true.
Proof.
  destruct (running_metrics_monotone_in_action 9000 15000 (PyInt 1)
              (PyInt 75) 15000%float 1%float 75%float
              ltac:(lia) eq_refl eq_refl eq_refl eq_refl eq_refl eq_refl)
    as (s1 & s2 & c1 & c2 & _ & [R1 R2] & _ & _ & _ & L).
  exists c1, c2. split; [exact R1|]. split; [exact R2|exact L].
Defined.

Lemma running_calories_monotone_in_weight_witness :
  exists c1 c2,
    on_new Running [PyInt 15000; PyInt 1; PyInt 75] get_spent_calories
    = Ok (PyFloat c1)
    /\ on_new Running [PyInt 15000; PyInt 1; PyInt 80] get_spent_calories
       = Ok (PyFloat c2)
    /\ PrimFloat.leb c1 c2 = true.
Proof.
  apply (running_calories_monotone_in_weight (PyInt 15000) (PyInt 1)
           (PyInt 75) (PyInt 80) 15000%float 1%float 75%float 80%float);
    reflexivity.
Defined.

Lemma running_report_witness :
  on_new Running run_data main
  = Ok ("Тип тренировки: Running; Длительность: 1.000 ч.; "
        ++ "Дистанция: 9.750 км; Ср. скорость: 9.750 км/ч; "
        ++ "Потрачено ккал: 797.805.").
Proof.
  unfold run_data.
  rewrite (running_report (PyInt 15000) (PyInt 1) (PyInt 75) 15000%float
             1%float 75%float eq_refl eq_refl eq_refl eq_refl).
  vm_compute. reflexivity.
Defined.

Lemma running_at_rest_witness :
  on_new Running [PyInt 0; PyInt 1; PyInt 75] get_spent_calories
  = Ok (PyFloat (1.79 * 75 / 1000 * 1 * 60)).
Proof.
  destruct (running_at_rest (PyInt 1) (PyInt 75) 1%float 75%float
              eq_refl eq_refl eq_refl) as (_ & _ & H).
  exact H.
Defined.

End RunsAtExamples.

(** ** A walk without steps, a swim without lengths *)

Lemma zero_mul_finite f :
  fnonneg f -> 0 < fval f < inf_value -> (0 * f)%float = 0%float.
Proof.
  intros N F. apply Prim2SF_inj. rewrite mul_spec, Prim2SF_zero.
  unfold fnonneg, fval in *.
  destruct (Prim2SF f) as [s|s| |s m e]; cbn [SFnonneg SFval] in *;
    try discriminate; try lia; clear_sign; reflexivity.
Qed.

(** The product of two positive finite doubles is not the negative zero. *)
Lemma fmul_pos_sign c f :
  fnonneg c -> 0 < fval c < inf_value ->
  fnonneg f -> 0 < fval f < inf_value ->
  Prim2SF (c * f)%float <> S754_zero true.
Proof.
  unfold fnonneg, fval. intros Nc Pc Nf Pf. rewrite mul_spec.
  pose proof (Prim2SF_valid c) as Vc. pose proof (Prim2SF_valid f) as Vf.
  destruct (Prim2SF c) as [sc|sc| |sc mc ec]; cbn [SFnonneg SFval] in *;
    try discriminate; try lia.
  destruct (Prim2SF f) as [sf|sf| |sf mf ef]; cbn [SFnonneg SFval] in *;
    try discriminate; try lia.
  clear_sign. unfold SF64mul. cbn [SFmul xorb].
  pose proof (mul_aligned mc ec mf ef false false Vc Vf) as A.
  destruct (round_aux_spec false (Zpos (mc * mf)) (ec + ef) loc_Exact
              (2 * Zpos (mc * mf)) 1 ltac:(lia) ltac:(lia)) as (R & _ & _);
    [rewrite sticky_quot_1; cbn [loc_code]; lia | exact A |].
  rewrite R. unfold round_result.
  repeat match goal with |- context [if ?b then _ else _] => destruct b end;
    discriminate.
Qed.

Lemma add_zero_r f :
  fnonneg f -> Prim2SF f <> S754_zero true -> (f + 0)%float = f.
Proof.
  intros N Z. apply Prim2SF_inj. rewrite add_spec, Prim2SF_zero.
  unfold fnonneg in *.
  destruct (Prim2SF f) as [[]|s| |s m e]; cbn [SFnonneg] in *;
    try discriminate; try congruence; clear_sign; reflexivity.
Qed.

Section Resting.
Context {L : Libm}.

(** X17: a walk with an action count of zero has mean speed 0.0 and its
    calories are those of the weight term alone, [0.035 * weight * minutes],
    where [minutes] is [duration * 60] as the code computes it (in integers
    for an integer duration), for a positive duration, a positive finite
    weight and a height whose value in metres is a positive double. *)
Theorem walking_at_rest d w h fd fw hm mins fm :
  num_pos d = true -> as_float d = Ok fd ->
  num_pos w = true -> as_float w = Ok fw -> float_finite fw = true ->
  py_truediv h (PyInt 100) = Ok (PyFloat hm) -> PrimFloat.ltb 0 hm = true ->
  py_mul d (PyInt 60) = Ok mins -> as_float mins = Ok fm ->
  on_new SportsWalking [PyInt 0; d; w; h] get_mean_speed = Ok (PyFloat 0)
  /\ on_new SportsWalking [PyInt 0; d; w; h] get_spent_calories
     = Ok (PyFloat (0.035 * fw * fm)).
Proof.
  intros Hd Ed Hw Ew Fw Hh Ph Hm Em.
  destruct (as_float_pos d fd Hd Ed) as [Nd Pd].
  destruct (as_float_pos w fw Hw Ew) as [Nw Pw].
  destruct (ltb_0_pos hm Ph) as [Nh Pm].
  pose proof (float_finite_val fw Fw) as Bw.
  assert (P35 : fpos 0.035%float)
    by (apply fpos_const; vm_compute; reflexivity).
  assert (S : on_new SportsWalking [PyInt 0; d; w; h] get_mean_speed
              = Ok (PyFloat 0)).
  { rewrite walking_mean_speed, walking_distance.
    rewrite (steps_mean_speed_eval _ d Hd). cbn [as_float].
    rewrite float_of_Z_0, Ed. cbn [bind].
    change (0 * 0.65 / 1000)%float with 0%float.
    rewrite (zero_div_pos fd Nd Pd). reflexivity. }
  split; [exact S|].
  rewrite walking_calories, S. cbn [bind].
  unfold Spec.calories_walking, flt, int, lift2, pow2. cbn [bind].
  change (py_mul (PyFloat 0) (PyFloat 0.278)) with (Ok (PyFloat 0)).
  cbn [bind]. rewrite py_mul_float_l, Ew. cbn [bind].
  change (py_pow2 (PyFloat 0)) with (Ok (PyFloat 0)). cbn [bind].
  rewrite Hh. cbn [bind].
  change (py_truediv (PyFloat 0) (PyFloat hm))
    with (q <- float_truediv 0 hm ;; Ok (PyFloat q)).
  rewrite (float_truediv_pos 0 hm Nh Pm), (zero_div_pos hm Nh Pm).
  cbn [bind].
  change (py_mul (PyFloat 0) (PyFloat 0.029)) with (Ok (PyFloat 0)).
  cbn [bind]. rewrite py_mul_float_l, Ew. cbn [bind].
  rewrite (zero_mul_finite fw Nw (conj Pw Bw)).
  change (py_add (PyFloat (0.035 * fw)) (PyFloat 0))
    with (Ok (PyFloat (0.035 * fw + 0))).
  destruct P35 as [N35 B35].
  rewrite add_zero_r;
    [| apply fmul_nonneg; try assumption; lia
     | apply fmul_pos_sign; try assumption; lia ].
  cbn [bind]. rewrite Hm. cbn [bind].
  rewrite py_mul_float_l, Em. reflexivity.
Qed.

(** X18: a swim whose pool length times pool count is zero has mean speed
    0.0, for a positive duration, and its calories are those of the shift
    term alone, [1.1 * 2 * weight * duration]. *)
Theorem swimming_at_rest a d w lp cp fd fw :
  lp * cp = 0 ->
  num_pos d = true -> as_float d = Ok fd -> as_float w = Ok fw ->
  on_new Swimming [a; d; w; PyInt lp; PyInt cp] get_mean_speed
  = Ok (PyFloat 0)
  /\ on_new Swimming [a; d; w; PyInt lp; PyInt cp] get_spent_calories
     = Ok (PyFloat (1.1 * 2 * fw * fd)).
Proof.
  intros Z Hd Ed Ew.
  destruct (as_float_pos d fd Hd Ed) as [Nd Pd].
  assert (S : on_new Swimming [a; d; w; PyInt lp; PyInt cp] get_mean_speed
              = Ok (PyFloat 0)).
  { rewrite swimming_mean_speed.
    unfold Spec.mean_speed_pool, int, lift2. cbn [bind py_mul]. rewrite Z.
    change (py_truediv (PyInt 0) (PyInt 1000)) with (Ok (PyFloat 0)).
    cbn [bind]. rewrite (py_truediv_pos _ d Hd), Ed. cbn [bind].
    rewrite (zero_div_pos fd Nd Pd). reflexivity. }
  split; [exact S|].
  rewrite swimming_calories, S. cbn [bind].
  rewrite calories_swimming_eval, Ew, Ed. cbn [bind].
  change (0 + 1.1)%float with 1.1%float. reflexivity.
Qed.

End Resting.

Section RestingAtExamples.
#[local] Existing Instance correctly_rounded.

Lemma walking_at_rest_witness :
  on_new SportsWalking [PyInt 0; PyInt 1; PyInt 75; PyInt 180]
    get_spent_calories
  = Ok (PyFloat (0.035 * 75 * 60)).
Proof.
  destruct (walking_at_rest (PyInt 1) (PyInt 75) (PyInt 180) 1%float
              75%float 1.8%float (PyInt 60) 60%float eq_refl eq_refl eq_refl
              eq_refl eq_refl eq_refl eq_refl eq_refl eq_refl) as [_ H].
  exact H.
Defined.

Lemma swimming_at_rest_witness :
  on_new Swimming [PyInt 720; PyInt 1; PyInt 80; PyInt 25; PyInt 0]
    get_spent_calories
  = Ok (PyFloat (1.1 * 2 * 80 * 1)).
Proof.
  destruct (swimming_at_rest (PyInt 720) (PyInt 1) (PyInt 80) 25 0 1%float
              80%float eq_refl eq_refl eq_refl eq_refl) as [_ H].
  exact H.
Defined.

End RestingAtExamples.
